(** * Ground Control: the GraphQL schema's resolvers and mutations

    A shallow embedding of [src/backend/data/schema.js]: the session guards,
    the primary-row helpers, interviewee selection, the [nearbyPeople] radius
    search and the mutations, over an explicit model of the relational
    database and of the external collaborators (the BSD CRM, Mailgun, the
    log). *)

From Stdlib Require Import ZArith List String Ascii Bool Lia DecimalString Permutation.
Import ListNotations.
Local Open Scope string_scope.
Local Open Scope Z_scope.

Set Implicit Arguments.
Set Warnings "-register-all".

(** ** JavaScript values *)

(** Identifiers travel through GraphQL as strings ([fromGlobalId] returns
    strings); the model keeps every key column as a string, so that
    JavaScript's [===] and SQL's [=] on keys are both string equality. *)
Definition ident := string.

(** A point of the projected plane (the [geom] columns). *)
Record Geom : Type := mkGeom { gx : Z; gy : Z }.

Inductive jsval : Type :=
| JUndefined
| JNull
| JBool (b : bool)
| JNum (n : Z)
| JStr (s : string)
| JDate (ms : Z)
| JGeom (g : Geom)
| JObj (fields : list (string * jsval)).

(** A JS object: its own enumerable properties in enumeration order. *)
Definition obj := list (string * jsval).

Fixpoint prop (o : obj) (k : string) : jsval :=
  match o with
  | [] => JUndefined
  | (k', v) :: o' => if String.eqb k' k then v else prop o' k
  end.

Definition has_prop (o : obj) (k : string) : bool :=
  existsb (fun kv => String.eqb (fst kv) k) o.

(** [o[k] = v] for a key that is not an array index: an existing property
    keeps its place, a new one is added last. *)
Fixpoint set_prop (o : obj) (k : string) (v : jsval) : obj :=
  match o with
  | [] => [(k, v)]
  | (k', v') :: o' =>
      if String.eqb k' k then (k, v) :: o' else (k', v') :: set_prop o' k v
  end.

(** [delete o[k]]. *)
Definition delete_prop (o : obj) (k : string) : obj :=
  filter (fun kv => negb (String.eqb (fst kv) k)) o.

Definition keys (o : obj) : list string := map fst o.

(** [{...a, ...b}]. *)
Definition spread (a b : obj) : obj :=
  fold_left (fun acc kv => set_prop acc (fst kv) (snd kv)) b a.

Definition truthy (v : jsval) : bool :=
  match v with
  | JUndefined | JNull => false
  | JBool b => b
  | JNum n => negb (n =? 0)
  | JStr s => negb (String.eqb s "")
  | JDate _ | JGeom _ | JObj _ => true
  end.

Definition Geom_eqb (a b : Geom) : bool := (gx a =? gx b) && (gy a =? gy b).

(** Equality of two column values, as [select distinct] compares them. *)
Fixpoint jsval_eqb (a b : jsval) : bool :=
  match a, b with
  | JUndefined, JUndefined => true
  | JNull, JNull => true
  | JBool x, JBool y => Bool.eqb x y
  | JNum x, JNum y => x =? y
  | JStr x, JStr y => String.eqb x y
  | JDate x, JDate y => x =? y
  | JGeom x, JGeom y => Geom_eqb x y
  | JObj f, JObj g =>
      (fix fields_eqb (f g : list (string * jsval)) : bool :=
         match f, g with
         | [], [] => true
         | (k, v) :: f', (k', v') :: g' =>
             String.eqb k k' && jsval_eqb v v' && fields_eqb f' g'
         | _, _ => false
         end) f g
  | _, _ => false
  end.

Definition truthy_str (s : option string) : bool :=
  match s with
  | Some s => negb (String.eqb s "")
  | None => false
  end.

(** ** [JSON.stringify] on the error objects the schema builds *)

Definition dquote : ascii := "034"%char.
Definition backslash : ascii := "092"%char.

Definition string_of_Z (n : Z) : string := NilZero.string_of_int (Z.to_int n).

Definition hex_digit (n : nat) : ascii :=
  nth n (list_ascii_of_string "0123456789abcdef") "0"%char.

Definition json_escape_char (c : ascii) : string :=
  let n := nat_of_ascii c in
  if Ascii.eqb c dquote then String backslash (String dquote "")
  else if Ascii.eqb c backslash then String backslash (String backslash "")
  else if Nat.eqb n 8 then String backslash "b"
  else if Nat.eqb n 9 then String backslash "t"
  else if Nat.eqb n 10 then String backslash "n"
  else if Nat.eqb n 12 then String backslash "f"
  else if Nat.eqb n 13 then String backslash "r"
  else if Nat.ltb n 32 then
    String backslash
      ("u00" ++ String (hex_digit (Nat.div n 16)) (String (hex_digit (Nat.modulo n 16)) ""))
  else String c "".

Fixpoint json_escape (s : string) : string :=
  match s with
  | EmptyString => ""
  | String c s' => json_escape_char c ++ json_escape s'
  end.

Definition json_quote (s : string) : string :=
  String dquote (json_escape s ++ String dquote "").

(** The argument of [new GraphQLError(...)]: [{status, message}]. *)
Record ErrorObject : Type := mkErrorObject {
  status : Z;
  message : string
}.

Definition JSON_stringify (e : ErrorObject) : string :=
  "{" ++ json_quote "status" ++ ":" ++ string_of_Z (status e) ++ ","
      ++ json_quote "message" ++ ":" ++ json_quote (message e) ++ "}".

(** ** Exceptions *)

Inductive exn : Type :=
| GraphQLError (msg : string)          (* the schema's own class *)
| Error (msg : string)                 (* [new Error(...)] *)
| TypeError (msg : string)             (* property access on undefined/null *)
| SyntaxError (msg : string)           (* [JSON.parse] *)
| BSDValidationError (msg : string)
| BSDExistsError (msg : string)
| ExternalError (status_code : Z) (msg : string). (* a failed HTTP or mail request *)

(** [class GraphQLError]: the message is the serialised error object. *)
Definition newGraphQLError (e : ErrorObject) : exn :=
  GraphQLError (JSON_stringify e).

Inductive Result (A : Type) : Type :=
| Ok (a : A)
| Throw (e : exn).
Arguments Ok {A} a.
Arguments Throw {A} e.

Local Open Scope list_scope.

(** ** The relational schema

    One module per table whose columns the resolvers name; a table is the
    list of its rows in the order an unordered [select] returns them. *)

Module User.
Record t : Type := mk {
  id : ident;
  email : string;
  is_admin : bool;
  is_superuser : bool
}.
End User.

Module AssignedCall.
Record t : Type := mk {
  id : Z;
  caller_id : ident;
  interviewee_id : ident;
  call_assignment_id : ident;
  create_dt : Z;
  modified_dt : Z
}.
End AssignedCall.

Module Call.
Record t : Type := mk {
  id : Z;
  completed : bool;
  attempted_at : Z;
  left_voicemail : option bool;
  sent_text : option bool;
  reason_not_completed : option string;
  caller_id : ident;
  interviewee_id : ident;
  call_assignment_id : ident
}.
End Call.

Module CallAssignment.
Record t : Type := mk {
  id : ident;
  name : string;
  renderer : string;
  instructions : option string;
  interviewee_group : ident;
  gc_bsd_survey_id : ident;
  start_dt : Z;
  end_dt : option Z;
  caller_group : option ident
}.
End CallAssignment.

Module Survey.
(* gc_bsd_surveys *)
Record t : Type := mk {
  id : ident;
  signup_form_id : ident;
  processors : option (list string)
}.
End Survey.

Module Group.
(* gc_bsd_groups *)
Record t : Type := mk {
  id : ident;
  cons_group_id : option ident;
  query : option string
}.
End Group.

Module Person.
Record t : Type := mk {
  cons_id : ident;
  columns : obj          (* firstname, lastname, ... *)
}.
End Person.

Module PersonGroup.
(* bsd_person_bsd_groups and bsd_person_gc_bsd_groups *)
Record t : Type := mk {
  cons_id : ident;
  group_id : ident
}.
End PersonGroup.

Module Email.
Record t : Type := mk {
  cons_id : ident;
  email : string;
  is_primary : bool
}.
End Email.

Module Phone.
Record t : Type := mk {
  cons_id : ident;
  phone : string;
  is_primary : bool
}.
End Phone.

Module Address.
Record t : Type := mk {
  cons_addr_id : ident;
  cons_id : ident;
  zip : string;
  is_primary : bool;
  geom : Geom
}.
End Address.

Module ZipCode.
Record t : Type := mk {
  zip : string;
  timezone_offset : Z
}.
End ZipCode.

Module SurveyField.
Record t : Type := mk {
  signup_form_field_id : ident;
  signup_form_id : ident;
  label : string
}.
End SurveyField.

Module GcEvent.
Record t : Type := mk {
  event_id : ident;
  pending_review : bool;
  turn_out_assignment : option ident
}.
End GcEvent.

Module Attendee.
Record t : Type := mk {
  attendee_cons_id : ident;
  event_id : ident
}.
End Attendee.

Module Communication.
Record t : Type := mk {
  id : Z;
  person_id : ident;
  type : string
}.
End Communication.

Module Subscription.
Record t : Type := mk {
  cons_id : ident;
  isunsub : bool
}.
End Subscription.

Module FastFwdRequest.
Record t : Type := mk {
  id : Z;
  event_id : ident;
  host_message : string;
  email_sent_dt : option string
}.
End FastFwdRequest.

Record Database : Type := mkDatabase {
  bsd_assigned_calls : list AssignedCall.t;
  bsd_calls : list Call.t;
  bsd_call_assignments : list CallAssignment.t;
  gc_bsd_surveys : list Survey.t;
  gc_bsd_groups : list Group.t;
  bsd_people : list Person.t;
  bsd_person_bsd_groups : list PersonGroup.t;
  bsd_person_gc_bsd_groups : list PersonGroup.t;
  bsd_emails : list Email.t;
  bsd_phones : list Phone.t;
  bsd_addresses : list Address.t;
  zip_codes : list ZipCode.t;
  bsd_survey_fields : list SurveyField.t;
  bsd_events : list obj;
  gc_bsd_events : list GcEvent.t;
  bsd_event_attendees : list Attendee.t;
  communications : list Communication.t;
  bsd_subscriptions : list Subscription.t;
  fast_fwd_request : list FastFwdRequest.t;
  bsd_surveys : list obj;
  bsd_groups : list obj
}.

Definition with_bsd_assigned_calls (v : list AssignedCall.t) (d : Database) :=
  mkDatabase v (bsd_calls d) (bsd_call_assignments d) (gc_bsd_surveys d)
    (gc_bsd_groups d) (bsd_people d) (bsd_person_bsd_groups d)
    (bsd_person_gc_bsd_groups d) (bsd_emails d) (bsd_phones d) (bsd_addresses d)
    (zip_codes d) (bsd_survey_fields d) (bsd_events d) (gc_bsd_events d)
    (bsd_event_attendees d) (communications d) (bsd_subscriptions d)
    (fast_fwd_request d) (bsd_surveys d) (bsd_groups d).

Definition with_bsd_calls (v : list Call.t) (d : Database) :=
  mkDatabase (bsd_assigned_calls d) v (bsd_call_assignments d) (gc_bsd_surveys d)
    (gc_bsd_groups d) (bsd_people d) (bsd_person_bsd_groups d)
    (bsd_person_gc_bsd_groups d) (bsd_emails d) (bsd_phones d) (bsd_addresses d)
    (zip_codes d) (bsd_survey_fields d) (bsd_events d) (gc_bsd_events d)
    (bsd_event_attendees d) (communications d) (bsd_subscriptions d)
    (fast_fwd_request d) (bsd_surveys d) (bsd_groups d).

Definition with_bsd_call_assignments (v : list CallAssignment.t) (d : Database) :=
  mkDatabase (bsd_assigned_calls d) (bsd_calls d) v (gc_bsd_surveys d)
    (gc_bsd_groups d) (bsd_people d) (bsd_person_bsd_groups d)
    (bsd_person_gc_bsd_groups d) (bsd_emails d) (bsd_phones d) (bsd_addresses d)
    (zip_codes d) (bsd_survey_fields d) (bsd_events d) (gc_bsd_events d)
    (bsd_event_attendees d) (communications d) (bsd_subscriptions d)
    (fast_fwd_request d) (bsd_surveys d) (bsd_groups d).

Definition with_gc_bsd_surveys (v : list Survey.t) (d : Database) :=
  mkDatabase (bsd_assigned_calls d) (bsd_calls d) (bsd_call_assignments d) v
    (gc_bsd_groups d) (bsd_people d) (bsd_person_bsd_groups d)
    (bsd_person_gc_bsd_groups d) (bsd_emails d) (bsd_phones d) (bsd_addresses d)
    (zip_codes d) (bsd_survey_fields d) (bsd_events d) (gc_bsd_events d)
    (bsd_event_attendees d) (communications d) (bsd_subscriptions d)
    (fast_fwd_request d) (bsd_surveys d) (bsd_groups d).

Definition with_gc_bsd_groups (v : list Group.t) (d : Database) :=
  mkDatabase (bsd_assigned_calls d) (bsd_calls d) (bsd_call_assignments d)
    (gc_bsd_surveys d) v (bsd_people d) (bsd_person_bsd_groups d)
    (bsd_person_gc_bsd_groups d) (bsd_emails d) (bsd_phones d) (bsd_addresses d)
    (zip_codes d) (bsd_survey_fields d) (bsd_events d) (gc_bsd_events d)
    (bsd_event_attendees d) (communications d) (bsd_subscriptions d)
    (fast_fwd_request d) (bsd_surveys d) (bsd_groups d).

Definition with_bsd_survey_fields (v : list SurveyField.t) (d : Database) :=
  mkDatabase (bsd_assigned_calls d) (bsd_calls d) (bsd_call_assignments d)
    (gc_bsd_surveys d) (gc_bsd_groups d) (bsd_people d) (bsd_person_bsd_groups d)
    (bsd_person_gc_bsd_groups d) (bsd_emails d) (bsd_phones d) (bsd_addresses d)
    (zip_codes d) v (bsd_events d) (gc_bsd_events d)
    (bsd_event_attendees d) (communications d) (bsd_subscriptions d)
    (fast_fwd_request d) (bsd_surveys d) (bsd_groups d).

Definition with_bsd_events (v : list obj) (d : Database) :=
  mkDatabase (bsd_assigned_calls d) (bsd_calls d) (bsd_call_assignments d)
    (gc_bsd_surveys d) (gc_bsd_groups d) (bsd_people d) (bsd_person_bsd_groups d)
    (bsd_person_gc_bsd_groups d) (bsd_emails d) (bsd_phones d) (bsd_addresses d)
    (zip_codes d) (bsd_survey_fields d) v (gc_bsd_events d)
    (bsd_event_attendees d) (communications d) (bsd_subscriptions d)
    (fast_fwd_request d) (bsd_surveys d) (bsd_groups d).

Definition with_gc_bsd_events (v : list GcEvent.t) (d : Database) :=
  mkDatabase (bsd_assigned_calls d) (bsd_calls d) (bsd_call_assignments d)
    (gc_bsd_surveys d) (gc_bsd_groups d) (bsd_people d) (bsd_person_bsd_groups d)
    (bsd_person_gc_bsd_groups d) (bsd_emails d) (bsd_phones d) (bsd_addresses d)
    (zip_codes d) (bsd_survey_fields d) (bsd_events d) v
    (bsd_event_attendees d) (communications d) (bsd_subscriptions d)
    (fast_fwd_request d) (bsd_surveys d) (bsd_groups d).

Definition with_communications (v : list Communication.t) (d : Database) :=
  mkDatabase (bsd_assigned_calls d) (bsd_calls d) (bsd_call_assignments d)
    (gc_bsd_surveys d) (gc_bsd_groups d) (bsd_people d) (bsd_person_bsd_groups d)
    (bsd_person_gc_bsd_groups d) (bsd_emails d) (bsd_phones d) (bsd_addresses d)
    (zip_codes d) (bsd_survey_fields d) (bsd_events d) (gc_bsd_events d)
    (bsd_event_attendees d) v (bsd_subscriptions d)
    (fast_fwd_request d) (bsd_surveys d) (bsd_groups d).

Definition with_fast_fwd_request (v : list FastFwdRequest.t) (d : Database) :=
  mkDatabase (bsd_assigned_calls d) (bsd_calls d) (bsd_call_assignments d)
    (gc_bsd_surveys d) (gc_bsd_groups d) (bsd_people d) (bsd_person_bsd_groups d)
    (bsd_person_gc_bsd_groups d) (bsd_emails d) (bsd_phones d) (bsd_addresses d)
    (zip_codes d) (bsd_survey_fields d) (bsd_events d) (gc_bsd_events d)
    (bsd_event_attendees d) (communications d) (bsd_subscriptions d)
    v (bsd_surveys d) (bsd_groups d).

Definition with_bsd_surveys (v : list obj) (d : Database) :=
  mkDatabase (bsd_assigned_calls d) (bsd_calls d) (bsd_call_assignments d)
    (gc_bsd_surveys d) (gc_bsd_groups d) (bsd_people d) (bsd_person_bsd_groups d)
    (bsd_person_gc_bsd_groups d) (bsd_emails d) (bsd_phones d) (bsd_addresses d)
    (zip_codes d) (bsd_survey_fields d) (bsd_events d) (gc_bsd_events d)
    (bsd_event_attendees d) (communications d) (bsd_subscriptions d)
    (fast_fwd_request d) v (bsd_groups d).

Definition with_bsd_groups (v : list obj) (d : Database) :=
  mkDatabase (bsd_assigned_calls d) (bsd_calls d) (bsd_call_assignments d)
    (gc_bsd_surveys d) (gc_bsd_groups d) (bsd_people d) (bsd_person_bsd_groups d)
    (bsd_person_gc_bsd_groups d) (bsd_emails d) (bsd_phones d) (bsd_addresses d)
    (zip_codes d) (bsd_survey_fields d) (bsd_events d) (gc_bsd_events d)
    (bsd_event_attendees d) (communications d) (bsd_subscriptions d)
    (fast_fwd_request d) (bsd_surveys d) v.

(** ** External collaborators and the world a request runs in *)

(** Requests to the BSD CRM ([BSDClient]). *)
Inductive CrmCall : Type :=
| UpdateEvent (event : obj)
| DeleteEvents (ids : list ident)
| ApiRequest (method : string) (args : list jsval)
| GetForm (id : ident)
| ListFormFields (id : ident)
| GetConstituentGroup (id : ident)
| CheckCredentials (email password : string)
| SetConstituentPassword (email password : string).

(** Messages handed to Mailgun. *)
Inductive Mail : Type :=
| EventDeletionNotification (recipient : string) (msg : option string) (events : list obj)
| HostAttendeesEmail (replyTo : option string) (bcc : list (option string))
    (subject : option string) (text : option string)
| AdminEventInvite (hostAddress senderAddress hostMessage senderMessage : string)
    (recipientAddress : option string) (hostEmailSubject : string).

(** Lines written through [log]. *)
Inductive LogEntry : Type :=
| LogInfo (text : string)
| LogError (text : string)
| LogNearbyQuery (center : Geom) (radius : Z) (foundConsIds : list ident)
| LogIntervieweeQuery (callAssignmentId : ident) (validOffsets : list Z)
    (notSelf : option ident).

(** What a request cannot decide itself: the clock, the process environment,
    the answers of the CRM and of the mail provider, and what a statement
    written by an admin does to the tables. One request reads the clock as
    a single instant. *)
Record Env : Type := mkEnv {
  now : Z;                           (* milliseconds since the epoch, UTC *)
  NODE_ENV : string;
  bsd : CrmCall -> Result jsval;
  mailgun : Mail -> Result unit;
  raw_query : string -> Database -> Result Database
    (* [knex.raw]: the tables as the statement leaves them, or the
       database's refusal, which changes nothing *)
}.

Record World : Type := mkWorld {
  db : Database;
  outbox : list Mail;
  crm_calls : list CrmCall;
  logs : list LogEntry
}.

(** ** The request monad: state that survives a throw *)

Definition M (A : Type) : Type := World -> Result A * World.

Definition ret {A} (a : A) : M A := fun w => (Ok a, w).

Definition bind {A B} (c : M A) (k : A -> M B) : M B :=
  fun w =>
    match c w with
    | (Ok a, w') => k a w'
    | (Throw e, w') => (Throw e, w')
    end.

Definition throw {A} (e : exn) : M A := fun w => (Throw e, w).

(** [try { c } catch (ex) { h ex }]. *)
Definition try_catch {A} (c : M A) (h : exn -> M A) : M A :=
  fun w =>
    match c w with
    | (Ok a, w') => (Ok a, w')
    | (Throw e, w') => h e w'
    end.

Declare Scope req_scope.
Delimit Scope req_scope with req.
Notation "x <- c ;; k" := (bind c (fun x => k))
  (at level 61, c at next level, right associativity) : req_scope.
Notation "c ;; k" := (bind c (fun _ => k))
  (at level 61, right associativity) : req_scope.
Local Open Scope req_scope.

Definition query {A} (f : Database -> A) : M A := fun w => (Ok (f (db w)), w).

Definition update (f : Database -> Database) : M unit :=
  fun w => (Ok tt, mkWorld (f (db w)) (outbox w) (crm_calls w) (logs w)).

Definition log_write (e : LogEntry) : M unit :=
  fun w => (Ok tt, mkWorld (db w) (outbox w) (crm_calls w) (logs w ++ [e])).

(** A Mailgun call: the message is handed over, the provider may refuse. *)
Definition Mailgun_send (env : Env) (m : Mail) : M unit :=
  fun w => (mailgun env m, mkWorld (db w) (outbox w ++ [m]) (crm_calls w) (logs w)).

(** A BSD call that propagates the CRM's failure. *)
Definition BSDClient_request (env : Env) (c : CrmCall) : M jsval :=
  fun w => (bsd env c, mkWorld (db w) (outbox w) (crm_calls w ++ [c]) (logs w)).

(** Modelled from the spec: [BSDClient.noFailApiRequest] lives in
    [backend/bsd], which is not among the sources. The spec: CRM API failures
    are caught and ignored ("noFailApiRequest"). The request is made and its
    failure is swallowed. *)
Definition BSDClient_noFailApiRequest (env : Env) (method : string)
    (args : list jsval) : M unit :=
  try_catch (_ <- BSDClient_request env (ApiRequest method args) ;; ret tt)
            (fun _ => ret tt).

(** [knex.transaction(async (trx) => body)]: the handler's writes are
    committed when it returns and undone when it throws. What left the
    process (mail, CRM requests, log lines) stays. *)
Definition transaction {A} (body : M A) : M A :=
  fun w =>
    match body w with
    | (Ok a, w') => (Ok a, w')
    | (Throw e, w') => (Throw e, mkWorld (db w) (outbox w') (crm_calls w') (logs w'))
    end.

(** A transaction whose handler also writes through the pool, outside
    [trx]. A rollback undoes what went through [trx] only: it leaves
    [kept final start], the tables of the start with the pool's writes,
    read off the final tables, put back. *)
Definition transaction_keeping {A} (kept : Database -> Database -> Database)
    (body : M A) : M A :=
  fun w =>
    match body w with
    | (Ok a, w') => (Ok a, w')
    | (Throw e, w') =>
        (Throw e, mkWorld (kept (db w') (db w)) (outbox w') (crm_calls w') (logs w'))
    end.

(** [for (x of xs) await body(x)]. *)
Fixpoint for_each {A} (xs : list A) (body : A -> M unit) : M unit :=
  match xs with
  | [] => ret tt
  | x :: xs' => body x ;; for_each xs' body
  end.

(** [.first()]: the first row or [undefined]. *)
Definition first {A} (rows : list A) : option A := hd_error rows.

(** Reading a property of a row that may be [undefined]. *)
Definition deref {A} (what : string) (r : option A) : M A :=
  match r with
  | Some a => ret a
  | None => throw (TypeError ("Cannot read property of undefined: " ++ what)%string)
  end.

(** ** Sessions and guards *)

(** [rootValue]: the request's session. Its [loaders] read the database and
    are modelled with it. *)
Record Session : Type := mkSession {
  user : option User.t
}.

Definition authRequired (session : Session) : M unit :=
  match user session with
  | None =>
      throw (newGraphQLError
               (mkErrorObject 401 "You must login to access that resource."))
  | Some _ => ret tt
  end.

Definition adminRequired (session : Session) : M unit :=
  authRequired session ;;
  match user session with
  | Some u =>
      if User.is_admin u then ret tt
      else throw (newGraphQLError
                    (mkErrorObject 403 "You are not authorized to access that resource."))
  | None =>
      throw (newGraphQLError
               (mkErrorObject 403 "You are not authorized to access that resource."))
  end.

Definition superuserRequired (session : Session) : M unit :=
  authRequired session ;;
  match user session with
  | Some u =>
      if User.is_superuser u then ret tt
      else throw (newGraphQLError
                    (mkErrorObject 403 "You are not authorized to access that resource."))
  | None =>
      throw (newGraphQLError
               (mkErrorObject 403 "You are not authorized to access that resource."))
  end.

(** [rootValue.user] once a guard has passed. *)
Definition session_user (session : Session) : M User.t :=
  deref "user" (user session).

(** ** Primary rows of a person *)

Definition is_primary_email_of (cons_id : ident) (r : Email.t) : bool :=
  Email.is_primary r && String.eqb (Email.cons_id r) cons_id.

Definition is_primary_address_of (cons_id : ident) (r : Address.t) : bool :=
  Address.is_primary r && String.eqb (Address.cons_id r) cons_id.

Definition is_primary_phone_of (cons_id : ident) (r : Phone.t) : bool :=
  Phone.is_primary r && String.eqb (Phone.cons_id r) cons_id.

(** The optional [transaction] argument only chooses the connection; the
    state threaded through [M] is the one that connection sees. *)
Definition getPrimaryEmail (person : Person.t) : M (option string) :=
  emails <- query (fun d =>
    first (filter (is_primary_email_of (Person.cons_id person)) (bsd_emails d))) ;;
  ret (match emails with
       | Some r => Some (Email.email r)
       | None => None
       end).

Definition getPrimaryAddress (person : Person.t) : M (option Address.t) :=
  query (fun d =>
    first (filter (is_primary_address_of (Person.cons_id person)) (bsd_addresses d))).

Definition getPrimaryPhone (person : Person.t) : M (option string) :=
  phones <- query (fun d =>
    first (filter (is_primary_phone_of (Person.cons_id person)) (bsd_phones d))) ;;
  ret (match phones with
       | Some r => Some (Phone.phone r)
       | None => None
       end).

(** Modelled from the spec: the DataLoader instances of [rootValue.loaders]
    are built outside [schema.js]. The spec describes the resolvers as
    running database queries keyed by the foreign keys; a loader fetches the
    row of its table with the given key, or nothing. *)
Definition load_bsdCallAssignments (id : ident) : M (option CallAssignment.t) :=
  query (fun d => first (filter (fun r => String.eqb (CallAssignment.id r) id)
                                (bsd_call_assignments d))).

Definition load_gcBsdGroups (id : ident) : M (option Group.t) :=
  query (fun d => first (filter (fun r => String.eqb (Group.id r) id)
                                (gc_bsd_groups d))).

Definition load_bsdPeople (id : ident) : M (option Person.t) :=
  query (fun d => first (filter (fun r => String.eqb (Person.cons_id r) id)
                                (bsd_people d))).

Definition sql_key (v : jsval) : option string :=
  match v with
  | JStr s => Some s
  | JNum n => Some (string_of_Z n)
  | _ => None
  end.

(** [where(column, id)] on a row kept as an object. *)
Definition column_is (column : string) (id : ident) (row : obj) : bool :=
  match sql_key (prop row column) with
  | Some s => String.eqb s id
  | None => false
  end.

Definition column_in (column : string) (ids : list ident) (row : obj) : bool :=
  existsb (fun id => column_is column id row) ids.

Definition load_bsdEvents (id : ident) : M (option obj) :=
  query (fun d => first (filter (fun r => column_is "event_id" id r
                                          || column_is "event_id_obfuscated" id r)
                                (bsd_events d))).

(** A number bound to a statement travels as its decimal text. *)
Definition number_key (n : option Z) : ident :=
  match n with
  | Some n => string_of_Z n
  | None => "NaN"
  end.

(** The key a serial column gives the next inserted row: one more than
    the largest key in the table, which is what the table's sequence hands
    out as long as no row was deleted and no insert was rolled back. Where
    rows are deleted the properties leave the key open. *)
Definition next_id (ids : list Z) : Z := 1 + fold_right Z.max 0 ids.

Definition EVERYONE_GROUP : string := "everyone".

Record ResolvedGlobalId : Type := mkResolvedGlobalId {
  type : string;
  id : string
}.

(** ** Mutation inputs *)

Module SubmitCallSurveyInput.
Record t : Type := mk {
  callAssignmentId : string;
  intervieweeId : string;
  completed : bool;
  leftVoicemail : option bool;
  sentText : option bool;
  reasonNotCompleted : option string;
  surveyFieldValues : string
}.
End SubmitCallSurveyInput.

Module DeleteEventsInput.
Record t : Type := mk {
  ids : list string;
  hostMessage : option string
}.
End DeleteEventsInput.

Module EmailHostAttendeesInput.
Record t : Type := mk {
  ids : list string;
  replyTo : option string;
  bcc : option (list string);
  subject : option string;
  message : option string;
  target : option string
}.
End EmailHostAttendeesInput.

Module ReviewEventsInput.
Record t : Type := mk {
  ids : list string;
  pendingReview : option bool
}.
End ReviewEventsInput.

Module EditEventsInput.
Record t : Type := mk {
  events : list obj
}.
End EditEventsInput.

Module CreateAdminEventEmailInput.
Record t : Type := mk {
  hostEmail : string;
  senderEmail : string;
  adminEmail : string;
  hostEmailSubject : string;
  hostMessage : string;
  senderMessage : string;
  recipients : option (list string);
  toolPassword : string;
  eventId : string
}.
End CreateAdminEventEmailInput.

Module CreateCallAssignmentInput.
Record t : Type := mk {
  name : string;
  intervieweeGroup : string;
  surveyId : Z;
  renderer : string;
  processors : option (list string);
  instructions : option string;
  startDate : option Z;
  endDate : option Z;
  callerGroupId : option string
}.
End CreateCallAssignmentInput.

Module ChangeUserPasswordInput.
Record t : Type := mk {
  currentPassword : option string;
  newPassword : option string
}.
End ChangeUserPasswordInput.

(** ** Text helpers *)

Definition is_digit (c : ascii) : bool :=
  let n := nat_of_ascii c in Nat.leb 48 n && Nat.leb n 57.

(** [/^\d+$/.test(s)]. *)
Definition all_digits (s : string) : bool :=
  match list_ascii_of_string s with
  | [] => false
  | cs => forallb is_digit cs
  end.

(** Letter case, blanks and [indexOf] on ASCII text. *)
Definition to_lower (c : ascii) : ascii :=
  let n := nat_of_ascii c in
  if Nat.leb 65 n && Nat.leb n 90 then ascii_of_nat (n + 32) else c.

Definition toLowerCase (s : string) : string :=
  string_of_list_ascii (map to_lower (list_ascii_of_string s)).

(** SQL [like]: [%] any run of characters, [_] any one character, a
    backslash takes the next character literally. *)
Fixpoint like (p s : list ascii) {struct p} : bool :=
  match p with
  | [] => match s with [] => true | _ => false end
  | c :: p' =>
      if Ascii.eqb c "%"%char then
        (fix star (s : list ascii) : bool :=
           like p' s || match s with [] => false | _ :: s' => star s' end) s
      else if Ascii.eqb c "_"%char then
        match s with _ :: s' => like p' s' | [] => false end
      else if Ascii.eqb c backslash then
        match p' with
        | e :: p'' =>
            match s with x :: s' => Ascii.eqb e x && like p'' s' | [] => false end
        | [] => false
        end
      else match s with x :: s' => Ascii.eqb c x && like p' s' | [] => false end
  end.

Definition ilike (pattern s : string) : bool :=
  like (map to_lower (list_ascii_of_string pattern))
       (map to_lower (list_ascii_of_string s)).

Definition newline : string := String "010"%char "".

Fixpoint digits_value (cs : list ascii) (acc : option Z) : option Z :=
  match cs with
  | c :: cs' =>
      if is_digit c then
        digits_value cs'
          (Some (10 * match acc with Some a => a | None => 0 end
                 + Z.of_nat (nat_of_ascii c - 48)))
      else acc
  | [] => acc
  end.

Definition is_space (c : ascii) : bool :=
  let n := nat_of_ascii c in
  Nat.eqb n 32 || (Nat.leb 9 n && Nat.leb n 13).

Fixpoint drop_while (f : ascii -> bool) (cs : list ascii) : list ascii :=
  match cs with
  | c :: cs' => if f c then drop_while f cs' else cs
  | [] => []
  end.

(** [parseInt(s, 10)]: leading blanks are skipped, a sign may follow, and
    the value is that of the digits that come next, up to the first
    character that is not a digit; [None] for [NaN]. The blanks are the
    ASCII ones. *)
Definition parseInt (s : string) : option Z :=
  match drop_while is_space (list_ascii_of_string s) with
  | "-"%char :: cs => option_map Z.opp (digits_value cs None)
  | "+"%char :: cs => digits_value cs None
  | cs => digits_value cs None
  end.

(** The keys an object enumerates before all others, in ascending order:
    array indices, the canonical numerals from 0 to 4294967294. *)
Definition array_index (k : string) : option Z :=
  match parseInt k with
  | Some n =>
      if String.eqb (string_of_Z n) k && (0 <=? n) && (n <=? 4294967294)
      then Some n else None
  | None => None
  end.

Fixpoint insert_index (n : Z) (k : string) (v : jsval) (o : obj) : obj :=
  match o with
  | [] => [(k, v)]
  | (k', v') :: o' =>
      match array_index k' with
      | Some n' => if n' <? n then (k', v') :: insert_index n k v o' else (k, v) :: o
      | None => (k, v) :: o
      end
  end.

(** [o[k] = v] on an object whose keys may be array indices: an existing
    property keeps its place, a new array index goes to its place among the
    indices, any other new key goes last. *)
Definition assign (o : obj) (k : string) (v : jsval) : obj :=
  if has_prop o k then set_prop o k v
  else match array_index k with
       | Some n => insert_index n k v o
       | None => set_prop o k v
       end.

Definition drop_while_end (f : ascii -> bool) (cs : list ascii) : list ascii :=
  rev (drop_while f (rev cs)).

(** [s.trim()]. *)
Definition trim (s : string) : string :=
  string_of_list_ascii
    (drop_while_end is_space (drop_while is_space (list_ascii_of_string s))).

(** [s.replace(/;*$/, '')]. *)
Definition strip_semicolons (s : string) : string :=
  string_of_list_ascii
    (drop_while_end (fun c => Ascii.eqb c ";"%char) (list_ascii_of_string s)).

(** The next key of a serial column read back as a string; see
    [next_id]. *)
Definition fresh_ident (ids : list ident) : ident :=
  string_of_Z (next_id (map (fun i => match parseInt i with
                                      | Some n => n
                                      | None => 0
                                      end) ids)).

(** [s.indexOf(sub) !== -1]. *)
Fixpoint includes (sub s : string) : bool :=
  String.prefix sub s
  || match s with
     | EmptyString => false
     | String _ s' => includes sub s'
     end.

Section Schema.

(** Library functions the schema imports: graphql-relay's [fromGlobalId],
    [JSON.parse] ([None] when it throws), humps' [decamelize], PostGIS'
    [st_dwithin], [Date.prototype.toISOString] and the conversion
    [Number(v)], which is [Some n] when its result is the integer [n] and
    [None] when it is [NaN] or not an integer. *)
Variable fromGlobalId : string -> ResolvedGlobalId.
Variable JSON_parse : string -> option jsval.
Variable decamelize : string -> string.
Variable st_dwithin : Geom -> Geom -> Z -> bool.
Variable toISOString : Z -> string.
Variable Number : jsval -> option Z.

(** The idiom of every resolver that takes a call assignment id: a global
    id of type CallAssignment is unwrapped, anything else is used as is. *)
Definition localIdOf (expected : string) (globalId : string) : ident :=
  let localId := fromGlobalId globalId in
  if negb (String.eqb (type localId) expected) then globalId else id localId.

(** ** Interviewee selection *)

(** [moment().utcOffset(offset).hours()] for a whole-hour offset. *)
Definition hours_at (env : Env) (offset : Z) : Z :=
  (now env / 3600000 + offset) mod 24.

Definition allOffsets : list Z := [-10; -9; -8; -7; -6; -5; -4].

Definition callable_hour (h : Z) : bool := (9 <=? h) && (h <? 21).

(** In development [validOffsets] is the very array [allOffsets]; [forEach]
    visits the seven elements the array had when it started and the pushes
    land behind them. *)
Definition validOffsets (env : Env) : list Z :=
  let initial :=
    if String.eqb (NODE_ENV env) "development" then allOffsets else [] in
  fold_left
    (fun valid offset =>
       if callable_hour (hours_at env offset) then valid ++ [offset] else valid)
    allOffsets initial.

Definition reason_in (reason : option string) (l : list string) : bool :=
  match reason with
  | Some r => existsb (String.eqb r) l
  | None => false
  end.

(** The [where] clause of [previousCallsSubquery]: whom we should not call. *)
Definition previousCall (env : Env) (localCallAssignmentId : ident)
    (c : Call.t) : bool :=
  (Call.completed c && String.eqb (Call.call_assignment_id c) localCallAssignmentId)
  || reason_in (Call.reason_not_completed c)
       ["WRONG_NUMBER"; "DISCONNECTED_NUMBER"; "OTHER_LANGUAGE"]
  || (reason_in (Call.reason_not_completed c) ["NO_PICKUP"; "CALL_BACK"]
      && (now env - 24 * 60 * 60 * 1000 <? Call.attempted_at c))
  || (String.eqb (Call.call_assignment_id c) localCallAssignmentId
      && reason_in (Call.reason_not_completed c) ["NOT_INTERESTED"]).

Definition previousCallsSubquery (env : Env) (localCallAssignmentId : ident)
    (d : Database) : list ident :=
  map Call.interviewee_id
      (filter (previousCall env localCallAssignmentId) (bsd_calls d)).

Definition assignedCallsSubquery (d : Database) : list ident :=
  map AssignedCall.interviewee_id (bsd_assigned_calls d).

Definition mem_id (x : ident) (l : list ident) : bool :=
  existsb (String.eqb x) l.

(** The table the query reads [bsd_people.cons_id] from. *)
Definition intervieweeSource (group : Group.t) (d : Database) : list ident :=
  if truthy_str (Group.cons_group_id group) then
    map PersonGroup.cons_id
        (filter (fun r => match Group.cons_group_id group with
                          | Some g => String.eqb (PersonGroup.group_id r) g
                          | None => false
                          end)
                (bsd_person_bsd_groups d))
  else if truthy_str (Group.query group)
          && negb (match Group.query group with
                   | Some q => String.eqb q EVERYONE_GROUP
                   | None => false
                   end) then
    map PersonGroup.cons_id
        (filter (fun r => String.eqb (PersonGroup.group_id r) (Group.id group))
                (bsd_person_gc_bsd_groups d))
  else map Person.cons_id (bsd_people d).

Definition not_self (notSelf : option ident) (cons_id : ident) : bool :=
  match notSelf with
  | Some self => negb (String.eqb cons_id self)
  | None => true
  end.

(** The main query: the joins as nested loops over the tables, the [where]
    clauses on each joined row. *)
Definition intervieweeQuery (env : Env) (localCallAssignmentId : ident)
    (group : Group.t) (notSelf : option ident) (d : Database) : list ident :=
  flat_map (fun cons_id =>
    flat_map (fun phone =>
      flat_map (fun address =>
        flat_map (fun zip_code =>
          if negb (mem_id cons_id (previousCallsSubquery env localCallAssignmentId d))
             && negb (mem_id cons_id (assignedCallsSubquery d))
             && existsb (Z.eqb (ZipCode.timezone_offset zip_code)) (validOffsets env)
             && Phone.is_primary phone
             && Address.is_primary address
             && not_self notSelf cons_id
          then [cons_id] else [])
        (filter (fun z => String.eqb (ZipCode.zip z) (Address.zip address))
                (zip_codes d)))
      (filter (fun a => String.eqb (Address.cons_id a) cons_id) (bsd_addresses d)))
    (filter (fun p => String.eqb (Phone.cons_id p) cons_id) (bsd_phones d)))
  (intervieweeSource group d).

Definition intervieweeForCallAssignment (env : Env) (user : User.t)
    (callAssignmentId : string) : M (option Person.t) :=
  let localCallAssignmentId := localIdOf "CallAssignment" callAssignmentId in
  update (fun d =>
    with_bsd_assigned_calls
      (filter (fun r => negb (String.eqb (AssignedCall.caller_id r) (User.id user)))
              (bsd_assigned_calls d)) d) ;;
  callAssignment <- load_bsdCallAssignments localCallAssignmentId ;;
  if Nat.eqb (List.length (validOffsets env)) 0 then ret None
  else
    callAssignment <- deref "interviewee_group" callAssignment ;;
    group <- load_gcBsdGroups (CallAssignment.interviewee_group callAssignment) ;;
    group <- deref "cons_group_id" group ;;
    userAddress <- query (fun d =>
      first (filter (fun r => String.eqb (Email.email r) (User.email user))
                    (bsd_emails d))) ;;
    let notSelf := option_map Email.cons_id userAddress in
    log_write (LogIntervieweeQuery localCallAssignmentId (validOffsets env) notSelf) ;;
    person <- query (fun d =>
      first (intervieweeQuery env localCallAssignmentId group notSelf d)) ;;
    let timestamp := now env in
    match person with
    | Some cons_id =>
        (* Do this check again to avoid race conditions *)
        assignedCall <- query (fun d =>
          first (filter (fun r =>
                   String.eqb (AssignedCall.caller_id r) (User.id user)
                   && String.eqb (AssignedCall.call_assignment_id r)
                                 localCallAssignmentId)
                 (bsd_assigned_calls d))) ;;
        match assignedCall with
        | Some ac => load_bsdPeople (AssignedCall.interviewee_id ac)
        | None =>
            update (fun d =>
              with_bsd_assigned_calls
                (bsd_assigned_calls d ++
                 [AssignedCall.mk
                    (next_id (map AssignedCall.id (bsd_assigned_calls d)))
                    (User.id user) cons_id localCallAssignmentId
                    timestamp timestamp]) d) ;;
            load_bsdPeople cons_id
        end
    | None => ret None
    end.

(** ** The [nearbyPeople] radius search of an event *)

(** A row of [select distinct bsd_emails.email, bsd_people.*]. *)
Definition NearbyRow : Type := (string * Person.t)%type.

Definition row_cons_id (r : NearbyRow) : ident := Person.cons_id (snd r).

Definition Person_eqb (p q : Person.t) : bool :=
  String.eqb (Person.cons_id p) (Person.cons_id q)
  && jsval_eqb (JObj (Person.columns p)) (JObj (Person.columns q)).

Definition NearbyRow_eqb (r r' : NearbyRow) : bool :=
  String.eqb (fst r) (fst r') && Person_eqb (snd r) (snd r').

(** [select distinct]: a row equal to an earlier one is dropped. *)
Fixpoint distinct (rows : list NearbyRow) : list NearbyRow :=
  match rows with
  | [] => []
  | r :: rows' => r :: filter (fun r' => negb (NearbyRow_eqb r r')) (distinct rows')
  end.

(** The rows a [leftJoin] pairs a row with: the matches, or one all-null
    row when there is none. *)
Definition left_join {A} (matches : list A) : list (option A) :=
  match matches with
  | [] => [None]
  | _ => map Some matches
  end.

Definition is_null {A} (r : option A) : bool :=
  match r with
  | None => true
  | Some _ => false
  end.

Definition nearbyQuery (event_geom : Geom) (radius : Z) (foundConsIds : list ident)
    (d : Database) : list NearbyRow :=
  firstn 500 (distinct
    (flat_map (fun address =>
      flat_map (fun person =>
        flat_map (fun email =>
          flat_map (fun communication =>
            flat_map (fun subscription =>
              if Address.is_primary address
                 && Email.is_primary email
                 && negb (Subscription.isunsub subscription)
                 && negb (mem_id (Person.cons_id person) foundConsIds)
                 && st_dwithin (Address.geom address) event_geom radius
                 && is_null communication
              then [(Email.email email, person)] else [])
            (filter (fun s => String.eqb (Person.cons_id person) (Subscription.cons_id s))
                    (bsd_subscriptions d)))
          (left_join
             (filter (fun c => String.eqb (Person.cons_id person)
                                          (Communication.person_id c))
                     (communications d))))
        (filter (fun e => String.eqb (Person.cons_id person) (Email.cons_id e))
                (bsd_emails d)))
      (filter (fun p => String.eqb (Address.cons_id address) (Person.cons_id p))
              (bsd_people d)))
    (bsd_addresses d))).

(** The [while] loop; [fuel] bounds the iterations the model may take and
    [None] reports that it ran out. *)
Fixpoint nearbyPeople_loop (fuel : nat) (event_geom : Geom)
    (maxRadius radius backoff : Z) (foundPeople : list NearbyRow)
    : M (option (list NearbyRow)) :=
  match fuel with
  | O => ret None
  | S fuel' =>
      if Nat.ltb (List.length foundPeople) 500 && (radius <=? maxRadius) then
        let foundConsIds := map row_cons_id foundPeople in
        log_write (LogNearbyQuery event_geom radius foundConsIds) ;;
        people <- query (nearbyQuery event_geom radius foundConsIds) ;;
        let foundPeople := foundPeople ++ people in
        let radius := radius + backoff in
        let backoff := if radius =? 15000 then 5000 else backoff in
        nearbyPeople_loop fuel' event_geom maxRadius radius backoff foundPeople
      else ret (Some foundPeople)
  end.

Definition nearbyPeople (fuel : nat) (event : obj) : M (option (list NearbyRow)) :=
  match prop event "geom" with
  | JGeom event_geom =>
      let maxRadius := 50000 in
      let radius := 1000 in
      let backoff := 1000 in
      foundPeople <- nearbyPeople_loop fuel event_geom maxRadius radius backoff [] ;;
      ret (option_map (firstn 500) foundPeople)
  | _ => throw (ExternalError 500 "parse error - invalid geometry")
  end.

(** ** The SubmitCallSurvey mutation *)

(** [JSON.stringify] of [assignedCallInfo] / [submittedCallInfo]. *)
Definition stringify_info (info : list (string * ident)) : string :=
  ("{" ++ String.concat ","
            (map (fun kv => json_quote (fst kv) ++ ":" ++ json_quote (snd kv)) info)
       ++ "}")%string.

Definition person_object (p : Person.t) : jsval :=
  JObj (("cons_id", JStr (Person.cons_id p)) :: Person.columns p).

Definition jsval_of_string (s : option string) : jsval :=
  match s with
  | Some s => JStr s
  | None => JNull
  end.

(** The field-name lookup of the bsd-form-submitter processor: the id of
    the survey field a key of [fieldValues] stands for, or [null]. *)
Definition surveyFieldId (survey : Survey.t) (field : string) : M (option string) :=
  if negb (all_digits field) then
    fieldObj <- query (fun d =>
      first (filter (fun r =>
               String.eqb (SurveyField.signup_form_id r) (Survey.signup_form_id survey)
               && String.eqb (SurveyField.label r) field)
             (bsd_survey_fields d))) ;;
    fieldObj <- match fieldObj with
                | Some r => ret (Some r)
                | None =>
                    query (fun d =>
                      first (filter (fun r =>
                               String.eqb (SurveyField.signup_form_id r)
                                          (Survey.signup_form_id survey)
                               && ilike ("[" ++ field ++ "]%")%string (SurveyField.label r))
                             (bsd_survey_fields d)))
                end ;;
    ret (option_map SurveyField.signup_form_field_id fieldObj)
  else ret (Some field).

Fixpoint bsdFormValuesOf (survey : Survey.t) (fieldValues : obj)
    (fields : list string) (bsdFormValues : obj) : M obj :=
  match fields with
  | [] => ret bsdFormValues
  | field :: fields' =>
      fieldId <- surveyFieldId survey field ;;
      bsdFormValuesOf survey fieldValues fields'
        (if truthy_str fieldId then
           match fieldId with
           | Some fid => assign bsdFormValues fid (prop fieldValues field)
           | None => bsdFormValues
           end
         else bsdFormValues)
  end.

(** One turn of the processor loop; [fieldValues] is the object the turns
    share. *)
Definition runProcessor (env : Env) (survey : Survey.t) (person : Person.t)
    (email : option string) (localIntervieweeId : ident)
    (processor : string) (fieldValues : obj) : M obj :=
  if String.eqb processor "bsd-event-rsvper" then
    if truthy (prop fieldValues "event_id") then
      address <- getPrimaryAddress person ;;
      phone <- getPrimaryPhone person ;;
      address <- deref "zip" address ;;
      let zip := Address.zip address in
      BSDClient_noFailApiRequest env "addRSVPToEvent"
        [JObj [("email", jsval_of_string email); ("zip", JStr zip);
               ("phone", jsval_of_string phone);
               ("event_id_obfuscated", prop fieldValues "event_id")]] ;;
      ret fieldValues
    else ret fieldValues
  else if String.eqb processor "bsd-form-submitter" then
    if truthy_str email then
      let fieldValues := set_prop fieldValues "Email" (jsval_of_string email) in
      let fields := keys fieldValues in
      bsdFormValues <- bsdFormValuesOf survey fieldValues fields [] ;;
      BSDClient_noFailApiRequest env "processSignup"
        [JStr (Survey.signup_form_id survey); JObj bsdFormValues] ;;
      ret fieldValues
    else
      log_write (LogError ("Could not find an e-mail address for constituent: "
                           ++ localIntervieweeId)%string) ;;
      ret fieldValues
  else ret fieldValues.

Fixpoint runProcessors (env : Env) (survey : Survey.t) (person : Person.t)
    (email : option string) (localIntervieweeId : ident)
    (processors : list string) (fieldValues : obj) : M unit :=
  match processors with
  | [] => ret tt
  | processor :: processors' =>
      fieldValues <- runProcessor env survey person email localIntervieweeId
                       processor fieldValues ;;
      runProcessors env survey person email localIntervieweeId processors' fieldValues
  end.

(** Modelled from the spec: [knex.insertAndFetch] is added to knex in
    [backend/data/knex], which is not among the sources; it inserts the row
    (the serial key is drawn by the database) and reads it back. *)
Definition insertAndFetch_bsd_calls (row : Z -> Call.t) : M Call.t :=
  newId <- query (fun d => next_id (map Call.id (bsd_calls d))) ;;
  update (fun d => with_bsd_calls (bsd_calls d ++ [row newId]) d) ;;
  ret (row newId).

Definition submitCallSurvey (env : Env) (input : SubmitCallSurveyInput.t)
    (rootValue : Session) : M User.t :=
  authRequired rootValue ;;
  caller <- session_user rootValue ;;
  let localIntervieweeId := id (fromGlobalId (SubmitCallSurveyInput.intervieweeId input)) in
  let localCallAssignmentId :=
    localIdOf "CallAssignment" (SubmitCallSurveyInput.callAssignmentId input) in
  transaction (
    (* To ensure that the assigned call exists *)
    assignedCall <- query (fun d =>
      first (filter (fun r =>
               String.eqb (AssignedCall.caller_id r) (User.id caller)
               && String.eqb (AssignedCall.call_assignment_id r) localCallAssignmentId)
             (bsd_assigned_calls d))) ;;
    match assignedCall with
    | None =>
        throw (Error ("No assigned call found when caller " ++ User.id caller
                      ++ " submitted call survey for interviwee "
                      ++ localIntervieweeId)%string)
    | Some assignedCall =>
        let assignedCallInfo :=
          [("callerId", AssignedCall.caller_id assignedCall);
           ("intervieweeId", AssignedCall.interviewee_id assignedCall);
           ("callAssignmentId", AssignedCall.call_assignment_id assignedCall)] in
        let submittedCallInfo :=
          [("callerId", User.id caller);
           ("intervieweeId", localIntervieweeId);
           ("callAssignmentId", localCallAssignmentId)] in
        for_each (combine assignedCallInfo submittedCallInfo) (fun kv =>
          if negb (String.eqb (snd (fst kv)) (snd (snd kv))) then
            throw (Error ("Assigned call does not match submitted call info."
                          ++ newline ++ " assignedCallInfo:"
                          ++ stringify_info assignedCallInfo
                          ++ newline ++ "submittedCallInfo:"
                          ++ stringify_info submittedCallInfo)%string)
          else ret tt) ;;
        callAssignment <- query (fun d =>
          first (filter (fun r => String.eqb (CallAssignment.id r) localCallAssignmentId)
                        (bsd_call_assignments d))) ;;
        callAssignment <- deref "gc_bsd_survey_id" callAssignment ;;
        survey <- query (fun d =>
          first (filter (fun r => String.eqb (Survey.id r)
                                    (CallAssignment.gc_bsd_survey_id callAssignment))
                        (gc_bsd_surveys d))) ;;
        fieldValues <- match JSON_parse (SubmitCallSurveyInput.surveyFieldValues input) with
                       | Some v => ret v
                       | None => throw (SyntaxError "Unexpected token in JSON")
                       end ;;
        person <- query (fun d =>
          first (filter (fun r => String.eqb (Person.cons_id r) localIntervieweeId)
                        (bsd_people d))) ;;
        fieldValues <- match fieldValues with
                       | JObj o =>
                           ret (set_prop o "person"
                                  (match person with
                                   | Some p => person_object p
                                   | None => JUndefined
                                   end))
                       | _ => throw (TypeError "Cannot create property 'person'")
                       end ;;
        person <- deref "cons_id" person ;;
        email <- getPrimaryEmail person ;;
        survey <- deref "processors" survey ;;
        processors <- deref "length" (Survey.processors survey) ;;
        let processorsLength := List.length processors in
        (if SubmitCallSurveyInput.completed input && Nat.ltb 0 processorsLength then
           runProcessors env survey person email localIntervieweeId processors fieldValues
         else ret tt) ;;
        update (fun d =>
          with_bsd_assigned_calls
            (filter (fun r => negb (AssignedCall.id r =? AssignedCall.id assignedCall))
                    (bsd_assigned_calls d)) d) ;;
        insertAndFetch_bsd_calls (fun newId =>
          Call.mk newId
            (SubmitCallSurveyInput.completed input)
            (now env)
            (SubmitCallSurveyInput.leftVoicemail input)
            (SubmitCallSurveyInput.sentText input)
            (SubmitCallSurveyInput.reasonNotCompleted input)
            (User.id caller)
            (AssignedCall.interviewee_id assignedCall)
            (AssignedCall.call_assignment_id assignedCall)) ;;
        ret caller
    end).

(** ** Event mutations *)

Definition SharedListContainer : obj :=
  [("id", JNum 1); ("_type", JStr "list_container")].

Definition localIds (ids : list string) : list ident :=
  map (fun globalId => id (fromGlobalId globalId)) ids.

Definition markEventsReviewed (ids : list ident) (pendingReview : option bool)
    : M (list ident) :=
  let pendingReview := match pendingReview with Some b => b | None => false end in
  update (fun d =>
    with_gc_bsd_events
      (map (fun r =>
              if mem_id (GcEvent.event_id r) ids
              then GcEvent.mk (GcEvent.event_id r) pendingReview
                              (GcEvent.turn_out_assignment r)
              else r)
           (gc_bsd_events d)) d) ;;
  ret ids.

Definition reviewEvents (input : ReviewEventsInput.t) (rootValue : Session)
    : M (list ident) :=
  adminRequired rootValue ;;
  let localIds := localIds (ReviewEventsInput.ids input) in
  user <- session_user rootValue ;;
  log_write (LogInfo (string_of_Z (Z.of_nat (List.length localIds))
                      ++ " event(s) marked reviewed by " ++ User.email user ++ ": "
                      ++ String.concat ", " localIds)%string) ;;
  markEventsReviewed localIds (ReviewEventsInput.pendingReview input).

(** The notification loop shared by hosts and attendees of
    [deleteEvents]. *)
Definition notifyDeletion (env : Env) (hostMessage : string) (events : list obj)
    (cons_ids : list (option ident)) : M unit :=
  for_each cons_ids (fun cons_id =>
    cons_id <- deref "load" cons_id ;;
    person <- load_bsdPeople cons_id ;;
    person <- deref "cons_id" person ;;
    recipient <- getPrimaryEmail person ;;
    if truthy_str recipient then
      match recipient with
      | Some r => Mailgun_send env (EventDeletionNotification r (Some hostMessage) events)
      | None => ret tt
      end
    else ret tt).

Definition deleteEvents (env : Env) (input : DeleteEventsInput.t)
    (rootValue : Session) : M (list ident) :=
  adminRequired rootValue ;;
  user <- session_user rootValue ;;
  let ids := DeleteEventsInput.ids input in
  if negb (User.is_superuser user) && negb (Nat.eqb (List.length ids) 1) then
    throw (newGraphQLError
             (mkErrorObject 403
                "Your account is only authorized to delete one event at a time."))
  else
    let localIds := localIds ids in
    BSDClient_request env (DeleteEvents localIds) ;;
    log_write (LogInfo (string_of_Z (Z.of_nat (List.length localIds))
                        ++ " event(s) deleted by " ++ User.email user ++ ": "
                        ++ String.concat ", " localIds)%string) ;;
    try_catch
      (hostMessage <- deref "length" (DeleteEventsInput.hostMessage input) ;;
       if Nat.ltb 0 (String.length hostMessage) then
         events <- query (fun d =>
           filter (column_in "event_id" localIds) (bsd_events d)) ;;
         attendeeIds <- query (fun d =>
           filter (fun r => mem_id (Attendee.event_id r) localIds)
                  (bsd_event_attendees d)) ;;
         log_write (LogInfo "attendeeIds, events") ;;
         notifyDeletion env hostMessage events
           (map (fun e => sql_key (prop e "creator_cons_id")) events) ;;
         notifyDeletion env hostMessage events
           (map (fun r => Some (Attendee.attendee_cons_id r)) attendeeIds) ;;
         Mailgun_send env
           (EventDeletionNotification (User.email user) (Some hostMessage) events)
       else ret tt)
      (fun ex =>
         log_write (LogError "Could not send deletion email") ;;
         log_write (LogError "exception")) ;;
    update (fun d =>
      with_bsd_events
        (filter (fun e => negb (column_in "event_id" localIds e)) (bsd_events d)) d) ;;
    markEventsReviewed localIds None ;;
    ret localIds.

Definition emailHostAttendees (env : Env) (input : EmailHostAttendeesInput.t)
    (rootValue : Session) : M (bool * string) :=
  adminRequired rootValue ;;
  user <- session_user rootValue ;;
  let localIds := localIds (EmailHostAttendeesInput.ids input) in
  let target := EmailHostAttendeesInput.target input in
  let target_is (t : string) :=
    match target with Some s => String.eqb s t | None => false end in
  log_write (LogInfo (string_of_Z (Z.of_nat (List.length localIds))
                      ++ " event email(s) sent by " ++ User.email user ++ ": "
                      ++ String.concat ", " localIds)%string) ;;
  hosts <-
    (if target_is "host" || target_is "hostAndAttendees" then
       hostIds <- query (fun d =>
         map (fun e => sql_key (prop e "creator_cons_id"))
             (filter (column_in "event_id" localIds) (bsd_events d))) ;;
       (fix each (l : list (option ident)) : M (list (option string)) :=
          match l with
          | [] => ret []
          | cons_id :: l' =>
              cons_id <- deref "load" cons_id ;;
              host <- load_bsdPeople cons_id ;;
              host <- deref "cons_id" host ;;
              recipient <- getPrimaryEmail host ;;
              rest <- each l' ;;
              ret (recipient :: rest)
          end) hostIds
     else ret []) ;;
  attendees <-
    (if target_is "attendees" || target_is "hostAndAttendees" then
       attendeeIds <- query (fun d =>
         filter (fun r => mem_id (Attendee.event_id r) localIds)
                (bsd_event_attendees d)) ;;
       (fix each (l : list Attendee.t) : M (list (option string)) :=
          match l with
          | [] => ret []
          | r :: l' =>
              attendee <- load_bsdPeople (Attendee.attendee_cons_id r) ;;
              attendee <- deref "cons_id" attendee ;;
              recipient <- getPrimaryEmail attendee ;;
              rest <- each l' ;;
              ret (if truthy_str recipient then recipient :: rest else rest)
          end) attendeeIds
     else ret []) ;;
  let recipients := hosts ++ attendees in
  bcc <- deref "bcc" (EmailHostAttendeesInput.bcc input) ;;
  Mailgun_send env
    (HostAttendeesEmail (EmailHostAttendeesInput.replyTo input)
       (map Some bcc ++ recipients)
       (EmailHostAttendeesInput.subject input)
       (EmailHostAttendeesInput.message input)) ;;
  ret (true, ("Message sent to " ++ string_of_Z (Z.of_nat (List.length recipients))
              ++ " recipients.")%string).

Definition eventFieldFromAPIField (field : string) : string :=
  let mapFields :=
    [("id", "eventId"); ("hostId", "creatorConsId"); ("startDate", "startDt");
     ("createDate", "createDt"); ("localTimezone", "startTz");
     ("venueState", "venueStateCd")] in
  let newFieldName :=
    fold_left (fun newFieldName kv =>
                 if String.eqb field (fst kv) then snd kv else newFieldName)
              mapFields field in
  decamelize newFieldName.

Definition eventFromAPIFields (fields : obj) : M obj :=
  event <-
    (fix each (l : obj) (event : obj) : M obj :=
       match l with
       | [] => ret event
       | (fieldName, value) :: l' =>
           let newFieldName := eventFieldFromAPIField fieldName in
           let event := set_prop event newFieldName value in
           if String.eqb newFieldName "start_dt" then
             match prop event newFieldName with
             | JDate ms => each l' (set_prop event newFieldName (JStr (toISOString ms)))
             | _ => throw (TypeError "toISOString is not a function")
             end
           else each l' event
       end) fields [] ;;
  let idFields := ["event_id"; "creator_cons_id"; "event_type_id"] in
  (fix each (l : list string) (event : obj) : M obj :=
     match l with
     | [] => ret event
     | field :: l' =>
         if truthy (prop event field) then
           match prop event field with
           | JStr globalId => each l' (set_prop event field (JStr (id (fromGlobalId globalId))))
           | _ => throw (TypeError "fromGlobalId: not a string")
           end
         else each l' event
     end) idFields event.

Definition eventIdsRequiringPhone : list Z := [22; 31; 32; 39; 41; 45].

Definition hostAddressFields : list string :=
  ["host_addr_addressee"; "host_addr_addr1"; "host_addr_addr2"; "host_addr_zip";
   "host_addr_city"; "host_addr_state_cd"; "host_addr_country"].

Definition is_true (v : jsval) : bool :=
  match v with JBool true => true | _ => false end.

Definition is_false (v : jsval) : bool :=
  match v with JBool false => true | _ => false end.

Definition is_empty_string (v : jsval) : bool :=
  match v with JStr s => String.eqb s "" | _ => false end.

Definition event_key (event : obj) : ident :=
  match sql_key (prop event "event_id") with Some s => s | None => "" end.

Definition exn_message (ex : exn) : string :=
  match ex with
  | GraphQLError m | Error m | TypeError m | SyntaxError m
  | BSDValidationError m | BSDExistsError m | ExternalError _ m => m
  end.

(** [`${event.event_id_obfuscated}`] for a text column: its text, [null]
    or, when the row has no such column, [undefined]. *)
Definition obfuscated (event : obj) : string :=
  match prop event "event_id_obfuscated" with
  | JStr s => s
  | JNull => "null"
  | JNum n => string_of_Z n
  | JBool true => "true"
  | JBool false => "false"
  | _ => "undefined"
  end.

(** One turn of the [for] loop of [editEvents]; the pair is
    [(updateErrors, reviewedEvents)]. *)
Definition editEvent (env : Env) (user : User.t) (newEventData : obj)
    (acc : list string * list ident) : M (list string * list ident) :=
  let '(updateErrors, reviewedEvents) := acc in
  event <- query (fun d =>
    first (filter (fun e => match sql_key (prop newEventData "event_id") with
                            | Some k => column_is "event_id" k e
                            | None => false
                            end)
                  (bsd_events d))) ;;
  event <- deref "flag_approval" event ;;
  (* Mark event reviewed if no longer pending approval *)
  let reviewedEvents :=
    if is_true (prop event "flag_approval") && is_false (prop newEventData "flag_approval")
    then reviewedEvents ++ [number_key (Number (prop event "event_id"))]
    else reviewedEvents in
  log_write (LogInfo ("Event " ++ obfuscated event ++ " updated by "
                      ++ User.email user)%string) ;;
  log_write (LogInfo "New Event Data:") ;;
  log_write (LogInfo "Old Event Data:") ;;
  let event := spread event newEventData in
  (* Delete empty event data *)
  let event := filter (fun kv => negb (is_empty_string (snd kv))) event in
  (* Require phone number for RSVPs *)
  let event :=
    if match Number (prop event "event_type_id") with
       | Some t => existsb (Z.eqb t) eventIdsRequiringPhone
       | None => false
       end
    then set_prop event "attendee_require_phone" (JNum 1) else event in
  let event := fold_left delete_prop hostAddressFields event in
  outcome <- try_catch
    (log_write (LogInfo "Merged Event Data:") ;;
     BSDClient_request env (UpdateEvent event) ;;
     ret (false, updateErrors))
    (fun ex =>
       log_write (LogError (exn_message ex)) ;;
       match ex with
       | BSDValidationError m =>
           (* continue *)
           ret (true, updateErrors ++ [(obfuscated event ++ ": " ++ m)%string])
       | BSDExistsError _ =>
           update (fun d =>
             with_bsd_events
               (filter (fun row => negb (column_is "event_id" (event_key event) row))
                       (bsd_events d)) d) ;;
           log_write (LogInfo ("Deleted event " ++ obfuscated event)%string) ;;
           (* continue *)
           ret (true, updateErrors)
       | _ =>
           log_write (LogError "Unknown exception when updating event") ;;
           log_write (LogError (exn_message ex)) ;;
           ret (false, updateErrors ++ [(obfuscated event ++ ": " ++ exn_message ex)%string])
       end) ;;
  let '(continue, updateErrors) := outcome in
  if continue then ret (updateErrors, reviewedEvents)
  else
    update (fun d =>
      with_bsd_events
        (map (fun row =>
                if column_is "event_id" (event_key event) row
                then spread row (set_prop event "modified_dt" (JDate (now env)))
                else row)
             (bsd_events d)) d) ;;
    ret (updateErrors, reviewedEvents).

Definition editEvents (env : Env) (input : EditEventsInput.t)
    (rootValue : Session) : M (list obj * string) :=
  adminRequired rootValue ;;
  let events := EditEventsInput.events input in
  params <-
    (fix each (l : list obj) : M (list obj) :=
       match l with
       | [] => ret []
       | event :: l' =>
           p <- eventFromAPIFields event ;;
           rest <- each l' ;;
           ret (p :: rest)
       end) events ;;
  user <- session_user rootValue ;;
  let message :=
    (string_of_Z (Z.of_nat (List.length events)) ++ " Event"
     ++ (if Nat.ltb 1 (List.length events) then "s" else "") ++ " Updated")%string in
  acc <-
    (fix each (l : list obj) (acc : list string * list ident)
       : M (list string * list ident) :=
       match l with
       | [] => ret acc
       | newEventData :: l' =>
           acc <- editEvent env user newEventData acc ;;
           each l' acc
       end) params ([], []) ;;
  let '(updateErrors, reviewedEvents) := acc in
  let message :=
    if Nat.ltb 0 (List.length updateErrors)
    then String.concat ", " updateErrors else message in
  (if Nat.ltb 0 (List.length reviewedEvents)
   then markEventsReviewed reviewedEvents None
   else ret []) ;;
  ret (events, message).

(** ** Administrative e-mail and call assignments *)

(** The handler of the transaction [createAdminEventEmail] starts. *)
Definition inviteRecipients (env : Env) (input : CreateAdminEventEmailInput.t) : M unit :=
  recipients <- deref "length" (CreateAdminEventEmailInput.recipients input) ;;
  for_each recipients (fun globalId =>
    let recipientId := id (fromGlobalId globalId) in
    recipient <- load_bsdPeople recipientId ;;
    recipient <- deref "cons_id" recipient ;;
    recipientEmail <- getPrimaryEmail recipient ;;
    Mailgun_send env
      (AdminEventInvite
         (CreateAdminEventEmailInput.hostEmail input)
         (CreateAdminEventEmailInput.senderEmail input)
         (CreateAdminEventEmailInput.hostMessage input)
         (CreateAdminEventEmailInput.senderMessage input)
         recipientEmail
         (CreateAdminEventEmailInput.hostEmailSubject input)) ;;
    update (fun d =>
      with_communications
        (communications d ++
         [Communication.mk (next_id (map Communication.id (communications d)))
                           recipientId "EMAIL"]) d)).

Definition createAdminEventEmail (env : Env) (input : CreateAdminEventEmailInput.t)
    (rootValue : Session) : M (list obj) :=
  adminRequired rootValue ;;
  if negb (String.eqb (CreateAdminEventEmailInput.toolPassword input) "solidarity") then
    throw (newGraphQLError (mkErrorObject 401 "Incorrect password for this tool."))
  else
    Mailgun_send env
      (AdminEventInvite
         (CreateAdminEventEmailInput.hostEmail input)
         (CreateAdminEventEmailInput.senderEmail input)
         (CreateAdminEventEmailInput.hostMessage input)
         (CreateAdminEventEmailInput.senderMessage input)
         (Some (CreateAdminEventEmailInput.adminEmail input))
         (CreateAdminEventEmailInput.hostEmailSubject input)) ;;
    let eventId := id (fromGlobalId (CreateAdminEventEmailInput.eventId input)) in
    existingLookup <- query (fun d =>
      filter (fun r => match parseInt eventId with
                       | Some n => String.eqb (FastFwdRequest.event_id r) (string_of_Z n)
                       | None => false
                       end)
             (fast_fwd_request d)) ;;
    if match existingLookup with
       | r :: _ => truthy_str (FastFwdRequest.email_sent_dt r)
       | [] => false
       end
    then
      throw (newGraphQLError
               (mkErrorObject 403 "Fast Forward has already been sent for this event."))
    else
      (* The transaction's promise is neither awaited nor returned: its
         rejection never reaches the mutation. The model lets the handler
         finish before the mutation goes on. *)
      try_catch (transaction (inviteRecipients env input)) (fun _ => ret tt) ;;
      recipients <- deref "length" (CreateAdminEventEmailInput.recipients input) ;;
      (* somewhat hackish; catches Test Mode. *)
      (if Nat.ltb 0 (List.length recipients) then
         update (fun d =>
           with_fast_fwd_request
             (map (fun r =>
                     if String.eqb (FastFwdRequest.event_id r) eventId
                     then FastFwdRequest.mk (FastFwdRequest.id r)
                            (FastFwdRequest.event_id r)
                            (FastFwdRequest.host_message r)
                            (Some (toISOString (now env)))
                     else r)
                  (fast_fwd_request d)) d)
       else ret tt) ;;
      user <- session_user rootValue ;;
      log_write (LogInfo ("FastForward request for event "
                          ++ CreateAdminEventEmailInput.eventId input
                          ++ " fulfilled by " ++ User.email user)%string) ;;
      ret [].

Definition modelKeys (type : string) : option (list string) :=
  if String.eqb type "bsd_surveys" then
    Some ["signup_form_id"; "signup_form_slug"; "modified_dt"; "create_dt"]
  else if String.eqb type "bsd_groups" then
    Some ["cons_group_id"; "name"; "description"; "modified_dt"; "create_dt"]
  else if String.eqb type "bsd_survey_fields" then
    Some ["signup_form_field_id"; "modified_dt"; "create_dt"; "signup_form_id";
          "format"; "label"; "display_order"; "is_shown"; "is_required"; "description"]
  else None.

Definition modelFromBSDResponse (BSDObject : jsval) (type : string) : M obj :=
  keys <- deref "forEach" (modelKeys type) ;;
  match BSDObject with
  | JObj o => ret (map (fun key => (key, prop o key)) keys)
  | JUndefined | JNull => throw (TypeError "Cannot read property of undefined")
  | _ => ret (map (fun key => (key, JUndefined)) keys)
  end.

Definition key_or_empty (v : jsval) : string :=
  match sql_key v with Some s => s | None => "" end.

(** The [catch] of the two CRM look-ups of [createCallAssignment]. *)
Definition notInBSD {A} (what : string) (err : exn) : M A :=
  match err with
  | ExternalError 409 _ =>
      throw (newGraphQLError (mkErrorObject 400 what))
  | _ => throw err
  end.

(** The handler runs on the transaction's connection. Two things go
    through the pool instead, and a rollback does not undo them. The
    look-ups and inserts of survey fields, which the source starts together
    and awaits with [Promise.all], are taken one field after the other; the
    transaction never writes [bsd_survey_fields] itself, so on a rollback
    that table stays as the handler left it. [knex.raw] runs the admin's
    statement, which may write: it is given the tables as the handler sees
    them, and nothing after it in the handler throws, so what it wrote is
    never rolled back. *)
Definition createCallAssignment (env : Env) (input : CreateCallAssignmentInput.t)
    (rootValue : Session) : M CallAssignment.t :=
  adminRequired rootValue ;;
  let groupText := CreateCallAssignmentInput.intervieweeGroup input in
  let surveyId := string_of_Z (CreateCallAssignmentInput.surveyId input) in
  transaction_keeping
    (fun final start => with_bsd_survey_fields (bsd_survey_fields final) start) (
    underlyingSurvey <- query (fun d =>
      first (filter (column_is "signup_form_id" surveyId) (bsd_surveys d))) ;;
    match underlyingSurvey with
    | Some _ => ret tt
    | None =>
        try_catch
          (BSDSurveyResponse <- BSDClient_request env (GetForm surveyId) ;;
           model <- modelFromBSDResponse BSDSurveyResponse "bsd_surveys" ;;
           BSDSurveyFieldsResponse <- BSDClient_request env (ListFormFields surveyId) ;;
           update (fun d => with_bsd_surveys (bsd_surveys d ++ [model]) d) ;;
           fields <- match BSDSurveyFieldsResponse with
                     | JObj items => ret (map snd items)
                     | _ => throw (TypeError "map is not a function")
                     end ;;
           for_each fields (fun field =>
             model <- modelFromBSDResponse field "bsd_survey_fields" ;;
             let fieldId := key_or_empty (prop model "signup_form_field_id") in
             dbField <- query (fun d =>
               first (filter (fun r => String.eqb (SurveyField.signup_form_field_id r) fieldId)
                             (bsd_survey_fields d))) ;;
             match dbField with
             | Some _ => ret tt
             | None =>
                 update (fun d =>
                   with_bsd_survey_fields
                     (bsd_survey_fields d ++
                      [SurveyField.mk fieldId
                         (key_or_empty (prop model "signup_form_id"))
                         (key_or_empty (prop model "label"))]) d)
             end))
          (notInBSD "Provided survey ID does not exist in BSD.")
    end ;;
    survey <- query (fun d =>
      Survey.mk (fresh_ident (map Survey.id (gc_bsd_surveys d))) surveyId
                (CreateCallAssignmentInput.processors input)) ;;
    update (fun d => with_gc_bsd_surveys (gc_bsd_surveys d ++ [survey]) d) ;;
    group <-
      (if all_digits groupText then
         underlyingGroup <- query (fun d =>
           first (filter (column_is "cons_group_id" groupText) (bsd_groups d))) ;;
         match underlyingGroup with
         | Some _ => ret tt
         | None =>
             try_catch
               (BSDGroupResponse <- BSDClient_request env (GetConstituentGroup groupText) ;;
                model <- modelFromBSDResponse BSDGroupResponse "bsd_groups" ;;
                update (fun d => with_bsd_groups (bsd_groups d ++ [model]) d))
               (notInBSD "Provided group ID does not exist in BSD.")
         end ;;
         let consGroupID := groupText in
         group <- query (fun d =>
           first (filter (fun r => match Group.cons_group_id r with
                                   | Some g => String.eqb g consGroupID
                                   | None => false
                                   end)
                         (gc_bsd_groups d))) ;;
         match group with
         | Some g => ret g
         | None =>
             g <- query (fun d =>
               Group.mk (fresh_ident (map Group.id (gc_bsd_groups d)))
                        (Some consGroupID) None) ;;
             update (fun d => with_gc_bsd_groups (gc_bsd_groups d ++ [g]) d) ;;
             ret g
         end
       else
         let query_text := strip_semicolons (trim (toLowerCase groupText)) in
         if includes "drop" query_text || includes "truncate" query_text
            || includes "delete" query_text || includes "update" query_text then
           throw (newGraphQLError (mkErrorObject 400 "Cannot use DROP in your SQL"))
         else
           (if negb (String.eqb query_text EVERYONE_GROUP) then
              let limitedQuery :=
                if negb (includes "order by" query_text)
                then (query_text ++ " order by cons_id")%string else query_text in
              let limitedQuery := (limitedQuery ++ " limit 1 offset 0")%string in
              try_catch
                (fun w => match raw_query env limitedQuery (db w) with
                          | Ok d' => (Ok tt, mkWorld d' (outbox w) (crm_calls w) (logs w))
                          | Throw ex => (Throw ex, w)
                          end)
                (fun ex =>
                   throw (newGraphQLError
                            (mkErrorObject 400
                               ("Invalid SQL query: " ++ exn_message ex)%string)))
            else ret tt) ;;
           group <- query (fun d =>
             first (filter (fun r => match Group.query r with
                                     | Some q => String.eqb q query_text
                                     | None => false
                                     end)
                           (gc_bsd_groups d))) ;;
           match group with
           | Some g => ret g
           | None =>
               g <- query (fun d =>
                 Group.mk (fresh_ident (map Group.id (gc_bsd_groups d)))
                          None (Some query_text)) ;;
               update (fun d => with_gc_bsd_groups (gc_bsd_groups d ++ [g]) d) ;;
               ret g
           end) ;;
    let startDate := match CreateCallAssignmentInput.startDate input with
                     | Some t => t
                     | None => now env
                     end in
    let callerGroupId :=
      if truthy_str (CreateCallAssignmentInput.callerGroupId input)
      then option_map (fun g => id (fromGlobalId g))
                      (CreateCallAssignmentInput.callerGroupId input)
      else None in
    row <- query (fun d =>
      CallAssignment.mk
        (fresh_ident (map CallAssignment.id (bsd_call_assignments d)))
        (CreateCallAssignmentInput.name input)
        (CreateCallAssignmentInput.renderer input)
        (CreateCallAssignmentInput.instructions input)
        (Group.id group) (Survey.id survey) startDate
        (CreateCallAssignmentInput.endDate input) callerGroupId) ;;
    update (fun d => with_bsd_call_assignments (bsd_call_assignments d ++ [row]) d) ;;
    ret row).

Definition changeUserPassword (env : Env) (input : ChangeUserPasswordInput.t)
    (rootValue : Session) : M string :=
  authRequired rootValue ;;
  user <- session_user rootValue ;;
  let password (p : option string) := match p with Some s => s | None => "" end in
  bsdCredentialsResponse <-
    BSDClient_request env
      (CheckCredentials (User.email user)
                        (password (ChangeUserPasswordInput.currentPassword input))) ;;
  bsdCredentialsValid <-
    match bsdCredentialsResponse with
    | JObj o =>
        match prop o "api" with
        | JObj api => ret (truthy (prop api "cons"))
        | JUndefined | JNull => throw (TypeError "Cannot read property 'cons' of undefined")
        | _ => ret false
        end
    | JNull => throw (TypeError "Cannot read property 'api' of null")
    | _ => ret false
    end ;;
  if negb bsdCredentialsValid then
    throw (newGraphQLError
             (mkErrorObject 403
                "The current password you entered does not match our records. Please try again."))
  else
    try_catch
      (BSDClient_request env
         (SetConstituentPassword (User.email user)
                                 (password (ChangeUserPasswordInput.newPassword input))) ;;
       ret tt)
      (fun ex =>
         throw (newGraphQLError
                  (mkErrorObject 500
                     ("Something went wrong while changing your password: "
                      ++ exn_message ex)%string))) ;;
    ret "".

(** ** Root queries *)

Definition listContainer (rootValue : Session) : M obj :=
  adminRequired rootValue ;;
  ret SharedListContainer.

Definition currentUser (rootValue : Session) : M User.t :=
  authRequired rootValue ;;
  session_user rootValue.

Definition callAssignment (id : string) (rootValue : Session)
    : M (option CallAssignment.t) :=
  authRequired rootValue ;;
  let localId := localIdOf "CallAssignment" id in
  load_bsdCallAssignments localId.

(** In the first branch the resolver binds the resolved id object, not its
    [id], to the [id] column; the database rejects the comparison. *)
Definition fastFwdRequest (globalId : string) (rootValue : Session)
    : M (list FastFwdRequest.t) :=
  authRequired rootValue ;;
  let localId := fromGlobalId globalId in
  if String.eqb (type localId) "FastFwdRequest" then
    throw (ExternalError 500 "invalid input syntax for integer")
  else
    let localId := if negb (String.eqb (type localId) "Event") then globalId
                   else id localId in
    event <- load_bsdEvents localId ;;
    event <- deref "event_id" event ;;
    query (fun d =>
      filter (fun r => String.eqb (FastFwdRequest.event_id r) (event_key event))
             (fast_fwd_request d)).

(** ** Call-assignment lists, related person, fast-forward requests *)

(** [moment().add(1, 'days').toDate()], the server's day having 24 hours. *)
Definition in_one_day (env : Env) : Z := now env + 24 * 60 * 60 * 1000.

Definition activeCallAssignments (env : Env) (rows : list CallAssignment.t)
    : list CallAssignment.t :=
  filter (fun r => match CallAssignment.end_dt r with
                   | Some end_dt => in_one_day env <? end_dt
                   | None => true
                   end) rows.

Definition inactiveCallAssignments (env : Env) (rows : list CallAssignment.t)
    : list CallAssignment.t :=
  filter (fun r => match CallAssignment.end_dt r with
                   | Some end_dt => end_dt <? in_one_day env
                   | None => false
                   end) rows.

(** [limit(n)]; no limit when [n] is [undefined]. *)
Definition limit {A} (n : option nat) (rows : list A) : list A :=
  match n with
  | Some n => firstn n rows
  | None => rows
  end.

(** The [callAssignments] field of the list container: the rows handed to
    [connectionFromArray]. *)
Definition callAssignments (env : Env) (first_n : option nat) (active : option bool)
    : M (list CallAssignment.t) :=
  query (fun d =>
    limit first_n
      (match active with
       | Some true => activeCallAssignments env (bsd_call_assignments d)
       | Some false => inactiveCallAssignments env (bsd_call_assignments d)
       | None => bsd_call_assignments d
       end)).

(** The [relatedPerson] field of a user. *)
Definition relatedPerson (user : User.t) : M (option Person.t) :=
  relatedPerson <- query (fun d =>
    first (filter (fun r => String.eqb (Email.email r) (User.email user))
                  (bsd_emails d))) ;;
  match relatedPerson with
  | Some r => load_bsdPeople (Email.cons_id r)
  | None => ret None
  end.

(** The CreateFastFwdRequest mutation: [inr] the rows read back after an
    update, [inl] the row inserted. It consults no guard. The event id is
    compared as the text it arrives as, which is how an integer column
    compares it when the text is a canonical numeral; the properties of
    the mutation are stated for such ids. *)
Definition createFastFwdRequest (hostMessage eventId : string) (rootValue : Session)
    : M (FastFwdRequest.t + list FastFwdRequest.t) :=
  let intEventId := id (fromGlobalId eventId) in
  existingRecord <- query (fun d =>
    filter (fun r => String.eqb (FastFwdRequest.event_id r) intEventId)
           (fast_fwd_request d)) ;;
  if Nat.ltb 0 (List.length existingRecord) then
    update (fun d =>
      with_fast_fwd_request
        (map (fun r =>
                if String.eqb (FastFwdRequest.event_id r) intEventId
                then FastFwdRequest.mk (FastFwdRequest.id r) (FastFwdRequest.event_id r)
                       hostMessage (FastFwdRequest.email_sent_dt r)
                else r)
             (fast_fwd_request d)) d) ;;
    updatedRecord <- query (fun d =>
      filter (fun r => String.eqb (FastFwdRequest.event_id r) intEventId)
             (fast_fwd_request d)) ;;
    ret (inr updatedRecord)
  else
    row <- query (fun d =>
      FastFwdRequest.mk (next_id (map FastFwdRequest.id (fast_fwd_request d)))
                        intEventId hostMessage None) ;;
    update (fun d => with_fast_fwd_request (fast_fwd_request d ++ [row]) d) ;;
    ret (inl row).

(** ** Notions the properties are stated with *)

(** A computation that leaves the database as it found it, whatever else
    it does. *)
Definition db_preserving {A} (c : M A) : Prop :=
  forall w, db (snd (c w)) = db w.

(** [r] is the first row of [rows] that satisfies [p]. *)
Definition first_such {A} (p : A -> bool) (rows : list A) (r : A) : Prop :=
  exists before after,
    rows = before ++ r :: after /\ p r = true /\
    forall x, In x before -> p x = false.

Definition loginRequired : ErrorObject :=
  mkErrorObject 401 "You must login to access that resource.".

Definition notAuthorized : ErrorObject :=
  mkErrorObject 403 "You are not authorized to access that resource.".


Definition mine (user : User.t) (r : AssignedCall.t) : bool :=
  String.eqb (AssignedCall.caller_id r) (User.id user).

(** The world once the caller's assigned calls are deleted. *)
Definition released (user : User.t) (w : World) : World :=
  mkWorld
    (with_bsd_assigned_calls
       (filter (fun r => negb (mine user r)) (bsd_assigned_calls (db w))) (db w))
    (outbox w) (crm_calls w) (logs w).

Definition assignment_row (env : Env) (user : User.t) (local cons_id : ident)
    (d : Database) : AssignedCall.t :=
  AssignedCall.mk (next_id (map AssignedCall.id (bsd_assigned_calls d)))
                  (User.id user) cons_id local (now env) (now env).

(** The rows the joins produce for one person of the source table. *)
Definition candidateRows (env : Env) (local : ident) (notSelf : option ident)
    (d : Database) (cons_id : ident) : list ident :=
  flat_map (fun phone =>
    flat_map (fun address =>
      flat_map (fun zip_code =>
        if negb (mem_id cons_id (previousCallsSubquery env local d))
           && negb (mem_id cons_id (assignedCallsSubquery d))
           && existsb (Z.eqb (ZipCode.timezone_offset zip_code)) (validOffsets env)
           && Phone.is_primary phone
           && Address.is_primary address
           && not_self notSelf cons_id
        then [cons_id] else [])
      (filter (fun z => String.eqb (ZipCode.zip z) (Address.zip address))
              (zip_codes d)))
    (filter (fun a => String.eqb (Address.cons_id a) cons_id) (bsd_addresses d)))
  (filter (fun p => String.eqb (Phone.cons_id p) cons_id) (bsd_phones d)).

(** Whom the query may return: a person with a primary phone and a
    primary address whose zip code lies in a callable time zone, who is
    not excluded by an earlier call, is not assigned to anyone and is not
    the caller. *)
Definition Callable (env : Env) (local : ident) (notSelf : option ident)
    (d : Database) (cons_id : ident) : Prop :=
  ~ In cons_id (previousCallsSubquery env local d)
  /\ ~ In cons_id (assignedCallsSubquery d)
  /\ notSelf <> Some cons_id
  /\ (exists phone, In phone (bsd_phones d)
        /\ Phone.cons_id phone = cons_id /\ Phone.is_primary phone = true)
  /\ (exists address zip_code,
        In address (bsd_addresses d)
        /\ Address.cons_id address = cons_id /\ Address.is_primary address = true
        /\ In zip_code (zip_codes d)
        /\ ZipCode.zip zip_code = Address.zip address
        /\ In (ZipCode.timezone_offset zip_code) (validOffsets env)).

Definition notSelfOf (user : User.t) (d : Database) : option ident :=
  option_map Email.cons_id
    (first (filter (fun r => String.eqb (Email.email r) (User.email user))
                   (bsd_emails d))).

(** The radius and the step of the [i]-th turn of the loop. *)
Definition radius_at (i : nat) : Z :=
  if Nat.leb i 14 then 1000 * (Z.of_nat i + 1) else 15000 + 5000 * (Z.of_nat i - 14).

Definition backoff_at (i : nat) : Z :=
  if Nat.ltb i 14 then 1000 else 5000.

Definition radiusSchedule : list Z :=
  [1000; 2000; 3000; 4000; 5000; 6000; 7000; 8000; 9000; 10000; 11000; 12000;
   13000; 14000; 15000; 20000; 25000; 30000; 35000; 40000; 45000; 50000].

(** A query the loop issued: its radius and the ids it excluded. *)
Definition Step : Type := (Z * list ident)%type.

Definition step_log (center : Geom) (s : Step) : LogEntry :=
  LogNearbyQuery center (fst s) (snd s).

(** The runs of the loop from its [i]-th turn with [found] accumulated:
    it stops when 500 rows are there or the schedule is used up, and
    otherwise queries at the turn's radius, excluding the people found,
    and goes on with the rows appended. *)
Inductive NearbySearch (center : Geom) (d : Database)
  : nat -> list NearbyRow -> list Step -> list NearbyRow -> Prop :=
| search_stop i found :
    (500 <= List.length found)%nat \/ i = 22%nat ->
    NearbySearch center d i found [] found
| search_step i found steps final :
    (List.length found < 500)%nat ->
    (i < 22)%nat ->
    NearbySearch center d (S i)
      (found ++ nearbyQuery center (radius_at i) (map row_cons_id found) d)
      steps final ->
    NearbySearch center d i found
      ((radius_at i, map row_cons_id found) :: steps) final.

(** The invariants of the data model the search relies on for distinct
    people: [cons_id] is the key of [bsd_people], and a person has at most
    one primary e-mail address. *)
Definition people_key (d : Database) : Prop :=
  forall p q, In p (bsd_people d) -> In q (bsd_people d) ->
              Person.cons_id p = Person.cons_id q -> p = q.

Definition primary_email_unique (d : Database) : Prop :=
  forall e1 e2, In e1 (bsd_emails d) -> In e2 (bsd_emails d) ->
                Email.is_primary e1 = true -> Email.is_primary e2 = true ->
                Email.cons_id e1 = Email.cons_id e2 ->
                Email.email e1 = Email.email e2.

(** The rows of the joins of [nearbyQuery], before [distinct] and
    [limit]. *)
Definition nearbyJoin (event_geom : Geom) (radius : Z) (foundConsIds : list ident)
    (d : Database) : list NearbyRow :=
  flat_map (fun address =>
    flat_map (fun person =>
      flat_map (fun email =>
        flat_map (fun communication =>
          flat_map (fun subscription =>
            if Address.is_primary address
               && Email.is_primary email
               && negb (Subscription.isunsub subscription)
               && negb (mem_id (Person.cons_id person) foundConsIds)
               && st_dwithin (Address.geom address) event_geom radius
               && is_null communication
            then [(Email.email email, person)] else [])
          (filter (fun s => String.eqb (Person.cons_id person) (Subscription.cons_id s))
                  (bsd_subscriptions d)))
        (left_join
           (filter (fun c => String.eqb (Person.cons_id person)
                                        (Communication.person_id c))
                   (communications d))))
      (filter (fun e => String.eqb (Person.cons_id person) (Email.cons_id e))
              (bsd_emails d)))
    (filter (fun p => String.eqb (Address.cons_id address) (Person.cons_id p))
            (bsd_people d)))
  (bsd_addresses d).

(** The [bsd_calls] row a submission writes. *)
Definition submittedCall (env : Env) (input : SubmitCallSurveyInput.t)
    (caller : User.t) (assignedCall : AssignedCall.t) (newId : Z) : Call.t :=
  Call.mk newId
    (SubmitCallSurveyInput.completed input)
    (now env)
    (SubmitCallSurveyInput.leftVoicemail input)
    (SubmitCallSurveyInput.sentText input)
    (SubmitCallSurveyInput.reasonNotCompleted input)
    (User.id caller)
    (AssignedCall.interviewee_id assignedCall)
    (AssignedCall.call_assignment_id assignedCall).

(** The caller's assigned call for the submitted call assignment. *)
Definition assignedCallOf (caller : User.t) (local : ident) (d : Database)
    : option AssignedCall.t :=
  first (filter (fun r =>
           String.eqb (AssignedCall.caller_id r) (User.id caller)
           && String.eqb (AssignedCall.call_assignment_id r) local)
         (bsd_assigned_calls d)).

(** The database a successful submission leaves. *)
Definition submitted (env : Env) (input : SubmitCallSurveyInput.t)
    (caller : User.t) (assignedCall : AssignedCall.t) (d : Database) : Database :=
  with_bsd_calls
    (bsd_calls d ++ [submittedCall env input caller assignedCall
                       (next_id (map Call.id (bsd_calls d)))])
    (with_bsd_assigned_calls
       (filter (fun r => negb (AssignedCall.id r =? AssignedCall.id assignedCall))
               (bsd_assigned_calls d)) d).

(** The environment with another CRM behind it. *)
Definition with_bsd (crm : CrmCall -> Result jsval) (env : Env) : Env :=
  mkEnv (now env) (NODE_ENV env) crm (mailgun env) (raw_query env).

(** A CRM that fails every request. *)
Definition crm_down : CrmCall -> Result jsval :=
  fun _ => Throw (ExternalError 503 "BSD API unavailable").

(** The hour of the day in UTC. *)
Definition utc_hour (env : Env) : Z := (now env / 3600000) mod 24.

(** What the schema says of an earlier call that keeps its interviewee off
    the list for a call assignment. *)
Definition keepsOff (env : Env) (local : ident) (call : Call.t) : Prop :=
  (Call.completed call = true /\ Call.call_assignment_id call = local)
  \/ (exists reason, Call.reason_not_completed call = Some reason
        /\ In reason ["WRONG_NUMBER"; "DISCONNECTED_NUMBER"; "OTHER_LANGUAGE"])
  \/ (exists reason, Call.reason_not_completed call = Some reason
        /\ In reason ["NO_PICKUP"; "CALL_BACK"]
        /\ now env - 24 * 60 * 60 * 1000 < Call.attempted_at call)
  \/ (Call.reason_not_completed call = Some "NOT_INTERESTED"
      /\ Call.call_assignment_id call = local).

(** A computation that leaves the part [f] of the world as it found it,
    whether it returns or throws. *)
Definition keeps {A B} (f : World -> B) (c : M A) : Prop :=
  forall w, f (snd (c w)) = f w.

(** The person has a row in [bsd_addresses] flagged primary. *)
Definition has_primary_address (d : Database) (cons_id : ident) : Prop :=
  exists a, In a (bsd_addresses d)
            /\ Address.is_primary a = true /\ Address.cons_id a = cons_id.

(** The copy of the invitation that goes to the admin address. *)
Definition adminCopy (input : CreateAdminEventEmailInput.t) : Mail :=
  AdminEventInvite
    (CreateAdminEventEmailInput.hostEmail input)
    (CreateAdminEventEmailInput.senderEmail input)
    (CreateAdminEventEmailInput.hostMessage input)
    (CreateAdminEventEmailInput.senderMessage input)
    (Some (CreateAdminEventEmailInput.adminEmail input))
    (CreateAdminEventEmailInput.hostEmailSubject input).

(** No fast-forward request found for the event carries a send date. *)
Definition notYetSent (eventId : ident) (d : Database) : Prop :=
  forall n request,
    parseInt eventId = Some n ->
    first (filter (fun r => String.eqb (FastFwdRequest.event_id r) (string_of_Z n))
                  (fast_fwd_request d)) = Some request ->
    truthy_str (FastFwdRequest.email_sent_dt request) = false.

(** The fast-forward requests of an event. *)
Definition requestsOf (eventId : ident) (d : Database) : list FastFwdRequest.t :=
  filter (fun r => String.eqb (FastFwdRequest.event_id r) eventId) (fast_fwd_request d).

Definition one_request_per_event (d : Database) : Prop :=
  forall eventId, (List.length (requestsOf eventId d) <= 1)%nat.

(** What makes a person reachable for an event: a primary address within
    [radius] of the event, the primary e-mail address [email], a
    subscription that is not cancelled and no communication on record. *)
Definition reachable (center : Geom) (radius : Z) (d : Database)
    (email : string) (cons_id : ident) : Prop :=
  (exists address, In address (bsd_addresses d)
     /\ Address.cons_id address = cons_id /\ Address.is_primary address = true
     /\ st_dwithin (Address.geom address) center radius = true)
  /\ (exists e, In e (bsd_emails d)
        /\ Email.cons_id e = cons_id /\ Email.is_primary e = true
        /\ Email.email e = email)
  /\ (exists s, In s (bsd_subscriptions d)
        /\ Subscription.cons_id s = cons_id /\ Subscription.isunsub s = false)
  /\ (forall c, In c (communications d) -> Communication.person_id c <> cons_id).

(** The event [editEvents] sends to the CRM: the local row overlaid with
    the new data, without empty strings and without the host address,
    asking for a phone number where the event type requires one. *)
Definition mergedEvent (event newEventData : obj) : obj :=
  let event := spread event newEventData in
  let event := filter (fun kv => negb (is_empty_string (snd kv))) event in
  let event :=
    if match Number (prop event "event_type_id") with
       | Some t => existsb (Z.eqb t) eventIdsRequiringPhone
       | None => false
       end
    then set_prop event "attendee_require_phone" (JNum 1) else event in
  fold_left delete_prop hostAddressFields event.

(** The local row of the event an edit names. *)
Definition localEvent (newEventData : obj) (d : Database) : option obj :=
  first (filter (fun e => match sql_key (prop newEventData "event_id") with
                          | Some k => column_is "event_id" k e
                          | None => false
                          end)
                (bsd_events d)).

(** The events an edit takes out of review. *)
Definition reviewedBy (local newEventData : obj) (reviewedEvents : list ident)
    : list ident :=
  if is_true (prop local "flag_approval") && is_false (prop newEventData "flag_approval")
  then reviewedEvents ++ [number_key (Number (prop local "event_id"))]
  else reviewedEvents.

(** Text within ASCII, where letter case and blanks are those of
    [toLowerCase] and [trim]. *)
Definition ascii_text (s : string) : bool :=
  forallb (fun c => Nat.ltb (nat_of_ascii c) 128) (list_ascii_of_string s).

(** The statement [createCallAssignment] runs to try a group query out. *)
Definition limitedQuery (query_text : string) : string :=
  ((if negb (includes "order by" query_text)
    then (query_text ++ " order by cons_id")%string else query_text)
   ++ " limit 1 offset 0")%string.

(** The group of [gc_bsd_groups] kept under a query text, if any. *)
Definition groupOfQuery (query_text : string) (d : Database) : option Group.t :=
  first (filter (fun r => match Group.query r with
                          | Some q => String.eqb q query_text
                          | None => false
                          end)
                (gc_bsd_groups d)).

(** A computation whose mail, whether it returns or throws, is made of
    messages satisfying [P]. *)
Definition mails_only {A} (P : Mail -> Prop) (c : M A) : Prop :=
  forall w, exists new, outbox (snd (c w)) = outbox w ++ new /\ Forall P new.




(** ** Sample data *)

(** [fromGlobalId] on ids kept in clear: the type before the first colon,
    the id after it. *)
Definition sample_fromGlobalId (globalId : string) : ResolvedGlobalId :=
  match String.index 0 ":" globalId with
  | Some n =>
      mkResolvedGlobalId (String.substring 0 n globalId)
        (String.substring (S n) (String.length globalId - S n) globalId)
  | None => mkResolvedGlobalId "" globalId
  end.

(** A [JSON.parse] that knows the empty object and rejects the rest. *)
Definition sample_JSON_parse (text : string) : option jsval :=
  if String.eqb text "{}" then Some (JObj []) else None.

Definition sample_decamelize (s : string) : string := s.

(** Planar distance. *)
Definition sample_st_dwithin (a b : Geom) (radius : Z) : bool :=
  (gx a - gx b) * (gx a - gx b) + (gy a - gy b) * (gy a - gy b) <=? radius * radius.

Definition sample_toISOString (ms : Z) : string := string_of_Z ms.

(** [Number] on what the samples hold: numbers, booleans, [null], dates and
    canonical numerals. *)
Definition sample_Number (v : jsval) : option Z :=
  match v with
  | JNum n => Some n
  | JBool b => Some (if b then 1 else 0)
  | JNull => Some 0
  | JDate ms => Some ms
  | JStr s =>
      match parseInt s with
      | Some n => if String.eqb (string_of_Z n) s then Some n else None
      | None => None
      end
  | _ => None
  end.

(** Eight in the evening UTC on the first day of the epoch, a CRM and a mail provider
    that accept everything. *)
Definition sample_env : Env :=
  mkEnv (20 * 3600000) "production"
        (fun _ => Ok JNull) (fun _ => Ok tt) (fun _ d => Ok d).

Definition sample_caller : User.t := User.mk "7" "vol@example.org" false false.
Definition sample_admin : User.t := User.mk "1" "admin@example.org" true false.
Definition sample_superuser : User.t := User.mk "2" "root@example.org" true true.

Definition empty_db : Database :=
  mkDatabase [] [] [] [] [] [] [] [] [] [] [] [] [] [] [] [] [] [] [] [] [].

(** One call assignment (3) with its survey (5) and group (9, everyone);
    Ann (42) lives far away, Bob (43) next door; the caller holds an
    assigned call to Ann. *)
Definition sample_db : Database :=
  mkDatabase
    [AssignedCall.mk 1 "7" "42" "3" 0 0; AssignedCall.mk 2 "8" "44" "3" 0 0]
    []
    [CallAssignment.mk "3" "Canvass" "survey" None "9" "5" 0 None None]
    [Survey.mk "5" "100" (Some ["bsd-form-submitter"; "bsd-event-rsvper"])]
    [Group.mk "9" None (Some "everyone")]
    [Person.mk "42" [("firstname", JStr "Ann")];
     Person.mk "43" [("firstname", JStr "Bob")]]
    [] []
    [Email.mk "42" "ann@example.org" true; Email.mk "43" "bob@example.org" true]
    [Phone.mk "42" "5550142" true; Phone.mk "43" "5550143" true]
    [Address.mk "a42" "42" "96801" true (mkGeom 1000000 0);
     Address.mk "a43" "43" "10001" true (mkGeom 10 0)]
    [ZipCode.mk "96801" (-10); ZipCode.mk "10001" (-5)]
    [SurveyField.mk "900" "100" "Email"]
    [[("event_id", JStr "11"); ("event_id_obfuscated", JStr "4vfn");
      ("creator_cons_id", JStr "43"); ("geom", JGeom (mkGeom 0 0))];
     [("event_id", JStr "12"); ("event_id_obfuscated", JStr "4vfp");
      ("creator_cons_id", JStr "42"); ("geom", JGeom (mkGeom 0 0))]]
    [GcEvent.mk "11" true None; GcEvent.mk "12" true None]
    [] []
    [Subscription.mk "42" false; Subscription.mk "43" false]
    [] [] [].

Definition sample_world : World := mkWorld sample_db [] [] [].

Definition sample_submission : SubmitCallSurveyInput.t :=
  SubmitCallSurveyInput.mk "CallAssignment:3" "Person:42" true None None None "{}".

(** The same submission with a body that is not JSON. *)
Definition sample_bad_submission : SubmitCallSurveyInput.t :=
  SubmitCallSurveyInput.mk "CallAssignment:3" "Person:42" true None None None "".

(** The clock at seven in the morning UTC: between 9pm and 3am at every
    offset from -10 to -4. *)
Definition sample_night : Env :=
  mkEnv (7 * 3600000) "production" (fun _ => Ok JNull) (fun _ => Ok tt) (fun _ d => Ok d).

Definition sample_event : obj :=
  [("event_id", JStr "11"); ("event_id_obfuscated", JStr "4vfn");
   ("creator_cons_id", JStr "43"); ("geom", JGeom (mkGeom 0 0))].

Definition sample_edit : EditEventsInput.t :=
  EditEventsInput.mk [[("id", JStr "Event:11"); ("name", JStr "Phone bank")]].

Definition sample_review : ReviewEventsInput.t :=
  ReviewEventsInput.mk ["Event:11"] None.

Definition sample_delete : DeleteEventsInput.t :=
  DeleteEventsInput.mk ["Event:11"; "Event:12"] (Some "Cancelled").

Definition sample_mail : EmailHostAttendeesInput.t :=
  EmailHostAttendeesInput.mk ["Event:11"] None (Some []) (Some "Hello")
    (Some "See you there") (Some "host").

Definition sample_invite : CreateAdminEventEmailInput.t :=
  CreateAdminEventEmailInput.mk "host@example.org" "sender@example.org"
    "admin@example.org" "Join us" "Please come" "Sent for the host"
    (Some ["Person:42"]) "solidarity" "Event:11".

Definition sample_assignment : CreateCallAssignmentInput.t :=
  CreateCallAssignmentInput.mk "Canvass" "everyone" 100 "survey" None None None None None.

(** 250 people at the event's doorstep, each with two primary e-mail
    addresses. *)
Definition crowd_id (n : nat) : ident := string_of_Z (Z.of_nat n).

Definition crowd_db : Database :=
  mkDatabase [] [] [] [] []
    (map (fun n => Person.mk (crowd_id n) []) (seq 1 250))
    [] []
    (flat_map (fun n => [Email.mk (crowd_id n) (crowd_id n ++ "@home.example")%string true;
                         Email.mk (crowd_id n) (crowd_id n ++ "@work.example")%string true])
              (seq 1 250))
    []
    (map (fun n => Address.mk (crowd_id n) (crowd_id n) "10001" true (mkGeom 0 0))
         (seq 1 250))
    [] [] [] [] [] []
    (map (fun n => Subscription.mk (crowd_id n) false) (seq 1 250))
    [] [] [].

Definition crowd_world : World := mkWorld crowd_db [] [] [].

Definition callableb (env : Env) (local : ident) (notSelf : option ident)
    (d : Database) (cons_id : ident) : bool :=
  match candidateRows env local notSelf d cons_id with
  | [] => false
  | _ :: _ => true
  end.

(** The selection as the specification words it, for comparison with
    [intervieweeForCallAssignment]: the search widens a radius around a
    centre over one query per radius, each excluding the people on the
    exclusion list, until a callable interviewee is found or the radii are
    exhausted. *)
Definition spec_expandingRadiusSelection (center : Geom) (radii : list Z) (env : Env)
    (local : ident) (notSelf : option ident) (d : Database) : option ident :=
  (fix widen (radii : list Z) : option ident :=
     match radii with
     | [] => None
     | radius :: wider =>
         match find (fun p =>
                 callableb env local notSelf d (Person.cons_id p)
                 && existsb (fun a =>
                      String.eqb (Address.cons_id a) (Person.cons_id p)
                      && Address.is_primary a
                      && st_dwithin (Address.geom a) center radius)
                    (bsd_addresses d))
               (bsd_people d) with
         | Some p => Some (Person.cons_id p)
         | None => widen wider
         end
     end) radii.

(** The callable hours as the specification words them, for comparison
    with [intervieweeForCallAssignment]: the zip code of the person's
    primary address, the one [getPrimaryAddress] resolves, maps to one of
    the offsets -10..-4 at which the local hour is at least 9 and less
    than 21. *)
Definition spec_primaryAddressCallable (env : Env) (d : Database) (cons_id : ident)
    : bool :=
  match first (filter (is_primary_address_of cons_id) (bsd_addresses d)) with
  | Some address =>
      existsb (fun z =>
                 String.eqb (ZipCode.zip z) (Address.zip address)
                 && existsb (Z.eqb (ZipCode.timezone_offset z)) allOffsets
                 && callable_hour (hours_at env (ZipCode.timezone_offset z)))
              (zip_codes d)
  | None => false
  end.

(** Two in the afternoon UTC: four in the morning at offset -10, nine in
    the morning at offset -5. *)
Definition sample_afternoon : Env :=
  mkEnv (14 * 3600000) "production" (fun _ => Ok JNull) (fun _ => Ok tt) (fun _ d => Ok d).

(** Ann (42) keeps two addresses, both flagged primary: Honolulu first,
    New York second. Nobody holds an assigned call. *)
Definition two_homes_db : Database :=
  mkDatabase [] []
    [CallAssignment.mk "3" "Canvass" "survey" None "9" "5" 0 None None]
    [Survey.mk "5" "100" None]
    [Group.mk "9" None (Some "everyone")]
    [Person.mk "42" [("firstname", JStr "Ann")]]
    [] []
    [Email.mk "42" "ann@example.org" true]
    [Phone.mk "42" "5550142" true]
    [Address.mk "a42" "42" "96801" true (mkGeom 1000000 0);
     Address.mk "b42" "42" "10001" true (mkGeom 10 0)]
    [ZipCode.mk "96801" (-10); ZipCode.mk "10001" (-5)]
    [] [] [] [] [] [] [] [] [].

Definition two_homes_world : World := mkWorld two_homes_db [] [] [].


(** Seven in the morning UTC on a developer's machine. *)
Definition sample_development : Env :=
  mkEnv (7 * 3600000) "development" (fun _ => Ok JNull) (fun _ => Ok tt) (fun _ d => Ok d).

(** The caller, signed up with Ann's e-mail address. *)
Definition sample_ann : User.t := User.mk "7" "ann@example.org" false false.

(** Ann's number was reported wrong by another caller, for another call
    assignment. *)
Definition sample_wrong_number : Call.t :=
  Call.mk 1 false 0 None None (Some "WRONG_NUMBER") "8" "42" "4".

Definition sample_history : World :=
  mkWorld (with_bsd_calls [sample_wrong_number] sample_db) [] [] [].

(** Event 11 has a fast-forward request, sent already or still pending. *)
Definition sample_sent_world : World :=
  mkWorld (with_fast_fwd_request
             [FastFwdRequest.mk 1 "11" "Please help" (Some "2016-05-01 12:00:00")]
             sample_db) [] [] [].

Definition sample_pending_world : World :=
  mkWorld (with_fast_fwd_request
             [FastFwdRequest.mk 1 "11" "Please help" None;
              FastFwdRequest.mk 2 "12" "Join us" None]
             sample_db) [] [] [].

(** The sample invitation in test mode. *)
Definition sample_test_invite : CreateAdminEventEmailInput.t :=
  CreateAdminEventEmailInput.mk "host@example.org" "sender@example.org"
    "admin@example.org" "Join us" "Please come" "Sent for the host"
    (Some []) "solidarity" "Event:11".

(** A mail provider that delivers to the admin address only. *)
Definition sample_mail_trouble : Env :=
  mkEnv (20 * 3600000) "production" (fun _ => Ok JNull)
        (fun m => match m with
                  | AdminEventInvite _ _ _ _ (Some "admin@example.org") _ => Ok tt
                  | _ => Throw (ExternalError 500 "mailbox unavailable")
                  end)
        (fun _ d => Ok d).

(** A CRM that finds every event update invalid. *)
Definition sample_strict_crm : Env :=
  mkEnv (20 * 3600000) "production"
        (fun c => match c with
                  | UpdateEvent _ => Throw (BSDValidationError "name is required")
                  | _ => Ok JNull
                  end)
        (fun _ => Ok tt) (fun _ d => Ok d).

(** An edit of event 11 that blanks its name. *)
Definition sample_blank_name : obj := [("event_id", JStr "11"); ("name", JStr "")].

(** The sample world once survey 100 has been fetched from the CRM. *)
Definition sample_surveyed_world : World :=
  mkWorld (with_bsd_surveys [[("signup_form_id", JStr "100")]] sample_db) [] [] [].

(** A call assignment over a group query that is not one. *)
Definition sample_drop_assignment : CreateCallAssignmentInput.t :=
  CreateCallAssignmentInput.mk "Canvass" "select 1; DROP TABLE users;" 100 "survey"
    None None None None None.

(** A call assignment over the people a query selects. *)
Definition sample_query_assignment : CreateCallAssignmentInput.t :=
  CreateCallAssignmentInput.mk "Canvass" "SELECT cons_id FROM bsd_people;" 100 "survey"
    None None None None None.

(** Bob (43) and Cid (45) live next to the event; both are subscribed and
    neither has been written to. *)
Definition neighbours_db : Database :=
  mkDatabase [] [] [] [] []
    [Person.mk "43" [("firstname", JStr "Bob")];
     Person.mk "45" [("firstname", JStr "Cid")]]
    [] []
    [Email.mk "43" "bob@example.org" true; Email.mk "45" "cid@example.org" true]
    []
    [Address.mk "a43" "43" "10001" true (mkGeom 10 0);
     Address.mk "a45" "45" "10001" true (mkGeom 0 20)]
    [] [] [] [] [] []
    [Subscription.mk "43" false; Subscription.mk "45" false]
    [] [] [].

Definition neighbours_world : World := mkWorld neighbours_db [] [] [].

(** The sample invitation, addressed to Bob. *)
Definition sample_invite_bob : CreateAdminEventEmailInput.t :=
  CreateAdminEventEmailInput.mk "host@example.org" "sender@example.org"
    "admin@example.org" "Join us" "Please come" "Sent for the host"
    (Some ["Person:43"]) "solidarity" "Event:11".

(** * Properties *)

(** ** The request monad *)

Lemma bind_ok {A B} (c : M A) (k : A -> M B) w a w' :
  c w = (Ok a, w') -> bind c k w = k a w'.
Proof. unfold bind; intros ->; reflexivity. Qed.

Lemma bind_throw {A B} (c : M A) (k : A -> M B) w e w' :
  c w = (Throw e, w') -> bind c k w = (Throw e, w').
Proof. unfold bind; intros ->; reflexivity. Qed.

Lemma bind_inv_ok {A B} (c : M A) (k : A -> M B) w b w'' :
  bind c k w = (Ok b, w'') ->
  exists a w', c w = (Ok a, w') /\ k a w' = (Ok b, w'').
Proof.
  unfold bind; destruct (c w) as [[a|e] w'] eqn:E; intros H.
  - exists a, w'; split; [reflexivity | exact H].
  - discriminate.
Qed.

Lemma pres_ret {A} (a : A) : db_preserving (ret a).
Proof. intro; reflexivity. Qed.

Lemma pres_throw {A} (e : exn) : db_preserving (@throw A e).
Proof. intro; reflexivity. Qed.

Lemma pres_query {A} (f : Database -> A) : db_preserving (query f).
Proof. intro; reflexivity. Qed.

Lemma pres_log e : db_preserving (log_write e).
Proof. intro; reflexivity. Qed.

Lemma pres_mail env m : db_preserving (Mailgun_send env m).
Proof. intro; reflexivity. Qed.

Lemma pres_crm env c : db_preserving (BSDClient_request env c).
Proof. intro; reflexivity. Qed.

Lemma pres_deref {A} what (r : option A) : db_preserving (deref what r).
Proof. destruct r; intro; reflexivity. Qed.

Lemma pres_bind {A B} (c : M A) (k : A -> M B) :
  db_preserving c -> (forall a, db_preserving (k a)) -> db_preserving (bind c k).
Proof.
  intros Hc Hk w. unfold bind.
  specialize (Hc w). destruct (c w) as [[a|e] w']; cbn in *.
  - rewrite Hk. exact Hc.
  - exact Hc.
Qed.

Lemma pres_try_catch {A} (c : M A) (h : exn -> M A) :
  db_preserving c -> (forall e, db_preserving (h e)) -> db_preserving (try_catch c h).
Proof.
  intros Hc Hh w. unfold try_catch.
  specialize (Hc w). destruct (c w) as [[a|e] w']; cbn in *.
  - exact Hc.
  - rewrite Hh. exact Hc.
Qed.

Lemma pres_for_each {A} (xs : list A) (body : A -> M unit) :
  (forall x, db_preserving (body x)) -> db_preserving (for_each xs body).
Proof.
  intros Hb. induction xs as [|x xs IH]; cbn.
  - apply pres_ret.
  - apply pres_bind; [apply Hb | intros _; exact IH].
Qed.

Lemma pres_noFail env method args :
  db_preserving (BSDClient_noFailApiRequest env method args).
Proof.
  apply pres_try_catch.
  - apply pres_bind; [apply pres_crm | intros; apply pres_ret].
  - intros; apply pres_ret.
Qed.

Lemma pres_getPrimaryEmail p : db_preserving (getPrimaryEmail p).
Proof. intro; reflexivity. Qed.

Lemma pres_getPrimaryAddress p : db_preserving (getPrimaryAddress p).
Proof. intro; reflexivity. Qed.

Lemma pres_getPrimaryPhone p : db_preserving (getPrimaryPhone p).
Proof. intro; reflexivity. Qed.

Lemma pres_load_bsdPeople i : db_preserving (load_bsdPeople i).
Proof. intro; reflexivity. Qed.

Create HintDb pres.
#[local] Hint Resolve pres_ret pres_throw pres_query pres_log pres_mail pres_crm
  pres_deref pres_noFail pres_getPrimaryEmail pres_getPrimaryAddress
  pres_getPrimaryPhone pres_load_bsdPeople : pres.

(** Decompose a goal [db_preserving c] along the syntax of [c]. *)
Ltac pres :=
  repeat first
    [ solve [auto with pres]
    | apply pres_bind; [ | intros ]
    | apply pres_try_catch; [ | intros ]
    | apply pres_for_each; intros
    | match goal with
      | |- db_preserving (if ?b then _ else _) => destruct b
      | |- db_preserving (match ?x with _ => _ end) => destruct x
      end ].

(** ** Rows selected by [.first()] *)

Lemma first_filter_some {A} (p : A -> bool) rows r :
  first (filter p rows) = Some r -> first_such p rows r.
Proof.
  induction rows as [|x rows IH]; cbn; [discriminate|].
  destruct (p x) eqn:Px; cbn.
  - intros [= ->]. exists [], rows. repeat split; [exact Px | intros ? []].
  - intros H. destruct (IH H) as (before & after & -> & Pr & Hb).
    exists (x :: before), after. repeat split; [exact Pr|].
    intros y [<-|Hy]; [exact Px | apply Hb, Hy].
Qed.

Lemma first_filter_none {A} (p : A -> bool) rows :
  first (filter p rows) = None -> forall x, In x rows -> p x = false.
Proof.
  induction rows as [|x rows IH]; cbn; [intros _ ? []|].
  destruct (p x) eqn:Px; cbn; [discriminate|].
  intros H y [<-|Hy]; [exact Px | apply IH; assumption].
Qed.

(** ** Primary rows *)

(** C7. [getPrimaryEmail], [getPrimaryPhone] and [getPrimaryAddress] read
    the first row of their table whose [is_primary] flag is set and whose
    [cons_id] is the person's: the e-mail and the phone number returned are
    that row's, the address returned is that row; when the table has no
    such row the first two return [null] and the third returns no row.
    None of them changes the world. *)
Theorem getPrimary_first_primary_row (person : Person.t) (w : World) :
  (snd (getPrimaryEmail person w) = w /\
   match fst (getPrimaryEmail person w) with
   | Ok (Some e) =>
       exists r, first_such (fun r => Email.is_primary r
                                      && String.eqb (Email.cons_id r) (Person.cons_id person))
                            (bsd_emails (db w)) r
                 /\ Email.is_primary r = true
                 /\ Email.cons_id r = Person.cons_id person
                 /\ e = Email.email r
   | Ok None =>
       forall r, In r (bsd_emails (db w)) ->
                 Email.is_primary r = true ->
                 Email.cons_id r <> Person.cons_id person
   | Throw _ => False
   end) /\
  (snd (getPrimaryPhone person w) = w /\
   match fst (getPrimaryPhone person w) with
   | Ok (Some n) =>
       exists r, first_such (fun r => Phone.is_primary r
                                      && String.eqb (Phone.cons_id r) (Person.cons_id person))
                            (bsd_phones (db w)) r
                 /\ Phone.is_primary r = true
                 /\ Phone.cons_id r = Person.cons_id person
                 /\ n = Phone.phone r
   | Ok None =>
       forall r, In r (bsd_phones (db w)) ->
                 Phone.is_primary r = true ->
                 Phone.cons_id r <> Person.cons_id person
   | Throw _ => False
   end) /\
  (snd (getPrimaryAddress person w) = w /\
   match fst (getPrimaryAddress person w) with
   | Ok (Some a) =>
       first_such (fun r => Address.is_primary r
                            && String.eqb (Address.cons_id r) (Person.cons_id person))
                  (bsd_addresses (db w)) a
       /\ Address.is_primary a = true
       /\ Address.cons_id a = Person.cons_id person
   | Ok None =>
       forall r, In r (bsd_addresses (db w)) ->
                 Address.is_primary r = true ->
                 Address.cons_id r <> Person.cons_id person
   | Throw _ => False
   end).
Proof.
  repeat split.
  - unfold getPrimaryEmail, bind, query, ret; cbn.
    destruct (first (filter _ (bsd_emails (db w)))) as [r|] eqn:E; cbn.
    + pose proof (first_filter_some _ _ E) as F.
      exists r. destruct F as (b & a & Hrows & Hp & Hb).
      apply andb_true_iff in Hp as Hp'. destruct Hp' as [P1 P2].
      apply String.eqb_eq in P2.
      repeat split; try assumption.
      exists b, a; repeat split; assumption.
    + intros r Hin Hprim Hid.
      pose proof (first_filter_none _ _ E r Hin) as F.
      unfold is_primary_email_of in F. rewrite Hprim, Hid, String.eqb_refl in F.
      discriminate.
  - unfold getPrimaryPhone, bind, query, ret; cbn.
    destruct (first (filter _ (bsd_phones (db w)))) as [r|] eqn:E; cbn.
    + pose proof (first_filter_some _ _ E) as F.
      exists r. destruct F as (b & a & Hrows & Hp & Hb).
      apply andb_true_iff in Hp as Hp'. destruct Hp' as [P1 P2].
      apply String.eqb_eq in P2.
      repeat split; try assumption.
      exists b, a; repeat split; assumption.
    + intros r Hin Hprim Hid.
      pose proof (first_filter_none _ _ E r Hin) as F.
      unfold is_primary_phone_of in F. rewrite Hprim, Hid, String.eqb_refl in F.
      discriminate.
  - unfold getPrimaryAddress, query; cbn.
    destruct (first (filter _ (bsd_addresses (db w)))) as [r|] eqn:E; cbn.
    + pose proof (first_filter_some _ _ E) as F.
      destruct F as (b & a & Hrows & Hp & Hb).
      apply andb_true_iff in Hp as Hp'. destruct Hp' as [P1 P2].
      apply String.eqb_eq in P2.
      repeat split; try assumption.
      exists b, a; repeat split; assumption.
    + intros r Hin Hprim Hid.
      pose proof (first_filter_none _ _ E r Hin) as F.
      unfold is_primary_address_of in F. rewrite Hprim, Hid, String.eqb_refl in F.
      discriminate.
Qed.

(** ** Guards *)

Lemma authRequired_anonymous w :
  authRequired (mkSession None) w = (Throw (newGraphQLError loginRequired), w).
Proof. reflexivity. Qed.

Lemma authRequired_logged_in session u w :
  user session = Some u -> authRequired session w = (Ok tt, w).
Proof. unfold authRequired; intros ->; reflexivity. Qed.

Lemma adminRequired_anonymous w :
  adminRequired (mkSession None) w = (Throw (newGraphQLError loginRequired), w).
Proof. reflexivity. Qed.

Lemma adminRequired_not_admin u w :
  User.is_admin u = false ->
  adminRequired (mkSession (Some u)) w = (Throw (newGraphQLError notAuthorized), w).
Proof. unfold adminRequired, authRequired, bind; cbn; intros ->; reflexivity. Qed.

Lemma adminRequired_admin u w :
  User.is_admin u = true -> adminRequired (mkSession (Some u)) w = (Ok tt, w).
Proof. unfold adminRequired, authRequired, bind; cbn; intros ->; reflexivity. Qed.

(** C8. For a session without a logged-in user, each operation guarded by
    [authRequired] (the [currentUser], [callAssignment] and
    [fastFwdRequest] queries, the [submitCallSurvey] and
    [changeUserPassword] mutations) throws a [GraphQLError] whose message
    is the JSON serialisation of an error object with status 401, touches
    nothing, and that message contains the text of [status] 401. *)
Theorem authRequired_operations_401 (env : Env) (w : World)
    (callAssignmentId fastFwdId : string)
    (survey : SubmitCallSurveyInput.t) (passwords : ChangeUserPasswordInput.t) :
  let session := mkSession None in
  let error := GraphQLError (JSON_stringify loginRequired) in
  currentUser session w = (Throw error, w)
  /\ callAssignment callAssignmentId session w = (Throw error, w)
  /\ fastFwdRequest fastFwdId session w = (Throw error, w)
  /\ submitCallSurvey env survey session w = (Throw error, w)
  /\ changeUserPassword env passwords session w = (Throw error, w)
  /\ status loginRequired = 401
  /\ includes (json_quote "status" ++ ":401")%string (JSON_stringify loginRequired) = true.
Proof.
  cbv zeta. repeat split; try reflexivity.
Qed.

(** C3. For a session whose user lacks the admin flag, each admin-gated
    operation (the [listContainer] query and the [editEvents],
    [reviewEvents], [deleteEvents], [emailHostAttendees],
    [createAdminEventEmail] and [createCallAssignment] mutations) throws a
    [GraphQLError] carrying status 403 and leaves the world, the database
    included, exactly as it was. *)
Theorem adminRequired_operations_403 (env : Env) (u : User.t) (w : World)
    (edit : EditEventsInput.t) (review : ReviewEventsInput.t)
    (del : DeleteEventsInput.t) (mail : EmailHostAttendeesInput.t)
    (invite : CreateAdminEventEmailInput.t) (assignment : CreateCallAssignmentInput.t) :
  User.is_admin u = false ->
  let session := mkSession (Some u) in
  let error := GraphQLError (JSON_stringify notAuthorized) in
  status notAuthorized = 403
  /\ listContainer session w = (Throw error, w)
  /\ editEvents env edit session w = (Throw error, w)
  /\ reviewEvents review session w = (Throw error, w)
  /\ deleteEvents env del session w = (Throw error, w)
  /\ emailHostAttendees env mail session w = (Throw error, w)
  /\ createAdminEventEmail env invite session w = (Throw error, w)
  /\ createCallAssignment env assignment session w = (Throw error, w).
Proof.
  intros Hadmin. cbv zeta.
  pose proof (adminRequired_not_admin u w Hadmin) as G.
  split; [reflexivity|].
  repeat split.
  - unfold listContainer. apply bind_throw, G.
  - unfold editEvents. apply bind_throw, G.
  - unfold reviewEvents. apply bind_throw, G.
  - unfold deleteEvents. apply bind_throw, G.
  - unfold emailHostAttendees. apply bind_throw, G.
  - unfold createAdminEventEmail. apply bind_throw, G.
  - unfold createCallAssignment. apply bind_throw, G.
Qed.

(** ** DeleteEvents *)



(** ** Interviewee selection *)

Lemma filter_filter_neg {A} (p q : A -> bool) (l : list A) :
  (forall x, p x = true -> q x = true) ->
  filter p (filter (fun x => negb (q x)) l) = [].
Proof.
  intros H. induction l as [|x l IH]; cbn; [reflexivity|].
  destruct (q x) eqn:Q; cbn; [exact IH|].
  destruct (p x) eqn:P; [|exact IH].
  rewrite (H x P) in Q. discriminate.
Qed.

Lemma filter_idem {A} (p : A -> bool) (l : list A) :
  filter p (filter p l) = filter p l.
Proof.
  induction l as [|x l IH]; cbn; [reflexivity|].
  destruct (p x) eqn:P; cbn; [rewrite P, IH|]; auto.
Qed.

(** What one invocation does, path by path. *)
Lemma interviewee_outcome (env : Env) (user : User.t) (callAssignmentId : string)
    (w : World) :
  let local := localIdOf "CallAssignment" callAssignmentId in
  let w1 := released user w in
  exists r w',
    intervieweeForCallAssignment env user callAssignmentId w = (r, w')
    /\ ((db w' = db w1 /\ (forall p, r <> Ok (Some p)) /\
         (validOffsets env = [] -> r = Ok None))
        \/ exists group notSelf cons_id,
             validOffsets env <> []
             /\ first (intervieweeQuery env local group notSelf (db w1)) = Some cons_id
             /\ db w' = with_bsd_assigned_calls
                          (bsd_assigned_calls (db w1)
                           ++ [assignment_row env user local cons_id (db w1)]) (db w1)
             /\ r = Ok (first (filter (fun p => String.eqb (Person.cons_id p) cons_id)
                                      (bsd_people (db w1))))).
Proof.
  intros local w1.
  unfold intervieweeForCallAssignment. fold local.
  unfold bind, update, load_bsdCallAssignments, load_gcBsdGroups, load_bsdPeople,
    query, log_write, deref, ret, throw.
  cbn [db outbox crm_calls logs fst snd].
  fold (mine user). fold w1.
  assert (NoMine : forall d' : Database,
             bsd_assigned_calls d' = bsd_assigned_calls (db w1) ->
             first (filter (fun r2 : AssignedCall.t =>
                      String.eqb (AssignedCall.caller_id r2) (User.id user)
                      && String.eqb (AssignedCall.call_assignment_id r2) local)
                    (bsd_assigned_calls d')) = None).
  { intros d' ->. unfold w1, released. cbn [db bsd_assigned_calls with_bsd_assigned_calls].
    rewrite filter_filter_neg; [reflexivity|].
    intros x Hx. apply andb_true_iff in Hx. exact (proj1 Hx). }
  destruct (Nat.eqb (List.length (validOffsets env)) 0) eqn:V.
  { eexists _, _. split; [reflexivity|]. left.
    split; [reflexivity | split; [intros p; discriminate | intros; reflexivity]]. }
  assert (V' : validOffsets env <> []).
  { intros E. rewrite E in V. discriminate. }
  destruct (first (filter _ (bsd_call_assignments _))) as [ca|] eqn:CA.
  2: { eexists _, _. split; [reflexivity|]. left.
       split; [reflexivity | split; [intros p; discriminate | intros; contradiction]]. }
  cbn beta iota.
  destruct (first (filter _ (gc_bsd_groups _))) as [group|] eqn:G.
  2: { eexists _, _. split; [reflexivity|]. left.
       split; [reflexivity | split; [intros p; discriminate | intros; contradiction]]. }
  cbn beta iota. cbn [db].
  match goal with
  | |- context [first (intervieweeQuery env local group ?ns ?d)] =>
      destruct (first (intervieweeQuery env local group ns d)) as [cons_id|] eqn:Q
  end.
  2: { eexists _, _. split; [reflexivity|]. left.
       split; [reflexivity | split; [intros p; discriminate | intros; contradiction]]. }
  cbn [db].
  match goal with
  | |- context [first (filter ?p (bsd_assigned_calls ?d))] =>
      rewrite (NoMine d eq_refl)
  end.
  eexists _, _. split; [reflexivity|]. right.
  eexists group, _, cons_id.
  split; [exact V'|]. split; [exact Q|]. split; reflexivity.
Qed.

Lemma filter_app_singleton_out {A} (p : A -> bool) (l : list A) (x : A) :
  p x = false -> filter p (l ++ [x]) = filter p l.
Proof.
  intros H. rewrite filter_app. cbn. rewrite H. apply app_nil_r.
Qed.

(** C10. [intervieweeForCallAssignment] deletes every assigned call of the
    requesting user, whichever call assignment it belongs to, and leaves
    the assigned calls of every other caller as they were: afterwards the
    table is the other callers' rows followed by at most one new row, which
    is the requesting user's and for the requested call assignment. So
    after any invocation, however it ends, the user holds at most one
    assigned call. *)
Theorem interviewee_assignment_frame (env : Env) (user : User.t)
    (callAssignmentId : string) (w : World) :
  let w' := snd (intervieweeForCallAssignment env user callAssignmentId w) in
  let before := bsd_assigned_calls (db w) in
  let after := bsd_assigned_calls (db w') in
  (exists new,
      after = filter (fun r => negb (mine user r)) before ++ new
      /\ (new = []
          \/ exists r, new = [r]
               /\ AssignedCall.caller_id r = User.id user
               /\ AssignedCall.call_assignment_id r
                  = localIdOf "CallAssignment" callAssignmentId))
  /\ filter (fun r => negb (mine user r)) after
     = filter (fun r => negb (mine user r)) before
  /\ (List.length (filter (mine user) after) <= 1)%nat.
Proof.
  intros w' before after.
  destruct (interviewee_outcome env user callAssignmentId w)
    as (r & w0 & Hrun & Hcase).
  assert (Hw' : w' = w0) by (unfold w'; rewrite Hrun; reflexivity).
  assert (Hmine : filter (mine user) (filter (fun r => negb (mine user r)) before) = []).
  { apply filter_filter_neg. auto. }
  unfold after. rewrite Hw'.
  destruct Hcase as [(Hdb & _) | (group & notSelf & cons_id & _ & _ & Hdb & _)];
    rewrite Hdb; cbn [released db bsd_assigned_calls with_bsd_assigned_calls].
  - fold before. split; [|split].
    + exists []. rewrite app_nil_r. split; [reflexivity | left; reflexivity].
    + apply filter_idem.
    + rewrite Hmine. cbn. lia.
  - fold before. split; [|split].
    + eexists. split; [reflexivity|]. right. eexists. split; [reflexivity|].
      split; reflexivity.
    + rewrite filter_app_singleton_out.
      * apply filter_idem.
      * unfold mine, assignment_row. cbn. rewrite String.eqb_refl. reflexivity.
    + rewrite filter_app, Hmine. cbn [app filter].
      destruct (mine user _); cbn; lia.
Qed.

Lemma intervieweeQuery_rows env local group notSelf d :
  intervieweeQuery env local group notSelf d
  = flat_map (candidateRows env local notSelf d) (intervieweeSource group d).
Proof. reflexivity. Qed.

Lemma mem_id_In x l : mem_id x l = true <-> In x l.
Proof.
  unfold mem_id. rewrite existsb_exists. split.
  - intros (y & Hy & E). apply String.eqb_eq in E. subst. exact Hy.
  - intros H. exists x. split; [exact H | apply String.eqb_refl].
Qed.

Lemma mem_id_false x l : mem_id x l = false <-> ~ In x l.
Proof.
  rewrite <- mem_id_In. destruct (mem_id x l); split; intros H; congruence.
Qed.

Lemma not_self_true notSelf c : not_self notSelf c = true <-> notSelf <> Some c.
Proof.
  unfold not_self. destruct notSelf as [s|].
  - rewrite negb_true_iff. split.
    + intros E [= ->]. rewrite String.eqb_refl in E. discriminate.
    + intros H. destruct (String.eqb c s) eqn:E; [|reflexivity].
      apply String.eqb_eq in E. subst. contradiction.
  - split; [discriminate | reflexivity].
Qed.

Lemma offset_valid env z :
  existsb (Z.eqb z) (validOffsets env) = true <-> In z (validOffsets env).
Proof.
  rewrite existsb_exists. split.
  - intros (y & Hy & E). apply Z.eqb_eq in E. subst. exact Hy.
  - intros H. exists z. split; [exact H | apply Z.eqb_refl].
Qed.

Lemma candidateRows_In env local notSelf d c y :
  In y (candidateRows env local notSelf d c)
  <-> y = c /\ Callable env local notSelf d c.
Proof.
  unfold candidateRows, Callable. split.
  - intros H.
    apply in_flat_map in H. destruct H as (phone & Hphone & H).
    apply in_flat_map in H. destruct H as (address & Haddress & H).
    apply in_flat_map in H. destruct H as (zip_code & Hzip & H).
    apply filter_In in Hphone. destruct Hphone as [Hphone Ephone].
    apply filter_In in Haddress. destruct Haddress as [Haddress Eaddress].
    apply filter_In in Hzip. destruct Hzip as [Hzip Ezip].
    apply String.eqb_eq in Ephone, Eaddress, Ezip.
    match type of H with
    | In _ (if ?b then _ else _) => destruct b eqn:B
    end; [|destruct H].
    destruct H as [<-|[]].
    repeat (apply andb_true_iff in B; destruct B as [B ?]).
    apply negb_true_iff in B.
    match goal with H : negb _ = true |- _ => apply negb_true_iff in H end.
    split; [reflexivity|].
    split; [apply mem_id_false; assumption|].
    split; [apply mem_id_false; assumption|].
    split; [apply not_self_true; assumption|].
    split.
    + exists phone. auto.
    + exists address, zip_code. repeat split; try assumption.
      apply offset_valid. assumption.
  - intros (-> & Hprev & Hassigned & Hself &
            (phone & Hphone & Ephone & Pphone) &
            (address & zip_code & Haddress & Eaddress & Paddress & Hzip & Ezip & Hoffset)).
    apply in_flat_map. exists phone. split.
    { apply filter_In. split; [exact Hphone | apply String.eqb_eq; exact Ephone]. }
    apply in_flat_map. exists address. split.
    { apply filter_In. split; [exact Haddress | apply String.eqb_eq; exact Eaddress]. }
    apply in_flat_map. exists zip_code. split.
    { apply filter_In. split; [exact Hzip | apply String.eqb_eq; exact Ezip]. }
    apply mem_id_false in Hprev, Hassigned.
    apply not_self_true in Hself. apply offset_valid in Hoffset.
    rewrite Hprev, Hassigned, Hself, Hoffset, Pphone, Paddress. cbn. left; reflexivity.
Qed.

Lemma first_flat_map_some {A B} (f : A -> list B) (l : list A) (b : B) :
  first (flat_map f l) = Some b ->
  exists before a after,
    l = before ++ a :: after /\ In b (f a) /\ forall x, In x before -> f x = [].
Proof.
  induction l as [|a l IH]; cbn; [discriminate|].
  destruct (f a) as [|y ys] eqn:Fa; cbn.
  - intros H. destruct (IH H) as (before & a' & after & -> & Hb & Hbefore).
    exists (a :: before), a', after. repeat split; [exact Hb|].
    intros x [<-|Hx]; [exact Fa | apply Hbefore, Hx].
  - intros [= ->]. exists [], a, l. repeat split.
    + rewrite Fa. left; reflexivity.
    + intros x [].
Qed.

Lemma first_flat_map_none {A B} (f : A -> list B) (l : list A) :
  first (flat_map f l) = None -> forall x, In x l -> f x = [].
Proof.
  induction l as [|a l IH]; cbn; [intros _ x []|].
  destruct (f a) as [|y ys] eqn:Fa; cbn; [|discriminate].
  intros H x [<-|Hx]; [exact Fa | apply IH; assumption].
Qed.

(** The query returns the first person of its source table who is
    callable, and nobody when no one is. *)
Lemma intervieweeQuery_first env local group notSelf d :
  match first (intervieweeQuery env local group notSelf d) with
  | Some c =>
      exists before after,
        intervieweeSource group d = before ++ c :: after
        /\ Callable env local notSelf d c
        /\ forall x, In x before -> ~ Callable env local notSelf d x
  | None =>
      forall x, In x (intervieweeSource group d) -> ~ Callable env local notSelf d x
  end.
Proof.
  rewrite intervieweeQuery_rows.
  destruct (first (flat_map _ _)) as [c|] eqn:E.
  - apply first_flat_map_some in E.
    destruct E as (before & a & after & Hsrc & Hin & Hbefore).
    apply candidateRows_In in Hin. destruct Hin as [-> Hc].
    exists before, after. split; [exact Hsrc | split; [exact Hc |]].
    intros x Hx Cx. specialize (Hbefore x Hx).
    assert (In x (candidateRows env local notSelf d x))
      by (apply candidateRows_In; auto).
    rewrite Hbefore in H. destruct H.
  - intros x Hx Cx.
    pose proof (first_flat_map_none _ _ E x Hx) as N.
    assert (In x (candidateRows env local notSelf d x))
      by (apply candidateRows_In; auto).
    rewrite N in H. destruct H.
Qed.

Lemma fold_left_push {A} (p : A -> bool) (l init : list A) :
  fold_left (fun valid x => if p x then valid ++ [x] else valid) l init
  = init ++ filter p l.
Proof.
  revert init. induction l as [|x l IH]; intros init; cbn.
  - symmetry; apply app_nil_r.
  - rewrite IH. destruct (p x); [|reflexivity].
    rewrite <- app_assoc. reflexivity.
Qed.

Lemma validOffsets_production env :
  NODE_ENV env <> "development" ->
  validOffsets env = filter (fun o => callable_hour (hours_at env o)) allOffsets.
Proof.
  intros H. unfold validOffsets.
  destruct (String.eqb (NODE_ENV env) "development") eqn:E.
  - apply String.eqb_eq in E. contradiction.
  - rewrite fold_left_push. reflexivity.
Qed.

Lemma validOffsets_development env :
  NODE_ENV env = "development" ->
  validOffsets env
  = allOffsets ++ filter (fun o => callable_hour (hours_at env o)) allOffsets.
Proof.
  intros H. unfold validOffsets. rewrite H.
  rewrite String.eqb_refl. apply fold_left_push.
Qed.

Lemma callable_hour_spec h : callable_hour h = true <-> 9 <= h < 21.
Proof. unfold callable_hour. rewrite andb_true_iff, Z.leb_le, Z.ltb_lt. reflexivity. Qed.

Lemma others_not_mine user (l : list AssignedCall.t) row :
  In row (filter (fun r => negb (mine user r)) l) ->
  AssignedCall.caller_id row <> User.id user.
Proof.
  intros H E. apply filter_In in H. destruct H as [_ H].
  unfold mine in H. rewrite E, String.eqb_refl in H. discriminate.
Qed.

(** C5 (amended). Outside development mode, the interviewee that
    [intervieweeForCallAssignment] assigns to the caller has a row of
    [bsd_addresses] flagged primary whose zip code maps, in [zip_codes], to
    a UTC offset among -10..-4 at which the local hour is at least 9 and
    less than 21; a person with several such rows qualifies through any of
    them. The person returned is the one assigned. When no offset
    qualifies the resolver returns [null] and no row is inserted: the table
    holds the other callers' assigned calls and nothing else. *)
Theorem interviewee_callable_hours (env : Env) (user : User.t)
    (callAssignmentId : string) (w : World) :
  NODE_ENV env <> "development" ->
  let r := fst (intervieweeForCallAssignment env user callAssignmentId w) in
  let w' := snd (intervieweeForCallAssignment env user callAssignmentId w) in
  (forall row,
      In row (bsd_assigned_calls (db w')) ->
      AssignedCall.caller_id row = User.id user ->
      exists address zip_code,
        In address (bsd_addresses (db w))
        /\ Address.is_primary address = true
        /\ Address.cons_id address = AssignedCall.interviewee_id row
        /\ In zip_code (zip_codes (db w))
        /\ ZipCode.zip zip_code = Address.zip address
        /\ In (ZipCode.timezone_offset zip_code) allOffsets
        /\ 9 <= hours_at env (ZipCode.timezone_offset zip_code) < 21)
  /\ (forall p,
         r = Ok (Some p) ->
         exists row,
           In row (bsd_assigned_calls (db w'))
           /\ AssignedCall.caller_id row = User.id user
           /\ AssignedCall.interviewee_id row = Person.cons_id p)
  /\ ((forall o, In o allOffsets -> ~ 9 <= hours_at env o < 21) ->
      r = Ok None
      /\ bsd_assigned_calls (db w')
         = filter (fun r => negb (mine user r)) (bsd_assigned_calls (db w))).
Proof.
  intros Hprod r w'.
  destruct (interviewee_outcome env user callAssignmentId w)
    as (r0 & w0 & Hrun & Hcase).
  assert (Hr : r = r0) by (unfold r; rewrite Hrun; reflexivity).
  assert (Hw : w' = w0) by (unfold w'; rewrite Hrun; reflexivity).
  rewrite Hr, Hw. clear Hr Hw r w'.
  destruct Hcase as [(Hdb & Hnone & Hnull)
                    | (group & notSelf & cons_id & Hvalid & Hq & Hdb & Hres)];
    rewrite Hdb; cbn [released db bsd_assigned_calls with_bsd_assigned_calls].
  - split; [|split].
    + intros row Hrow Hcaller. exfalso.
      exact (others_not_mine _ _ _ Hrow Hcaller).
    + intros p Hp. exfalso. exact (Hnone p Hp).
    + intros Hno. split.
      * apply Hnull. rewrite (validOffsets_production env Hprod).
        destruct (filter _ allOffsets) as [|o l] eqn:F; [reflexivity|].
        assert (Ho : In o (filter (fun o => callable_hour (hours_at env o)) allOffsets))
          by (rewrite F; left; reflexivity).
        apply filter_In in Ho. destruct Ho as [Ho Hc].
        apply callable_hour_spec in Hc. exfalso. exact (Hno o Ho Hc).
      * reflexivity.
  - pose proof (intervieweeQuery_first env
                  (localIdOf "CallAssignment" callAssignmentId) group notSelf
                  (db (released user w))) as Hfirst.
    rewrite Hq in Hfirst.
    destruct Hfirst as (before & after & _ & Hcallable & _).
    destruct Hcallable as (_ & _ & _ & _ &
      (address & zip_code & Haddress & Eaddress & Paddress & Hzip & Ezip & Hoffset)).
    rewrite (validOffsets_production env Hprod) in Hoffset.
    apply filter_In in Hoffset. destruct Hoffset as [Hall Hhour].
    apply callable_hour_spec in Hhour.
    split; [|split].
    + intros row Hrow Hcaller.
      apply in_app_or in Hrow. destruct Hrow as [Hrow | [<- | []]].
      * exfalso. exact (others_not_mine _ _ _ Hrow Hcaller).
      * exists address, zip_code. cbn [assignment_row AssignedCall.interviewee_id].
        repeat split; try assumption; apply Hhour.
    + intros p Hp. rewrite Hres in Hp. injection Hp as Hp.
      apply first_filter_some in Hp.
      destruct Hp as (_ & _ & _ & Ep & _). apply String.eqb_eq in Ep.
      eexists. split; [apply in_or_app; right; left; reflexivity|].
      split; [reflexivity | symmetry; exact Ep].
    + intros Hno. exfalso. exact (Hno _ Hall Hhour).
Qed.

(** The run of the resolver once its call assignment and group are found
    and some time zone is callable: one logged query, then at most one
    insert. *)
Lemma interviewee_run (env : Env) (user : User.t) (callAssignmentId : string)
    (w : World) (ca : CallAssignment.t) (group : Group.t) :
  let local := localIdOf "CallAssignment" callAssignmentId in
  let w1 := released user w in
  let notSelf := notSelfOf user (db w) in
  let logged := logs w ++ [LogIntervieweeQuery local (validOffsets env) notSelf] in
  validOffsets env <> [] ->
  first (filter (fun r => String.eqb (CallAssignment.id r) local)
                (bsd_call_assignments (db w))) = Some ca ->
  first (filter (fun r => String.eqb (Group.id r) (CallAssignment.interviewee_group ca))
                (gc_bsd_groups (db w))) = Some group ->
  intervieweeForCallAssignment env user callAssignmentId w
  = match first (intervieweeQuery env local group notSelf (db w1)) with
    | Some c =>
        (Ok (first (filter (fun p => String.eqb (Person.cons_id p) c)
                           (bsd_people (db w)))),
         mkWorld (with_bsd_assigned_calls
                    (bsd_assigned_calls (db w1)
                     ++ [assignment_row env user local c (db w1)]) (db w1))
                 (outbox w) (crm_calls w) logged)
    | None => (Ok None, mkWorld (db w1) (outbox w) (crm_calls w) logged)
    end.
Proof.
  intros local w1 notSelf logged V CA G.
  unfold intervieweeForCallAssignment. fold local.
  unfold bind, update, load_bsdCallAssignments, load_gcBsdGroups, load_bsdPeople,
    query, log_write, deref, ret, throw.
  cbn [db outbox crm_calls logs fst snd bsd_call_assignments gc_bsd_groups
       with_bsd_assigned_calls bsd_emails bsd_people].
  destruct (Nat.eqb (List.length (validOffsets env)) 0) eqn:V0.
  { destruct (validOffsets env); [contradiction | discriminate]. }
  rewrite CA. cbn beta iota.
  cbn [db outbox crm_calls logs fst snd bsd_call_assignments gc_bsd_groups
       with_bsd_assigned_calls bsd_emails bsd_people].
  rewrite G. cbn beta iota.
  cbn [db outbox crm_calls logs fst snd bsd_call_assignments gc_bsd_groups
       with_bsd_assigned_calls bsd_emails bsd_people].
  fold (notSelfOf user (db w)). fold notSelf.
  change (intervieweeQuery env local group notSelf _)
    with (intervieweeQuery env local group notSelf (db w1)).
  destruct (first (intervieweeQuery env local group notSelf (db w1))) as [c|];
    [|reflexivity].
  cbn [db]. 
  match goal with
  | |- context [first (filter ?p (bsd_assigned_calls ?d))] =>
      replace (first (filter p (bsd_assigned_calls d))) with (@None AssignedCall.t)
  end.
  - reflexivity.
  - symmetry. cbn [bsd_assigned_calls with_bsd_assigned_calls].
    match goal with
    | |- first (filter ?p (filter _ ?l)) = None =>
        assert (E : filter p (filter (fun x => negb (mine user x)) l) = [])
          by (apply filter_filter_neg; intros x Hx;
              apply andb_true_iff in Hx; exact (proj1 Hx));
        unfold mine in E; rewrite E; reflexivity
    end.
Qed.

Lemma interviewee_logs (env : Env) (user : User.t) (callAssignmentId : string)
    (w : World) :
  let w' := snd (intervieweeForCallAssignment env user callAssignmentId w) in
  logs w' = logs w
  \/ logs w' = logs w ++ [LogIntervieweeQuery
                            (localIdOf "CallAssignment" callAssignmentId)
                            (validOffsets env) (notSelfOf user (db w))].
Proof.
  unfold intervieweeForCallAssignment.
  unfold bind, update, load_bsdCallAssignments, load_gcBsdGroups, load_bsdPeople,
    query, log_write, deref, ret, throw.
  cbn [db outbox crm_calls logs fst snd bsd_call_assignments gc_bsd_groups
       with_bsd_assigned_calls bsd_emails bsd_people].
  destruct (Nat.eqb (List.length (validOffsets env)) 0); [left; reflexivity|].
  destruct (first (filter _ (bsd_call_assignments (db w)))) as [ca|];
    [|left; reflexivity].
  cbn beta iota.
  cbn [db outbox crm_calls logs fst snd bsd_call_assignments gc_bsd_groups
       with_bsd_assigned_calls bsd_emails bsd_people].
  destruct (first (filter _ (gc_bsd_groups (db w)))) as [group|];
    [|left; reflexivity].
  cbn beta iota.
  cbn [db outbox crm_calls logs fst snd bsd_call_assignments gc_bsd_groups
       with_bsd_assigned_calls bsd_emails bsd_people].
  match goal with
  | |- context [first (intervieweeQuery ?e ?l ?g ?ns ?d)] =>
      destruct (first (intervieweeQuery e l g ns d)) as [c|]
  end; [|right; reflexivity].
  match goal with
  | |- context [first (filter ?p (bsd_assigned_calls ?d))] =>
      destruct (first (filter p (bsd_assigned_calls d)))
  end; right; reflexivity.
Qed.

(** C2 (amended). Interviewee selection is one database query with an
    exclusion list and a time-zone filter; no radius is involved. Given
    that some time zone is callable and that the call assignment and its
    interviewee group exist, the resolver logs and runs exactly one query,
    for a person of the group's source table who is [Callable]: has a
    primary phone and a primary address whose zip code maps to a callable
    UTC offset, is not excluded by an earlier call (completed or not
    interested for this assignment, unusable number anywhere, unavailable
    within the last 24 hours), is not assigned to any caller and is not
    the caller. When somebody is callable, one such person is assigned:
    the caller's released rows apart, the database gains one assigned call
    of the caller to that person for the call assignment, stamped with the
    time of the request, under whatever key the table hands out; the
    resolver returns the person's row of [bsd_people], and [null] if that
    table has none. When nobody is callable the resolver returns [null]
    and assigns nothing. *)
Theorem interviewee_selection_single_query (env : Env) (user : User.t)
    (callAssignmentId : string) (w : World)
    (ca : CallAssignment.t) (group : Group.t) :
  let local := localIdOf "CallAssignment" callAssignmentId in
  let w1 := released user w in
  let notSelf := notSelfOf user (db w) in
  let r := fst (intervieweeForCallAssignment env user callAssignmentId w) in
  let w' := snd (intervieweeForCallAssignment env user callAssignmentId w) in
  validOffsets env <> [] ->
  first (filter (fun r => String.eqb (CallAssignment.id r) local)
                (bsd_call_assignments (db w))) = Some ca ->
  first (filter (fun r => String.eqb (Group.id r) (CallAssignment.interviewee_group ca))
                (gc_bsd_groups (db w))) = Some group ->
  logs w' = logs w ++ [LogIntervieweeQuery local (validOffsets env) notSelf]
  /\ outbox w' = outbox w
  /\ crm_calls w' = crm_calls w
  /\ ((exists c key,
          In c (intervieweeSource group (db w))
          /\ Callable env local notSelf (db w1) c
          /\ db w' = with_bsd_assigned_calls
                       (bsd_assigned_calls (db w1)
                        ++ [AssignedCall.mk key (User.id user) c local (now env) (now env)])
                       (db w1)
          /\ ((exists p, r = Ok (Some p)
                         /\ In p (bsd_people (db w)) /\ Person.cons_id p = c)
              \/ (r = Ok None
                  /\ forall p, In p (bsd_people (db w)) -> Person.cons_id p <> c)))
      \/ ((forall x, In x (intervieweeSource group (db w)) ->
                     ~ Callable env local notSelf (db w1) x)
          /\ db w' = db w1
          /\ r = Ok None)).
Proof.
  intros local w1 notSelf r w' V CA G.
  pose proof (interviewee_run env user callAssignmentId w V CA G) as Hrun.
  fold local w1 notSelf in Hrun.
  pose proof (intervieweeQuery_first env local group notSelf (db w1)) as Hfirst.
  unfold r, w'. rewrite Hrun.
  destruct (first (intervieweeQuery env local group notSelf (db w1))) as [c|].
  - split; [reflexivity|]. split; [reflexivity|]. split; [reflexivity|]. left.
    destruct Hfirst as (before & after & Hsrc & Hc & _).
    exists c, (next_id (map AssignedCall.id (bsd_assigned_calls (db w1)))).
    assert (Hin : In c (intervieweeSource group (db w1)))
      by (rewrite Hsrc; apply in_or_app; right; left; reflexivity).
    split; [exact Hin|].
    split; [exact Hc|]. split; [reflexivity|].
    cbn [fst].
    destruct (first (filter (fun p => String.eqb (Person.cons_id p) c)
                            (bsd_people (db w)))) as [p|] eqn:P.
    + left. exists p. split; [reflexivity|].
      apply first_filter_some in P.
      destruct P as (pre & post & Hrows & Ep & _).
      split; [rewrite Hrows; apply in_or_app; right; left; reflexivity|].
      apply String.eqb_eq. exact Ep.
    + right. split; [reflexivity|].
      intros p Hp E. pose proof (@first_filter_none _ _ _ P p Hp) as F.
      cbv beta in F. rewrite E, String.eqb_refl in F. discriminate F.
  - split; [reflexivity|]. split; [reflexivity|]. split; [reflexivity|]. right.
    split; [exact Hfirst | split; reflexivity].
Qed.

(** ** The radius search *)

Lemma radius_next i :
  (i < 22)%nat ->
  radius_at i + backoff_at i = radius_at (S i)
  /\ (if radius_at (S i) =? 15000 then 5000 else backoff_at i) = backoff_at (S i)
  /\ radius_at i <= 50000.
Proof.
  intros H.
  do 22 (destruct i as [|i]; [repeat split; discriminate|]).
  lia.
Qed.

Lemma radius_done : radius_at 22 > 50000.
Proof. reflexivity. Qed.

Lemma radiusSchedule_radius_at : radiusSchedule = map radius_at (seq 0 22).
Proof. reflexivity. Qed.

Lemma nearbySearch_loop (center : Geom) (n : nat) :
  forall (i : nat) (found : list NearbyRow) (w : World) (fuel : nat),
    (i + n = 22)%nat -> (n < fuel)%nat ->
    exists steps final,
      nearbyPeople_loop fuel center 50000 (radius_at i) (backoff_at i) found w
      = (Ok (Some final),
         mkWorld (db w) (outbox w) (crm_calls w)
                 (logs w ++ map (step_log center) steps))
      /\ NearbySearch center (db w) i found steps final.
Proof.
  induction n as [|n IH]; intros i found w fuel Hi Hfuel.
  - (* the schedule is used up *)
    destruct fuel as [|fuel]; [lia|].
    assert (i = 22%nat) by lia. subst i.
    exists [], found. cbn [nearbyPeople_loop].
    replace (radius_at 22 <=? 50000) with false by reflexivity.
    rewrite andb_false_r. cbn [map]. rewrite app_nil_r.
    split; [destruct w; reflexivity|].
    apply search_stop. right; reflexivity.
  - destruct fuel as [|fuel]; [lia|].
    cbn [nearbyPeople_loop].
    destruct (@radius_next i) as (Hr & Hb & Hmax); [lia|].
    destruct (Nat.ltb (List.length found) 500) eqn:L.
    + apply Nat.ltb_lt in L.
      replace (radius_at i <=? 50000) with true by (symmetry; apply Z.leb_le; exact Hmax).
      cbn [andb].
      unfold bind at 1. unfold log_write at 1.
      unfold bind at 1. unfold query at 1.
      cbn [db]. rewrite Hr, Hb.
      destruct (IH (S i)
                   (found ++ nearbyQuery center (radius_at i) (map row_cons_id found) (db w))
                   (mkWorld (db w) (outbox w) (crm_calls w)
                            (logs w ++ [LogNearbyQuery center (radius_at i)
                                          (map row_cons_id found)]))
                   fuel) as (steps & final & Hrun & Hsearch); [lia | lia |].
      exists ((radius_at i, map row_cons_id found) :: steps), final.
      split.
      * rewrite Hrun. cbn [db outbox crm_calls logs map step_log fst snd].
        rewrite <- app_assoc. reflexivity.
      * apply search_step; [exact L | lia | exact Hsearch].
    + apply Nat.ltb_ge in L. cbn [andb].
      exists [], found. cbn [map]. rewrite app_nil_r.
      split; [destruct w; reflexivity|].
      apply search_stop. left; exact L.
Qed.

Lemma jsval_eqb_refl : forall v, jsval_eqb v v = true.
Proof.
  fix IH 1. intros [ | | b | n | s | ms | g | fields]; cbn.
  - reflexivity.
  - reflexivity.
  - destruct b; reflexivity.
  - apply Z.eqb_refl.
  - apply String.eqb_refl.
  - apply Z.eqb_refl.
  - unfold Geom_eqb. rewrite !Z.eqb_refl. reflexivity.
  - induction fields as [|[k v] fields IHf]; [reflexivity|].
    rewrite String.eqb_refl, IH, IHf. reflexivity.
Qed.

Lemma NearbyRow_eqb_refl r : NearbyRow_eqb r r = true.
Proof.
  unfold NearbyRow_eqb, Person_eqb.
  rewrite !String.eqb_refl, jsval_eqb_refl. reflexivity.
Qed.

Lemma In_firstn {A} n (l : list A) x : In x (firstn n l) -> In x l.
Proof.
  intros H. rewrite <- (firstn_skipn n l). apply in_or_app. left; exact H.
Qed.

Lemma NoDup_firstn {A} n (l : list A) : NoDup l -> NoDup (firstn n l).
Proof.
  intros H. rewrite <- (firstn_skipn n l) in H.
  exact (NoDup_app_remove_r _ _ H).
Qed.

Lemma In_distinct rows r : In r (distinct rows) -> In r rows.
Proof.
  induction rows as [|x rows IH]; cbn; [intros []|].
  intros [<-|H]; [left; reflexivity|].
  apply filter_In in H. right. apply IH, H.
Qed.

Lemma NoDup_distinct rows : NoDup (distinct rows).
Proof.
  induction rows as [|x rows IH]; cbn; constructor.
  - intros H. apply filter_In in H. destruct H as [_ H].
    rewrite NearbyRow_eqb_refl in H. discriminate.
  - apply NoDup_filter, IH.
Qed.

Lemma nearbyQuery_join center radius ex d :
  nearbyQuery center radius ex d = firstn 500 (distinct (nearbyJoin center radius ex d)).
Proof. reflexivity. Qed.

(** What a row of the join is made of. *)
Lemma nearbyJoin_In center radius ex d (row : NearbyRow) :
  In row (nearbyJoin center radius ex d) ->
  exists address email,
    In address (bsd_addresses d) /\ In (snd row) (bsd_people d)
    /\ In email (bsd_emails d)
    /\ Address.cons_id address = row_cons_id row
    /\ Address.is_primary address = true
    /\ st_dwithin (Address.geom address) center radius = true
    /\ Email.cons_id email = row_cons_id row
    /\ Email.is_primary email = true
    /\ fst row = Email.email email
    /\ ~ In (row_cons_id row) ex.
Proof.
  unfold nearbyJoin. intros H.
  apply in_flat_map in H. destruct H as (address & Haddress & H).
  apply in_flat_map in H. destruct H as (person & Hperson & H).
  apply in_flat_map in H. destruct H as (email & Hemail & H).
  apply in_flat_map in H. destruct H as (communication & _ & H).
  apply in_flat_map in H. destruct H as (subscription & _ & H).
  apply filter_In in Hperson. destruct Hperson as [Hperson Eperson].
  apply filter_In in Hemail. destruct Hemail as [Hemail Eemail].
  apply String.eqb_eq in Eperson, Eemail.
  match type of H with
  | In _ (if ?b then _ else _) => destruct b eqn:B
  end; [|destruct H].
  destruct H as [<-|[]].
  repeat (apply andb_true_iff in B; destruct B as [B ?]).
  match goal with H : negb (mem_id _ _) = true |- _ =>
    apply negb_true_iff, mem_id_false in H end.
  exists address, email. unfold row_cons_id. cbn [fst snd].
  repeat split; try assumption; congruence.
Qed.

Lemma nearbyQuery_In center radius ex d row :
  In row (nearbyQuery center radius ex d) -> In row (nearbyJoin center radius ex d).
Proof.
  rewrite nearbyQuery_join. intros H. apply In_distinct, (In_firstn _ _ _ H).
Qed.

(** A query never returns a person it was told to exclude. *)
Lemma nearbyQuery_excludes center radius ex d row :
  In row (nearbyQuery center radius ex d) -> ~ In (row_cons_id row) ex.
Proof.
  intros H. apply nearbyQuery_In, nearbyJoin_In in H.
  destruct H as (? & ? & H). apply H.
Qed.

(** Under the data model's invariants the people of one query are
    distinct. *)
Lemma nearbyQuery_distinct_people center radius ex d :
  people_key d -> primary_email_unique d ->
  NoDup (map row_cons_id (nearbyQuery center radius ex d)).
Proof.
  intros Hkey Hemail.
  apply NoDup_map_NoDup_ForallPairs.
  - intros r1 r2 H1 H2 E.
    apply nearbyQuery_In, nearbyJoin_In in H1, H2.
    destruct H1 as (a1 & e1 & _ & Hp1 & He1 & _ & _ & _ & Ec1 & Pe1 & F1 & _).
    destruct H2 as (a2 & e2 & _ & Hp2 & He2 & _ & _ & _ & Ec2 & Pe2 & F2 & _).
    destruct r1 as [m1 p1], r2 as [m2 p2]. unfold row_cons_id in *. cbn [fst snd] in *.
    f_equal.
    + rewrite F1, F2. apply Hemail; try assumption. congruence.
    + apply Hkey; assumption.
  - rewrite nearbyQuery_join. apply NoDup_firstn, NoDup_distinct.
Qed.

Lemma search_radii center d i found steps final :
  NearbySearch center d i found steps final ->
  (i <= 22)%nat ->
  map fst steps = map radius_at (seq i (List.length steps))
  /\ (i + List.length steps <= 22)%nat.
Proof.
  induction 1 as [i found Hstop | i found steps final Hlen Hi Hrun IH];
    intros Hle; cbn [map fst List.length seq].
  - split; [reflexivity | lia].
  - destruct IH as [IHr IHl]; [lia|].
    split; [rewrite IHr; reflexivity | lia].
Qed.

(** The loop stops on 500 rows or at the end of the schedule, not
    before. *)
Lemma search_exit center d i found steps final :
  NearbySearch center d i found steps final ->
  (500 <= List.length final)%nat \/ (i + List.length steps = 22)%nat.
Proof.
  induction 1 as [i found Hstop | i found steps final Hlen Hi Hrun IH];
    cbn [List.length].
  - destruct Hstop; [left | right]; lia.
  - destruct IH; [left | right]; lia.
Qed.

(** Every query was issued with fewer than 500 rows found and a radius
    within the maximum. *)
Lemma search_guard center d i found steps final :
  NearbySearch center d i found steps final ->
  Forall (fun s : Step => (List.length (snd s) < 500)%nat /\ fst s <= 50000) steps.
Proof.
  induction 1 as [i found Hstop | i found steps final Hlen Hi Hrun IH];
    constructor; [|exact IH].
  cbn [fst snd]. rewrite length_map. split; [exact Hlen|].
  apply (@radius_next i Hi).
Qed.

(** The rows returned are those of the queries, in order, and each query
    excluded exactly the people of the rows found before it. *)
Lemma search_accumulates center d i found steps final :
  NearbySearch center d i found steps final ->
  final = found ++ flat_map (fun s : Step => nearbyQuery center (fst s) (snd s) d) steps
  /\ forall pre s post,
       steps = pre ++ s :: post ->
       snd s = map row_cons_id
                 (found ++ flat_map (fun s : Step => nearbyQuery center (fst s) (snd s) d)
                                    pre).
Proof.
  induction 1 as [i found Hstop | i found steps final Hlen Hi Hrun [IHf IHs]].
  - split; [cbn; symmetry; apply app_nil_r|].
    intros pre s post E. destruct pre; discriminate.
  - split.
    + rewrite IHf. cbn [flat_map fst snd]. rewrite <- app_assoc. reflexivity.
    + intros pre s post E. destruct pre as [|s0 pre]; cbn in E.
      * injection E as <- _. cbn. rewrite app_nil_r. reflexivity.
      * injection E as <- E. rewrite (IHs _ _ _ E).
        cbn [flat_map fst snd]. rewrite <- app_assoc. reflexivity.
Qed.

Lemma search_distinct_people center d i found steps final :
  people_key d -> primary_email_unique d ->
  NearbySearch center d i found steps final ->
  NoDup (map row_cons_id found) ->
  NoDup (map row_cons_id final).
Proof.
  intros Hkey Hemail.
  induction 1 as [i found Hstop | i found steps final Hlen Hi Hrun IH];
    intros Hfound; [exact Hfound|].
  apply IH. rewrite map_app. apply NoDup_app.
  - exact Hfound.
  - apply nearbyQuery_distinct_people; assumption.
  - intros c Hc Hc'. apply in_map_iff in Hc'. destruct Hc' as (row & <- & Hrow).
    exact (nearbyQuery_excludes _ _ _ _ _ Hrow Hc).
Qed.

Lemma firstn_seq_le n : forall start len,
  (n <= len)%nat -> firstn n (seq start len) = seq start n.
Proof.
  induction n as [|n IH]; intros start len H; [reflexivity|].
  destruct len as [|len]; [lia|]. cbn. f_equal. apply IH. lia.
Qed.

(** C4 (amended). The radius search of [nearbyPeople] terminates (23 units of fuel
    are enough for any database) and returns at most 500 rows. Its queries
    run at the radii 1000, 2000, ..., 15000, 20000, ..., 50000 in this
    order: the radius starts at 1000 and grows by 1000 per turn until it
    reaches 15000 and by 5000 per turn afterwards. A query is issued only
    while fewer than 500 rows are found and the radius is at most 50000,
    and the loop stops as soon as 500 rows are found or the radius exceeds
    50000. Each query excludes the people of all rows found before it and
    returns none of them; with [cons_id] the key of [bsd_people] and at
    most one primary e-mail per person, the rows found are distinct
    people. *)
Theorem nearbyPeople_radius_search (fuel : nat) (event : obj) (center : Geom)
    (w : World) :
  prop event "geom" = JGeom center ->
  (23 <= fuel)%nat ->
  let rows (s : Step) := nearbyQuery center (fst s) (snd s) (db w) in
  exists (steps : list Step) (found : list NearbyRow),
    nearbyPeople fuel event w
    = (Ok (Some (firstn 500 found)),
       mkWorld (db w) (outbox w) (crm_calls w) (logs w ++ map (step_log center) steps))
    /\ (List.length (firstn 500 found) <= 500)%nat
    /\ map fst steps = firstn (List.length steps) radiusSchedule
    /\ (radius_at 0 = 1000
        /\ forall i, (i < 21)%nat ->
             radius_at (S i) = radius_at i + (if Nat.ltb i 14 then 1000 else 5000))
    /\ Forall (fun s : Step => (List.length (snd s) < 500)%nat /\ fst s <= 50000) steps
    /\ ((500 <= List.length found)%nat \/ List.length steps = 22%nat)
    /\ found = flat_map rows steps
    /\ (forall pre s post,
           steps = pre ++ s :: post -> snd s = map row_cons_id (flat_map rows pre))
    /\ (forall s row, In s steps -> In row (rows s) -> ~ In (row_cons_id row) (snd s))
    /\ (people_key (db w) -> primary_email_unique (db w) ->
        NoDup (map row_cons_id found)).
Proof.
  intros Hgeom Hfuel rows.
  destruct (@nearbySearch_loop center 22 0 [] w fuel) as (steps & found & Hrun & Hsearch);
    [reflexivity | lia |].
  exists steps, found.
  destruct (search_radii Hsearch) as [Hradii Hcount]; [lia|].
  destruct (search_accumulates Hsearch) as [Hfound Hexcluded].
  split.
  { unfold nearbyPeople. rewrite Hgeom.
    change (radius_at 0) with 1000 in Hrun. change (backoff_at 0) with 1000 in Hrun.
    rewrite (bind_ok _ _ _ Hrun). reflexivity. }
  split; [apply firstn_le_length|].
  split.
  { rewrite Hradii, radiusSchedule_radius_at, firstn_map, firstn_seq_le by lia.
    reflexivity. }
  split.
  { split; [reflexivity|]. intros i Hi.
    destruct (@radius_next i) as (Hr & _ & _); [lia|]. rewrite <- Hr. reflexivity. }
  split; [exact (search_guard Hsearch)|].
  split; [destruct (search_exit Hsearch); [left | right]; lia|].
  split; [exact Hfound|].
  split; [exact Hexcluded|].
  split.
  { intros s row _ Hrow. exact (nearbyQuery_excludes _ _ _ _ _ Hrow). }
  intros Hkey Hemail.
  apply (search_distinct_people Hkey Hemail Hsearch). constructor.
Qed.

(** ** SubmitCallSurvey *)

Lemma bind_inv_pres {A B} (c : M A) (k : A -> M B) w b w'' :
  db_preserving c ->
  bind c k w = (Ok b, w'') ->
  exists a w', db w' = db w /\ c w = (Ok a, w') /\ k a w' = (Ok b, w'').
Proof.
  intros P H. apply bind_inv_ok in H. destruct H as (a & w' & Hc & Hk).
  exists a, w'. split; [|split; assumption].
  specialize (P w). rewrite Hc in P. exact P.
Qed.

Lemma transaction_throw {A} (body : M A) w e w' :
  transaction body w = (Throw e, w') -> db w' = db w.
Proof.
  unfold transaction. destruct (body w) as [[a|e0] w0]; intros [= <- <-]; reflexivity.
Qed.

Lemma transaction_ok {A} (body : M A) w a w' :
  transaction body w = (Ok a, w') -> body w = (Ok a, w').
Proof.
  unfold transaction. destruct (body w) as [[a0|e0] w0]; intros [= <- <-]; reflexivity.
Qed.

Lemma transaction_failed {A} (body : M A) w e :
  body w = (Throw e, w) -> transaction body w = (Throw e, w).
Proof. unfold transaction. intros ->. destruct w; reflexivity. Qed.

Lemma pres_surveyFieldId survey field : db_preserving (surveyFieldId survey field).
Proof. unfold surveyFieldId. pres. Qed.

Lemma pres_bsdFormValuesOf survey fieldValues fields :
  forall acc, db_preserving (bsdFormValuesOf survey fieldValues fields acc).
Proof.
  induction fields as [|field fields IH]; intros acc; cbn [bsdFormValuesOf].
  - apply pres_ret.
  - apply pres_bind; [apply pres_surveyFieldId | intros; apply IH].
Qed.

Lemma pres_runProcessor env survey person email local processor fieldValues :
  db_preserving (runProcessor env survey person email local processor fieldValues).
Proof. unfold runProcessor. pres. apply pres_bsdFormValuesOf. Qed.

Lemma pres_runProcessors env survey person email local processors :
  forall fieldValues,
    db_preserving (runProcessors env survey person email local processors fieldValues).
Proof.
  induction processors as [|p ps IH]; intros fieldValues; cbn [runProcessors].
  - apply pres_ret.
  - apply pres_bind; [apply pres_runProcessor | intros; apply IH].
Qed.

#[local] Hint Resolve pres_runProcessors pres_surveyFieldId : pres.

Ltac step H :=
  apply bind_inv_pres in H; [|solve [pres]];
  let a := fresh "a" in
  let w := fresh "w" in
  let D := fresh "D" in
  let C := fresh "C" in
  destruct H as (a & w & D & C & H).

(** The comparison of [assignedCallInfo] with [submittedCallInfo]: the
    first key that differs throws. *)
Lemma for_each_check (pairs : list ((string * ident) * (string * ident)))
    (e : exn) (w : World) :
  for_each pairs
    (fun kv => if negb (String.eqb (snd (fst kv)) (snd (snd kv)))
               then throw e else ret tt) w
  = if forallb (fun kv : (string * ident) * (string * ident) =>
                  String.eqb (snd (fst kv)) (snd (snd kv))) pairs
    then (Ok tt, w) else (Throw e, w).
Proof.
  induction pairs as [|kv pairs IH]; cbn [for_each forallb]; [reflexivity|].
  unfold bind at 1.
  destruct (String.eqb (snd (fst kv)) (snd (snd kv))); cbn [negb andb].
  - exact IH.
  - reflexivity.
Qed.

Lemma submitCallSurvey_success (env : Env) (input : SubmitCallSurveyInput.t)
    (caller : User.t) (w : World) (r : User.t) (w' : World) :
  submitCallSurvey env input (mkSession (Some caller)) w = (Ok r, w') ->
  exists ac,
    assignedCallOf caller
      (localIdOf "CallAssignment" (SubmitCallSurveyInput.callAssignmentId input))
      (db w) = Some ac
    /\ AssignedCall.interviewee_id ac
       = id (fromGlobalId (SubmitCallSurveyInput.intervieweeId input))
    /\ r = caller
    /\ db w' = submitted env input caller ac (db w).
Proof.
  intros H. unfold submitCallSurvey in H.
  rewrite (bind_ok _ _ _ (@authRequired_logged_in (mkSession (Some caller)) caller w eq_refl)) in H.
  rewrite (bind_ok _ _ _ (eq_refl : session_user (mkSession (Some caller)) w = (Ok caller, w))) in H.
  apply transaction_ok in H.
  apply bind_inv_ok in H. destruct H as (assigned & w0 & Hq & H).
  injection Hq as <- <-.
  destruct (first (filter _ (bsd_assigned_calls (db w)))) as [ac|] eqn:A;
    [|discriminate].
  exists ac. split; [exact A|].
  unfold bind at 1 in H. rewrite for_each_check in H.
  cbn [combine forallb fst snd] in H.
  destruct (String.eqb (AssignedCall.interviewee_id ac) _) eqn:I.
  2: { rewrite andb_false_r in H. cbn [andb] in H. discriminate. }
  apply String.eqb_eq in I. split; [exact I|].
  match type of H with
  | (let (_, _) := if ?b then _ else _ in _) = _ => destruct b; [|discriminate]
  end.
  do 11 (step H).
  unfold bind, update, insertAndFetch_bsd_calls, query, ret in H.
  cbn [db] in H. injection H as <- <-.
  split; [reflexivity|]. cbn [db]. unfold submitted, submittedCall.
  congruence.
Qed.

(** C1 (amended). [submitCallSurvey] runs its workflow in one
    transaction and is atomic on error: whenever it throws, the database
    is the one it started from. For a logged-in caller it throws an
    [Error], with nothing changed, when the caller has no
    [bsd_assigned_calls] row for the given call assignment, and when the
    assigned call's caller, interviewee or call assignment differs from
    the submitted one. When the mutation returns, it returns the caller,
    the checks have passed, exactly one [bsd_calls] row (the submitted
    call) has been appended and the rows of [bsd_assigned_calls] with the
    assigned call's id are gone; nothing else in the database changed. *)
Theorem submitCallSurvey_transaction (env : Env) (input : SubmitCallSurveyInput.t)
    (session : Session) (w : World) :
  let run := submitCallSurvey env input session w in
  let local := localIdOf "CallAssignment" (SubmitCallSurveyInput.callAssignmentId input) in
  let interviewee := id (fromGlobalId (SubmitCallSurveyInput.intervieweeId input)) in
  (forall e, fst run = Throw e -> db (snd run) = db w)
  /\ forall caller, user session = Some caller ->
       (assignedCallOf caller local (db w) = None ->
        exists msg, run = (Throw (Error msg), w))
       /\ (forall ac,
              assignedCallOf caller local (db w) = Some ac ->
              AssignedCall.caller_id ac <> User.id caller
              \/ AssignedCall.interviewee_id ac <> interviewee
              \/ AssignedCall.call_assignment_id ac <> local ->
              exists msg, run = (Throw (Error msg), w))
       /\ (forall r,
              fst run = Ok r ->
              exists ac,
                assignedCallOf caller local (db w) = Some ac
                /\ AssignedCall.interviewee_id ac = interviewee
                /\ r = caller
                /\ db (snd run) = submitted env input caller ac (db w)
                /\ bsd_calls (db (snd run))
                   = bsd_calls (db w)
                     ++ [submittedCall env input caller ac
                           (next_id (map Call.id (bsd_calls (db w))))]
                /\ bsd_assigned_calls (db (snd run))
                   = filter (fun r => negb (AssignedCall.id r =? AssignedCall.id ac))
                            (bsd_assigned_calls (db w))
                /\ ~ In ac (bsd_assigned_calls (db (snd run)))).
Proof.
  intros run local interviewee. split.
  - (* atomic on error *)
    intros e. unfold run, submitCallSurvey.
    destruct session as [[caller|]].
    + rewrite (bind_ok _ _ _ (@authRequired_logged_in (mkSession (Some caller)) caller w eq_refl)).
      rewrite (bind_ok _ _ _ (eq_refl : session_user (mkSession (Some caller)) w = (Ok caller, w))).
      match goal with
      | |- fst (transaction ?b w) = _ -> _ =>
          destruct (transaction b w) as [[a|e0] w'] eqn:T; cbn [fst snd];
          [discriminate | intros _; exact (transaction_throw _ _ T)]
      end.
    + intros _. reflexivity.
  - intros caller Hcaller.
    destruct session as [u]. cbn [user] in Hcaller. subst u.
    assert (Hrun : run = submitCallSurvey env input (mkSession (Some caller)) w)
      by reflexivity.
    unfold submitCallSurvey in Hrun.
    rewrite (bind_ok _ _ _ (@authRequired_logged_in (mkSession (Some caller)) caller w eq_refl)) in Hrun.
    rewrite (bind_ok _ _ _ (eq_refl : session_user (mkSession (Some caller)) w = (Ok caller, w))) in Hrun.
    fold local interviewee in Hrun.
    split; [|split].
    + intros A. unfold assignedCallOf in A. eexists.
      rewrite Hrun. apply transaction_failed.
      unfold bind at 1. unfold query at 1. rewrite A. reflexivity.
    + intros ac A Hdiff. unfold assignedCallOf in A. eexists.
      rewrite Hrun. apply transaction_failed.
      unfold bind at 1. unfold query at 1. rewrite A.
      unfold bind at 1. rewrite for_each_check.
      cbn [combine forallb fst snd].
      match goal with
      | |- (let (_, _) := if ?b then _ else _ in _) = _ =>
          replace b with false; [reflexivity|]
      end.
      symmetry. apply andb_false_iff.
      destruct Hdiff as [H | [H | H]].
      * left. apply String.eqb_neq. exact H.
      * right. apply andb_false_iff. left. apply String.eqb_neq. exact H.
      * right. apply andb_false_iff. right.
        apply andb_false_iff. left. apply String.eqb_neq. exact H.
    + intros r Hok.
      destruct run as [res w'] eqn:R. cbn [fst snd] in *. subst res.
      destruct (submitCallSurvey_success env input caller w R)
        as (ac & A & I & -> & Hdb).
      exists ac. rewrite Hdb.
      split; [exact A|]. split; [exact I|]. split; [reflexivity|].
      split; [reflexivity|]. split; [reflexivity|]. split; [reflexivity|].
      cbn [submitted bsd_assigned_calls with_bsd_calls with_bsd_assigned_calls].
      intros Hin. apply filter_In in Hin. destruct Hin as [_ Hin].
      rewrite Z.eqb_refl in Hin. discriminate.
Qed.

(** ** CRM failures *)

(** Whatever the CRM answers, [noFailApiRequest] returns normally, having
    made the request. *)
Lemma noFailApiRequest_run env method args w :
  BSDClient_noFailApiRequest env method args w
  = (Ok tt, mkWorld (db w) (outbox w) (crm_calls w ++ [ApiRequest method args]) (logs w)).
Proof.
  unfold BSDClient_noFailApiRequest, try_catch, bind, BSDClient_request.
  destruct (bsd env (ApiRequest method args)); reflexivity.
Qed.

Lemma bind_ext {A B} (c c' : M A) (k k' : A -> M B) w :
  c w = c' w -> (forall a w', k a w' = k' a w') -> bind c k w = bind c' k' w.
Proof.
  intros Hc Hk. unfold bind. rewrite Hc.
  destruct (c' w) as [[a|e] w']; [apply Hk | reflexivity].
Qed.

Lemma transaction_ext {A} (body body' : M A) w :
  body w = body' w -> transaction body w = transaction body' w.
Proof. unfold transaction. intros ->. reflexivity. Qed.

Lemma runProcessor_crm crm crm' env survey person email local processor fieldValues w :
  runProcessor (with_bsd crm env) survey person email local processor fieldValues w
  = runProcessor (with_bsd crm' env) survey person email local processor fieldValues w.
Proof.
  unfold runProcessor.
  destruct (String.eqb processor "bsd-event-rsvper").
  - destruct (truthy (prop fieldValues "event_id")); [|reflexivity].
    repeat (apply bind_ext; [reflexivity | intros]).
    apply bind_ext; [|reflexivity].
    rewrite !noFailApiRequest_run. reflexivity.
  - destruct (String.eqb processor "bsd-form-submitter"); [|reflexivity].
    destruct (truthy_str email); [|reflexivity].
    apply bind_ext; [reflexivity | intros].
    apply bind_ext; [|reflexivity].
    rewrite !noFailApiRequest_run. reflexivity.
Qed.

Lemma runProcessors_crm crm crm' env survey person email local processors :
  forall fieldValues w,
    runProcessors (with_bsd crm env) survey person email local processors fieldValues w
    = runProcessors (with_bsd crm' env) survey person email local processors fieldValues w.
Proof.
  induction processors as [|p ps IH]; intros fieldValues w; cbn [runProcessors].
  - reflexivity.
  - apply bind_ext; [apply runProcessor_crm | intros; apply IH].
Qed.

(** The mutation does not depend on what the CRM answers. *)
Lemma submitCallSurvey_crm crm crm' env input session w :
  submitCallSurvey (with_bsd crm env) input session w
  = submitCallSurvey (with_bsd crm' env) input session w.
Proof.
  unfold submitCallSurvey.
  apply bind_ext; [reflexivity | intros].
  apply bind_ext; [reflexivity | intros].
  apply transaction_ext.
  apply bind_ext; [reflexivity | intros assignedCall w1].
  destruct assignedCall as [ac|]; [|reflexivity].
  do 11 (apply bind_ext; [reflexivity | intros]).
  apply bind_ext; [|intros; reflexivity].
  match goal with
  | |- (if ?b then _ else _) _ = _ => destruct b; [|reflexivity]
  end.
  apply runProcessors_crm.
Qed.

(** C6. CRM failures during survey processing do not propagate: the
    bsd-event-rsvper and bsd-form-submitter processors reach the CRM
    through [noFailApiRequest] only, which returns normally whatever the
    CRM answers. So a submission ends the same way with the CRM down as
    with any other CRM behaviour, and a submission with [completed] set
    that goes through with some CRM goes through with the CRM down as
    well: the assigned call is deleted and the [bsd_calls] record, marked
    completed, is inserted. *)
Theorem submitCallSurvey_ignores_crm_failures (env : Env)
    (crm : CrmCall -> Result jsval) (input : SubmitCallSurveyInput.t)
    (caller : User.t) (w : World) :
  let session := mkSession (Some caller) in
  let down := submitCallSurvey (with_bsd crm_down env) input session w in
  (forall method args w0,
      BSDClient_noFailApiRequest (with_bsd crm_down env) method args w0
      = (Ok tt, mkWorld (db w0) (outbox w0) (crm_calls w0 ++ [ApiRequest method args])
                        (logs w0)))
  /\ down = submitCallSurvey (with_bsd crm env) input session w
  /\ (SubmitCallSurveyInput.completed input = true ->
      forall r, fst (submitCallSurvey (with_bsd crm env) input session w) = Ok r ->
      exists ac call,
        fst down = Ok caller
        /\ assignedCallOf caller
             (localIdOf "CallAssignment" (SubmitCallSurveyInput.callAssignmentId input))
             (db w) = Some ac
        /\ bsd_assigned_calls (db (snd down))
           = filter (fun r => negb (AssignedCall.id r =? AssignedCall.id ac))
                    (bsd_assigned_calls (db w))
        /\ bsd_calls (db (snd down)) = bsd_calls (db w) ++ [call]
        /\ Call.completed call = true
        /\ Call.caller_id call = User.id caller
        /\ Call.interviewee_id call = AssignedCall.interviewee_id ac
        /\ Call.call_assignment_id call = AssignedCall.call_assignment_id ac).
Proof.
  intros session down.
  split; [intros; apply noFailApiRequest_run|].
  assert (E : down = submitCallSurvey (with_bsd crm env) input session w)
    by apply submitCallSurvey_crm.
  split; [exact E|].
  intros Hcompleted r Hok. rewrite <- E in Hok.
  destruct down as [res w'] eqn:R. cbn [fst snd] in *. subst res.
  destruct (submitCallSurvey_success (with_bsd crm_down env) input caller w R)
    as (ac & A & I & -> & Hdb).
  exists ac. eexists. rewrite Hdb.
  split; [reflexivity|]. split; [exact A|]. split; [reflexivity|].
  split; [reflexivity|].
  cbn [submittedCall Call.completed Call.caller_id Call.interviewee_id
       Call.call_assignment_id].
  repeat split. exact Hcompleted.
Qed.

(** ** The callable window *)

Lemma hours_at_utc_hour env o : hours_at env o = (utc_hour env + o) mod 24.
Proof. unfold hours_at, utc_hour. rewrite Zplus_mod_idemp_l. reflexivity. Qed.

Lemma callable_offsets_by_hour env :
  filter (fun o => callable_hour (hours_at env o)) allOffsets
  = filter (fun o => callable_hour ((utc_hour env + o) mod 24)) allOffsets.
Proof. apply filter_ext. intros o. rewrite hours_at_utc_hour. reflexivity. Qed.

(** X1. Outside development mode no time zone is callable exactly when the
    UTC hour is between 7 and 12: it is then 9pm or later at offset -10 and
    not yet 9am at offset -4. During those six hours
    [intervieweeForCallAssignment] hands out nobody: whoever asks, for
    whatever call assignment, known or not, the resolver returns [null],
    and all it does is release the assigned calls the caller held. *)
Theorem validOffsets_night_window (env : Env) :
  NODE_ENV env <> "development" ->
  (validOffsets env = [] <-> 7 <= utc_hour env <= 12)
  /\ (7 <= utc_hour env <= 12 ->
      forall user callAssignmentId w,
        intervieweeForCallAssignment env user callAssignmentId w
        = (Ok None, released user w)).
Proof.
  intros Hprod.
  assert (W : validOffsets env = [] <-> 7 <= utc_hour env <= 12);
    [|split; [exact W|];
      intros Hnight user callAssignmentId w;
      apply W in Hnight;
      unfold intervieweeForCallAssignment, bind, update, load_bsdCallAssignments, query;
      rewrite Hnight; reflexivity].
  rewrite (validOffsets_production env Hprod), callable_offsets_by_hour.
  assert (B : 0 <= utc_hour env < 24) by (apply Z.mod_pos_bound; lia).
  generalize dependent (utc_hour env). intros h B.
  assert (C : h = 0 \/ h = 1 \/ h = 2 \/ h = 3 \/ h = 4 \/ h = 5 \/ h = 6 \/ h = 7
              \/ h = 8 \/ h = 9 \/ h = 10 \/ h = 11 \/ h = 12 \/ h = 13 \/ h = 14
              \/ h = 15 \/ h = 16 \/ h = 17 \/ h = 18 \/ h = 19 \/ h = 20 \/ h = 21
              \/ h = 22 \/ h = 23) by lia.
  repeat (destruct C as [C|C]); subst h;
    match goal with
    | |- ?l = [] <-> _ =>
        let l' := eval vm_compute in l in change l with l'
    end;
    (split; intros H; first [reflexivity | discriminate H | lia]).
Qed.

Lemma existsb_filter_le {A} (f p : A -> bool) (l : list A) :
  existsb f (filter p l) = true -> existsb f l = true.
Proof.
  intros H. apply existsb_exists in H. destruct H as (x & Hx & Fx).
  apply filter_In in Hx. apply existsb_exists. exists x. split; [apply Hx | exact Fx].
Qed.

(** X2. In development mode the window is never closed: whatever the hour,
    the time-zone filter of the query accepts exactly the seven offsets
    -10..-4. *)
Theorem validOffsets_development_any_hour (env : Env) :
  NODE_ENV env = "development" ->
  validOffsets env <> []
  /\ forall z, existsb (Z.eqb z) (validOffsets env) = existsb (Z.eqb z) allOffsets.
Proof.
  intros Hdev. rewrite (validOffsets_development env Hdev). split.
  - discriminate.
  - intros z. rewrite existsb_app.
    destruct (existsb (Z.eqb z) allOffsets) eqn:E; [reflexivity|].
    destruct (existsb (Z.eqb z) (filter _ allOffsets)) eqn:F; [|reflexivity].
    apply existsb_filter_le in F. congruence.
Qed.

(** ** Whom a request assigns *)

(** The two ways a request ends, with the exclusion of the caller made
    explicit: nobody is assigned, or the first row of the query is. *)
Lemma interviewee_paths (env : Env) (user : User.t) (callAssignmentId : string)
    (w : World) :
  let local := localIdOf "CallAssignment" callAssignmentId in
  let w1 := released user w in
  let notSelf := notSelfOf user (db w) in
  exists r w',
    intervieweeForCallAssignment env user callAssignmentId w = (r, w')
    /\ outbox w' = outbox w /\ crm_calls w' = crm_calls w
    /\ ((db w' = db w1 /\ (forall p, r <> Ok (Some p)))
        \/ exists ca group cons_id,
             first (filter (fun r => String.eqb (CallAssignment.id r) local)
                           (bsd_call_assignments (db w))) = Some ca
             /\ first (intervieweeQuery env local group notSelf (db w1)) = Some cons_id
             /\ db w' = with_bsd_assigned_calls
                          (bsd_assigned_calls (db w1)
                           ++ [assignment_row env user local cons_id (db w1)]) (db w1)
             /\ r = Ok (first (filter (fun p => String.eqb (Person.cons_id p) cons_id)
                                      (bsd_people (db w))))).
Proof.
  intros local w1 notSelf.
  unfold intervieweeForCallAssignment. fold local.
  unfold bind, update, load_bsdCallAssignments, load_gcBsdGroups, load_bsdPeople,
    query, log_write, deref, ret, throw.
  cbn [db outbox crm_calls logs fst snd].
  fold (mine user). fold w1.
  assert (NoMine : forall d' : Database,
             bsd_assigned_calls d' = bsd_assigned_calls (db w1) ->
             first (filter (fun r2 : AssignedCall.t =>
                      String.eqb (AssignedCall.caller_id r2) (User.id user)
                      && String.eqb (AssignedCall.call_assignment_id r2) local)
                    (bsd_assigned_calls d')) = None).
  { intros d' ->. unfold w1, released. cbn [db bsd_assigned_calls with_bsd_assigned_calls].
    rewrite filter_filter_neg; [reflexivity|].
    intros x Hx. apply andb_true_iff in Hx. exact (proj1 Hx). }
  destruct (Nat.eqb (List.length (validOffsets env)) 0) eqn:V.
  { eexists _, _. split; [reflexivity|]. split; [reflexivity|]. split; [reflexivity|].
    left. split; [reflexivity | intros p; discriminate]. }
  destruct (first (filter _ (bsd_call_assignments _))) as [ca|] eqn:CA.
  2: { eexists _, _. split; [reflexivity|]. split; [reflexivity|]. split; [reflexivity|].
       left. split; [reflexivity | intros p; discriminate]. }
  cbn beta iota.
  destruct (first (filter _ (gc_bsd_groups _))) as [group|] eqn:G.
  2: { eexists _, _. split; [reflexivity|]. split; [reflexivity|]. split; [reflexivity|].
       left. split; [reflexivity | intros p; discriminate]. }
  cbn beta iota. cbn [db].
  match goal with
  | |- context [first (intervieweeQuery env local group ?ns ?d)] =>
      destruct (first (intervieweeQuery env local group ns d)) as [cons_id|] eqn:Q
  end.
  2: { eexists _, _. split; [reflexivity|]. split; [reflexivity|]. split; [reflexivity|].
       left. split; [reflexivity | intros p; discriminate]. }
  cbn [db].
  match goal with
  | |- context [first (filter ?p (bsd_assigned_calls ?d))] =>
      rewrite (NoMine d eq_refl)
  end.
  eexists _, _. split; [reflexivity|]. split; [reflexivity|]. split; [reflexivity|].
  right. exists ca, group, cons_id.
  split; [first [exact CA | reflexivity]|].
  split; [first [exact Q | reflexivity]|]. split; reflexivity.
Qed.

(** A row the requesting user holds after the request is the one the
    request inserted, for a person the query found callable. *)
Lemma interviewee_new_row (env : Env) (user : User.t) (callAssignmentId : string)
    (w : World) (row : AssignedCall.t) :
  let local := localIdOf "CallAssignment" callAssignmentId in
  let run := intervieweeForCallAssignment env user callAssignmentId w in
  In row (bsd_assigned_calls (db (snd run))) ->
  AssignedCall.caller_id row = User.id user ->
  Callable env local (notSelfOf user (db w)) (db (released user w))
           (AssignedCall.interviewee_id row)
  /\ AssignedCall.call_assignment_id row = local
  /\ fst run = Ok (first (filter (fun p => String.eqb (Person.cons_id p)
                                             (AssignedCall.interviewee_id row))
                                 (bsd_people (db w)))).
Proof.
  intros local run Hrow Hcaller.
  destruct (interviewee_paths env user callAssignmentId w)
    as (r & w' & Hrun & _ & _ & Hcase).
  unfold run in *. rewrite Hrun in *. cbn [fst snd] in *.
  destruct Hcase as [(Hdb & _) | (ca & group & c & _ & Hq & Hdb & Hres)];
    rewrite Hdb in Hrow;
    cbn [released db bsd_assigned_calls with_bsd_assigned_calls] in Hrow.
  - exfalso. exact (others_not_mine _ _ _ Hrow Hcaller).
  - apply in_app_or in Hrow. destruct Hrow as [Hrow | [<- | []]].
    + exfalso. exact (others_not_mine _ _ _ Hrow Hcaller).
    + cbn [assignment_row AssignedCall.interviewee_id AssignedCall.call_assignment_id].
      pose proof (intervieweeQuery_first env local group (notSelfOf user (db w))
                    (db (released user w))) as Hfirst.
      fold local in Hq. rewrite Hq in Hfirst.
      destruct Hfirst as (before & after & _ & Hcallable & _).
      split; [exact Hcallable | split; [reflexivity | exact Hres]].
Qed.

Lemma relatedPerson_notSelf (user : User.t) (w : World) (p : Person.t) :
  fst (relatedPerson user w) = Ok (Some p) ->
  notSelfOf user (db w) = Some (Person.cons_id p).
Proof.
  unfold relatedPerson, notSelfOf, bind, query, load_bsdPeople. cbn [fst snd].
  destruct (first (filter _ (bsd_emails (db w)))) as [r|]; cbn [fst option_map].
  - intros [= H]. apply first_filter_some in H.
    destruct H as (_ & _ & _ & E & _). apply String.eqb_eq in E. rewrite E. reflexivity.
  - discriminate.
Qed.

(** X3. A caller is never asked to call themselves: when the
    [relatedPerson] resolver finds the person behind the user's e-mail
    address, no assigned call the user holds after
    [intervieweeForCallAssignment] points at that person, and the person the
    resolver returns is somebody else. *)
Theorem interviewee_never_self (env : Env) (user : User.t)
    (callAssignmentId : string) (w : World) (self : Person.t) :
  let run := intervieweeForCallAssignment env user callAssignmentId w in
  fst (relatedPerson user w) = Ok (Some self) ->
  (forall row, In row (bsd_assigned_calls (db (snd run))) ->
               AssignedCall.caller_id row = User.id user ->
               AssignedCall.interviewee_id row <> Person.cons_id self)
  /\ (forall p, fst run = Ok (Some p) -> Person.cons_id p <> Person.cons_id self).
Proof.
  intros run Hself. apply relatedPerson_notSelf in Hself.
  assert (R : forall row, In row (bsd_assigned_calls (db (snd run))) ->
               AssignedCall.caller_id row = User.id user ->
               AssignedCall.interviewee_id row <> Person.cons_id self).
  { intros row Hrow Hcaller E.
    destruct (interviewee_new_row env user callAssignmentId w row Hrow Hcaller)
      as ((_ & _ & Hns & _) & _).
    apply Hns. rewrite Hself, E. reflexivity. }
  split; [exact R|].
  intros p Hp E.
  destruct (interviewee_paths env user callAssignmentId w)
    as (r & w' & Hrun & _ & _ & Hcase).
  unfold run in *. rewrite Hrun in *. cbn [fst snd] in *.
  destruct Hcase as [(_ & Hnone) | (ca & group & c & _ & _ & Hdb & Hres)].
  - exact (Hnone p Hp).
  - rewrite Hres in Hp. injection Hp as Hp. apply first_filter_some in Hp.
    destruct Hp as (_ & _ & _ & Ep & _). apply String.eqb_eq in Ep.
    apply (R (assignment_row env user (localIdOf "CallAssignment" callAssignmentId) c
                (db (released user w)))).
    + rewrite Hdb. cbn [bsd_assigned_calls with_bsd_assigned_calls].
      apply in_or_app. right. left. reflexivity.
    + reflexivity.
    + cbn [assignment_row AssignedCall.interviewee_id]. congruence.
Qed.

Lemma NoDup_map_filter {Row Key} (key : Row -> Key) (keep : Row -> bool)
    (rows : list Row) :
  NoDup (map key rows) -> NoDup (map key (filter keep rows)).
Proof.
  intros Hrows. induction rows as [|row rows IH]; cbn in *; [exact Hrows|].
  inversion Hrows as [|? ? Hfresh Hrest]; subst.
  destruct (keep row); cbn; [|auto].
  constructor; [|auto].
  intros Hin. apply Hfresh. apply in_map_iff in Hin. destruct Hin as (other & E & Hother).
  apply in_map_iff. exists other. split; [exact E|].
  apply filter_In in Hother. apply Hother.
Qed.

Lemma NoDup_snoc {A} (l : list A) (x : A) :
  NoDup l -> ~ In x l -> NoDup (l ++ [x]).
Proof.
  induction l as [|y l IH]; cbn; intros Hl Hx.
  - constructor; [intros [] | constructor].
  - inversion Hl as [|? ? Hy Hl']; subst. constructor.
    + intros Hin. apply in_app_or in Hin. destruct Hin as [Hin | [E | []]].
      * exact (Hy Hin).
      * apply Hx. left. symmetry. exact E.
    + apply IH; [exact Hl' | intros Hin; apply Hx; right; exact Hin].
Qed.

(** X4. Nobody is on two callers' lists: if no person has two rows in
    [bsd_assigned_calls] before [intervieweeForCallAssignment] runs, none
    has afterwards, however the request ends. *)
Theorem interviewee_no_double_assignment (env : Env) (user : User.t)
    (callAssignmentId : string) (w : World) :
  let w' := snd (intervieweeForCallAssignment env user callAssignmentId w) in
  NoDup (assignedCallsSubquery (db w)) ->
  NoDup (assignedCallsSubquery (db w')).
Proof.
  intros w' Hnodup.
  destruct (interviewee_paths env user callAssignmentId w)
    as (r & w0 & Hrun & _ & _ & Hcase).
  unfold w'. rewrite Hrun. cbn [snd].
  assert (H1 : NoDup (assignedCallsSubquery (db (released user w)))).
  { unfold assignedCallsSubquery, released.
    cbn [db bsd_assigned_calls with_bsd_assigned_calls].
    apply NoDup_map_filter. exact Hnodup. }
  destruct Hcase as [(Hdb & _) | (ca & group & c & _ & Hq & Hdb & _)]; rewrite Hdb.
  - exact H1.
  - pose proof (intervieweeQuery_first env (localIdOf "CallAssignment" callAssignmentId)
                  group (notSelfOf user (db w)) (db (released user w))) as Hfirst.
    rewrite Hq in Hfirst. destruct Hfirst as (_ & _ & _ & (_ & Hfree & _) & _).
    unfold assignedCallsSubquery in *.
    cbn [bsd_assigned_calls with_bsd_assigned_calls].
    rewrite map_app. cbn [map assignment_row AssignedCall.interviewee_id].
    apply NoDup_snoc; assumption.
Qed.

Lemma reason_in_In reason l r :
  reason = Some r -> In r l -> reason_in reason l = true.
Proof.
  intros -> H. cbn. apply existsb_exists. exists r.
  split; [exact H | apply String.eqb_refl].
Qed.

Lemma keepsOff_previousCall env local call :
  keepsOff env local call -> previousCall env local call = true.
Proof.
  unfold keepsOff, previousCall.
  intros [(C & A) | [(r & R & H) | [(r & R & H & T) | (R & A)]]].
  - rewrite C, A, String.eqb_refl. reflexivity.
  - rewrite (reason_in_In _ R H). rewrite orb_true_r. reflexivity.
  - rewrite (reason_in_In _ R H). apply Z.ltb_lt in T. rewrite T.
    cbn [andb]. rewrite orb_true_r. reflexivity.
  - rewrite A, String.eqb_refl, R. cbn. rewrite !orb_true_r. reflexivity.
Qed.

(** A call on record that keeps its interviewee off the list of a call
    assignment keeps the request from assigning that person. *)
Lemma interviewee_excludes (env : Env) (user : User.t) (callAssignmentId : string)
    (w : World) (call : Call.t) (row : AssignedCall.t) :
  let local := localIdOf "CallAssignment" callAssignmentId in
  let w' := snd (intervieweeForCallAssignment env user callAssignmentId w) in
  In call (bsd_calls (db w)) ->
  previousCall env local call = true ->
  In row (bsd_assigned_calls (db w')) ->
  AssignedCall.caller_id row = User.id user ->
  AssignedCall.interviewee_id row <> Call.interviewee_id call.
Proof.
  intros local w' Hcall Hprev Hrow Hcaller E.
  destruct (interviewee_new_row env user callAssignmentId w row Hrow Hcaller)
    as ((Hhist & _) & _).
  apply Hhist. unfold previousCallsSubquery. rewrite E.
  apply in_map. apply filter_In. split; [exact Hcall | exact Hprev].
Qed.

(** X5. The call history is honoured. A person with a call on record that
    was completed for this call assignment, or failed for a wrong or
    disconnected number or another language (for any call assignment), or
    was not picked up or asked to be called back less than 24 hours ago, or
    who declined this call assignment, is not assigned by
    [intervieweeForCallAssignment]. *)
Theorem interviewee_respects_call_history (env : Env) (user : User.t)
    (callAssignmentId : string) (w : World) (call : Call.t) :
  let local := localIdOf "CallAssignment" callAssignmentId in
  let w' := snd (intervieweeForCallAssignment env user callAssignmentId w) in
  In call (bsd_calls (db w)) ->
  keepsOff env local call ->
  forall row, In row (bsd_assigned_calls (db w')) ->
              AssignedCall.caller_id row = User.id user ->
              AssignedCall.interviewee_id row <> Call.interviewee_id call.
Proof.
  intros local w' Hcall Hoff row Hrow Hcaller.
  apply (interviewee_excludes env user callAssignmentId w call row Hcall);
    [apply keepsOff_previousCall; exact Hoff | exact Hrow | exact Hcaller].
Qed.

(** ** What a computation leaves alone *)

Lemma keeps_ret {A B} (f : World -> B) (a : A) : keeps f (ret a).
Proof. intro; reflexivity. Qed.

Lemma keeps_throw {A B} (f : World -> B) (e : exn) : keeps f (@throw A e).
Proof. intro; reflexivity. Qed.

Lemma keeps_query {A B} (f : World -> B) (g : Database -> A) : keeps f (query g).
Proof. intro; reflexivity. Qed.

Lemma keeps_deref {A B} (f : World -> B) what (r : option A) : keeps f (deref what r).
Proof. destruct r; intro; reflexivity. Qed.

Lemma keeps_bind {A B C} (f : World -> C) (c : M A) (k : A -> M B) :
  keeps f c -> (forall a, keeps f (k a)) -> keeps f (bind c k).
Proof.
  intros Hc Hk w. unfold bind.
  specialize (Hc w). destruct (c w) as [[a|e] w']; cbn in *.
  - rewrite Hk. exact Hc.
  - exact Hc.
Qed.

Lemma keeps_try_catch {A C} (f : World -> C) (c : M A) (h : exn -> M A) :
  keeps f c -> (forall e, keeps f (h e)) -> keeps f (try_catch c h).
Proof.
  intros Hc Hh w. unfold try_catch.
  specialize (Hc w). destruct (c w) as [[a|e] w']; cbn in *.
  - exact Hc.
  - rewrite Hh. exact Hc.
Qed.

Lemma keeps_for_each {A C} (f : World -> C) (xs : list A) (body : A -> M unit) :
  (forall x, keeps f (body x)) -> keeps f (for_each xs body).
Proof.
  intros Hb. induction xs as [|x xs IH]; cbn.
  - apply keeps_ret.
  - apply keeps_bind; [apply Hb | intros _; exact IH].
Qed.

Lemma outbox_update g : keeps outbox (update g).
Proof. intro; reflexivity. Qed.

Lemma crm_update g : keeps crm_calls (update g).
Proof. intro; reflexivity. Qed.

Lemma outbox_log e : keeps outbox (log_write e).
Proof. intro; reflexivity. Qed.

Lemma crm_log e : keeps crm_calls (log_write e).
Proof. intro; reflexivity. Qed.

Lemma outbox_crm env c : keeps outbox (BSDClient_request env c).
Proof. intro; reflexivity. Qed.

Lemma crm_mail env m : keeps crm_calls (Mailgun_send env m).
Proof. intro; reflexivity. Qed.

Lemma outbox_transaction {A} (body : M A) :
  keeps outbox body -> keeps outbox (transaction body).
Proof.
  intros H w. unfold transaction. specialize (H w).
  destruct (body w) as [[a|e] w']; exact H.
Qed.

Lemma crm_transaction {A} (body : M A) :
  keeps crm_calls body -> keeps crm_calls (transaction body).
Proof.
  intros H w. unfold transaction. specialize (H w).
  destruct (body w) as [[a|e] w']; exact H.
Qed.

Lemma adminRequired_world session w r w' :
  adminRequired session w = (r, w') -> w' = w.
Proof.
  unfold adminRequired, authRequired, bind, throw, ret.
  destruct (user session) as [u|]; [destruct (User.is_admin u)|];
    intros [= _ <-]; reflexivity.
Qed.

Lemma keeps_authRequired {B} (f : World -> B) session : keeps f (authRequired session).
Proof. unfold authRequired. destruct (user session); intro; reflexivity. Qed.

Lemma keeps_adminRequired {B} (f : World -> B) session : keeps f (adminRequired session).
Proof.
  unfold adminRequired. apply keeps_bind; [apply keeps_authRequired|].
  intros _. destruct (user session) as [u|]; [destruct (User.is_admin u)|];
    intro; reflexivity.
Qed.

Lemma keeps_getPrimaryEmail {B} (f : World -> B) p : keeps f (getPrimaryEmail p).
Proof. intro; reflexivity. Qed.

Lemma keeps_getPrimaryAddress {B} (f : World -> B) p : keeps f (getPrimaryAddress p).
Proof. intro; reflexivity. Qed.

Lemma keeps_getPrimaryPhone {B} (f : World -> B) p : keeps f (getPrimaryPhone p).
Proof. intro; reflexivity. Qed.

Lemma keeps_load_bsdPeople {B} (f : World -> B) i : keeps f (load_bsdPeople i).
Proof. intro; reflexivity. Qed.

Create HintDb quiet.
#[local] Hint Resolve keeps_ret keeps_throw keeps_query keeps_deref outbox_update
  crm_update outbox_log crm_log outbox_crm crm_mail keeps_authRequired
  keeps_adminRequired keeps_getPrimaryEmail keeps_getPrimaryAddress
  keeps_getPrimaryPhone keeps_load_bsdPeople : quiet.

(** Decompose a goal [keeps f c] along the syntax of [c]. *)
Ltac quiet :=
  repeat first
    [ solve [auto with quiet]
    | apply keeps_bind; [ | intros ]
    | apply keeps_try_catch; [ | intros ]
    | apply keeps_for_each; intros
    | apply outbox_transaction
    | apply crm_transaction
    | match goal with
      | |- keeps _ (if ?b then _ else _) => destruct b
      | |- keeps _ (match ?x with _ => _ end) => destruct x
      | |- keeps _ (let '(_, _) := ?x in _) => destruct x
      end ].

Lemma outbox_noFail env method args :
  keeps outbox (BSDClient_noFailApiRequest env method args).
Proof. unfold BSDClient_noFailApiRequest. quiet. Qed.

Lemma keeps_surveyFieldId {B} (f : World -> B) survey field :
  keeps f (surveyFieldId survey field).
Proof. unfold surveyFieldId. quiet. Qed.

Lemma keeps_bsdFormValuesOf {B} (f : World -> B) survey fieldValues fields :
  forall acc, keeps f (bsdFormValuesOf survey fieldValues fields acc).
Proof.
  induction fields as [|field fields IH]; intros acc; cbn [bsdFormValuesOf].
  - apply keeps_ret.
  - apply keeps_bind; [apply keeps_surveyFieldId | intros; apply IH].
Qed.

Lemma outbox_runProcessor env survey person email local processor fieldValues :
  keeps outbox (runProcessor env survey person email local processor fieldValues).
Proof.
  unfold runProcessor.
  pose proof (outbox_noFail env) as N.
  pose proof (@keeps_bsdFormValuesOf _ outbox survey) as F.
  quiet.
Qed.

Lemma outbox_runProcessors env survey person email local processors :
  forall fieldValues,
    keeps outbox (runProcessors env survey person email local processors fieldValues).
Proof.
  induction processors as [|p ps IH]; intros fieldValues; cbn [runProcessors].
  - apply keeps_ret.
  - apply keeps_bind; [apply outbox_runProcessor | intros; apply IH].
Qed.

(** X6. [submitCallSurvey] never sends mail, and a submission that is not
    marked completed never contacts the CRM: the survey processors are the
    only part of the mutation that does, and they run for completed calls
    only. This holds however the mutation ends. *)
Theorem submitCallSurvey_quiet (env : Env) (input : SubmitCallSurveyInput.t)
    (session : Session) (w : World) :
  let w' := snd (submitCallSurvey env input session w) in
  outbox w' = outbox w
  /\ (SubmitCallSurveyInput.completed input = false -> crm_calls w' = crm_calls w).
Proof.
  cbv zeta. split.
  - revert w. change (keeps outbox (submitCallSurvey env input session)).
    unfold submitCallSurvey, session_user, insertAndFetch_bsd_calls.
    pose proof (outbox_runProcessors env) as R.
    quiet.
  - intros Hc. revert w. change (keeps crm_calls (submitCallSurvey env input session)).
    unfold submitCallSurvey, session_user, insertAndFetch_bsd_calls.
    rewrite Hc. cbn [andb].
    quiet.
Qed.

(** ** Running a request forward *)

Lemma bind_query {A B} (f : Database -> A) (k : A -> M B) w :
  bind (query f) k w = k (f (db w)) w.
Proof. reflexivity. Qed.

Lemma bind_ret {A B} (a : A) (k : A -> M B) w : bind (ret a) k w = k a w.
Proof. reflexivity. Qed.

Lemma bind_deref {A B} what (a : A) (k : A -> M B) w :
  bind (deref what (Some a)) k w = k a w.
Proof. reflexivity. Qed.

Lemma bind_update {B} (g : Database -> Database) (k : unit -> M B) w :
  bind (update g) k w = k tt (mkWorld (g (db w)) (outbox w) (crm_calls w) (logs w)).
Proof. reflexivity. Qed.

Lemma bind_log {B} e (k : unit -> M B) w :
  bind (log_write e) k w = k tt (mkWorld (db w) (outbox w) (crm_calls w) (logs w ++ [e])).
Proof. reflexivity. Qed.

Lemma bind_bind {A B C} (c : M A) (k1 : A -> M B) (k2 : B -> M C) w :
  bind (bind c k1) k2 w = bind c (fun a => bind (k1 a) k2) w.
Proof. unfold bind. destruct (c w) as [[a|e] w']; reflexivity. Qed.

Lemma transaction_returns {A} (body : M A) w a w' :
  body w = (Ok a, w') -> transaction body w = (Ok a, w').
Proof. unfold transaction. intros ->. reflexivity. Qed.

Lemma first_filter_exists {A} (p : A -> bool) (l : list A) (x : A) :
  In x l -> p x = true -> exists y, first (filter p l) = Some y.
Proof.
  intros Hin Px. destruct (first (filter p l)) as [y|] eqn:E.
  - exists y. reflexivity.
  - rewrite (first_filter_none _ _ E x Hin) in Px. discriminate.
Qed.

Lemma surveyFieldId_runs survey field w :
  exists x, surveyFieldId survey field w = (Ok x, w).
Proof.
  unfold surveyFieldId. destruct (negb (all_digits field)); [|eexists; reflexivity].
  rewrite bind_query. cbv beta.
  destruct (first (filter _ (bsd_survey_fields (db w)))); eexists; reflexivity.
Qed.

Lemma bsdFormValuesOf_runs survey fieldValues fields :
  forall acc w, exists v, bsdFormValuesOf survey fieldValues fields acc w = (Ok v, w).
Proof.
  induction fields as [|field fields IH]; intros acc w; cbn [bsdFormValuesOf].
  - eexists; reflexivity.
  - destruct (surveyFieldId_runs survey field w) as [x Hx].
    rewrite (bind_ok _ _ _ Hx). apply IH.
Qed.

(** A processor returns normally for a person with a primary address,
    leaving the database and the outbox alone. *)
Lemma runProcessor_runs env survey person email local processor fieldValues w :
  has_primary_address (db w) (Person.cons_id person) ->
  exists fieldValues' w',
    runProcessor env survey person email local processor fieldValues w
    = (Ok fieldValues', w')
    /\ db w' = db w /\ outbox w' = outbox w.
Proof.
  intros (a & Hin & Hprim & Hid).
  unfold runProcessor.
  destruct (String.eqb processor "bsd-event-rsvper").
  - destruct (truthy (prop fieldValues "event_id"));
      [|eexists _, _; repeat split; reflexivity].
    destruct (@first_filter_exists _ (is_primary_address_of (Person.cons_id person))
                (bsd_addresses (db w)) a Hin) as [a' Ha'].
    { unfold is_primary_address_of. rewrite Hprim, Hid, String.eqb_refl. reflexivity. }
    unfold getPrimaryAddress.
    rewrite bind_query, Ha'. cbv beta.
    rewrite (bind_ok (getPrimaryPhone person) _ w
               (eq_refl : getPrimaryPhone person w = (Ok _, w))).
    rewrite bind_deref.
    rewrite (bind_ok _ _ _ (noFailApiRequest_run env _ _ w)).
    eexists _, _. repeat split; reflexivity.
  - destruct (String.eqb processor "bsd-form-submitter");
      [|eexists _, _; repeat split; reflexivity].
    destruct (truthy_str email).
    + match goal with
      | |- context [bsdFormValuesOf ?s ?fv ?fs ?acc] =>
          destruct (bsdFormValuesOf_runs s fv fs acc w) as [v Hv]
      end.
      rewrite (bind_ok _ _ _ Hv).
      rewrite (bind_ok _ _ _ (noFailApiRequest_run env _ _ w)).
      eexists _, _. repeat split; reflexivity.
    + rewrite bind_log. eexists _, _. repeat split; reflexivity.
Qed.

Lemma runProcessors_runs env survey person email local processors :
  forall fieldValues w,
    has_primary_address (db w) (Person.cons_id person) ->
    exists w',
      runProcessors env survey person email local processors fieldValues w = (Ok tt, w')
      /\ db w' = db w /\ outbox w' = outbox w.
Proof.
  induction processors as [|p ps IH]; intros fieldValues w Ha; cbn [runProcessors].
  - exists w. repeat split; reflexivity.
  - destruct (@runProcessor_runs env survey person email local p fieldValues w Ha)
      as (fv & w1 & Hrun & Hdb & Hout).
    rewrite (bind_ok _ _ _ Hrun).
    destruct (IH fv w1) as (w2 & Hrun2 & Hdb2 & Hout2).
    { rewrite Hdb. exact Ha. }
    exists w2. split; [exact Hrun2|]. split; congruence.
Qed.
(** The mutation goes through once the checks pass and the records it
    dereferences are there. *)
Lemma submitCallSurvey_runs (env : Env) (input : SubmitCallSurveyInput.t)
    (caller : User.t) (w : World) (ac : AssignedCall.t) (ca : CallAssignment.t)
    (survey : Survey.t) (processors : list string) (fieldValues : obj)
    (person : Person.t) :
  let local := localIdOf "CallAssignment" (SubmitCallSurveyInput.callAssignmentId input) in
  let interviewee := id (fromGlobalId (SubmitCallSurveyInput.intervieweeId input)) in
  assignedCallOf caller local (db w) = Some ac ->
  AssignedCall.interviewee_id ac = interviewee ->
  first (filter (fun r => String.eqb (CallAssignment.id r) local)
                (bsd_call_assignments (db w))) = Some ca ->
  first (filter (fun r => String.eqb (Survey.id r) (CallAssignment.gc_bsd_survey_id ca))
                (gc_bsd_surveys (db w))) = Some survey ->
  Survey.processors survey = Some processors ->
  JSON_parse (SubmitCallSurveyInput.surveyFieldValues input) = Some (JObj fieldValues) ->
  first (filter (fun r => String.eqb (Person.cons_id r) interviewee)
                (bsd_people (db w))) = Some person ->
  SubmitCallSurveyInput.completed input = false
  \/ has_primary_address (db w) (Person.cons_id person) ->
  exists w',
    submitCallSurvey env input (mkSession (Some caller)) w = (Ok caller, w')
    /\ db w' = submitted env input caller ac (db w)
    /\ outbox w' = outbox w.
Proof.
  intros local interviewee A I CA S PS J P ADDR.
  unfold submitCallSurvey.
  rewrite (bind_ok _ _ _ (@authRequired_logged_in (mkSession (Some caller)) caller w eq_refl)).
  rewrite (bind_ok _ _ _ (eq_refl : session_user (mkSession (Some caller)) w = (Ok caller, w))).
  fold local interviewee.
  pose proof (first_filter_some _ _ A) as (_ & _ & _ & Hac & _).
  apply andb_true_iff in Hac. destruct Hac as [Hcaller Hassignment].
  match goal with
  | |- exists w', transaction ?b w = _ /\ _ =>
      assert (B : exists w', b w = (Ok caller, w')
                             /\ db w' = submitted env input caller ac (db w)
                             /\ outbox w' = outbox w)
  end.
  2: { destruct B as (w' & B & Hdb & Hout). exists w'.
       split; [apply transaction_returns; exact B | split; assumption]. }
  rewrite bind_query. unfold assignedCallOf in A. rewrite A.
  unfold bind at 1. rewrite for_each_check. cbn [combine forallb fst snd].
  rewrite Hcaller, Hassignment.
  replace (String.eqb (AssignedCall.interviewee_id ac) interviewee) with true
    by (symmetry; apply String.eqb_eq; exact I).
  cbn [andb].
  rewrite bind_query, CA, bind_deref, bind_query, S, J, bind_ret, bind_query, P.
  rewrite bind_ret, bind_deref.
  rewrite (bind_ok (getPrimaryEmail person) _ w
             (eq_refl : getPrimaryEmail person w = (Ok _, w))).
  rewrite bind_deref, PS, bind_deref.
  match goal with
  | |- exists w', bind ?c ?k w = _ /\ _ =>
      assert (R : exists w1, c w = (Ok tt, w1) /\ db w1 = db w /\ outbox w1 = outbox w)
  end.
  { destruct (SubmitCallSurveyInput.completed input && _) eqn:E.
    - destruct ADDR as [C | Ha]; [rewrite C in E; discriminate|].
      apply runProcessors_runs. exact Ha.
    - exists w. repeat split; reflexivity. }
  destruct R as (w1 & R & Hdb & Hout).
  rewrite (bind_ok _ _ _ R).
  rewrite bind_update. unfold insertAndFetch_bsd_calls.
  unfold bind, query, update, ret. cbn [db outbox crm_calls logs].
  eexists. split; [reflexivity|]. cbn [db outbox].
  split; [rewrite Hdb; reflexivity | exact Hout].
Qed.
(** X7. The checks of [submitCallSurvey] passing is enough once the
    records the mutation dereferences are there: if the caller holds an
    assigned call for the call assignment that names the submitted
    interviewee, the call assignment, its survey with a processors list and
    the interviewee's person row exist, the survey body parses as a JSON
    object and, for a completed call, the interviewee has a primary address,
    then the mutation returns the caller, appends the submitted call to
    [bsd_calls], deletes the assigned call and sends no mail. *)
Theorem submitCallSurvey_goes_through (env : Env) (input : SubmitCallSurveyInput.t)
    (caller : User.t) (w : World) (ac : AssignedCall.t) (ca : CallAssignment.t)
    (survey : Survey.t) (processors : list string) (fieldValues : obj)
    (person : Person.t) :
  let local := localIdOf "CallAssignment" (SubmitCallSurveyInput.callAssignmentId input) in
  let interviewee := id (fromGlobalId (SubmitCallSurveyInput.intervieweeId input)) in
  assignedCallOf caller local (db w) = Some ac ->
  AssignedCall.interviewee_id ac = interviewee ->
  first (filter (fun r => String.eqb (CallAssignment.id r) local)
                (bsd_call_assignments (db w))) = Some ca ->
  first (filter (fun r => String.eqb (Survey.id r) (CallAssignment.gc_bsd_survey_id ca))
                (gc_bsd_surveys (db w))) = Some survey ->
  Survey.processors survey = Some processors ->
  JSON_parse (SubmitCallSurveyInput.surveyFieldValues input) = Some (JObj fieldValues) ->
  first (filter (fun r => String.eqb (Person.cons_id r) interviewee)
                (bsd_people (db w))) = Some person ->
  SubmitCallSurveyInput.completed input = false
  \/ has_primary_address (db w) (Person.cons_id person) ->
  exists w',
    submitCallSurvey env input (mkSession (Some caller)) w = (Ok caller, w')
    /\ bsd_calls (db w')
       = bsd_calls (db w)
         ++ [submittedCall env input caller ac (next_id (map Call.id (bsd_calls (db w))))]
    /\ bsd_assigned_calls (db w')
       = filter (fun r => negb (AssignedCall.id r =? AssignedCall.id ac))
                (bsd_assigned_calls (db w))
    /\ outbox w' = outbox w.
Proof.
  intros local interviewee A I CA S PS J P ADDR.
  destruct (@submitCallSurvey_runs env input caller w ac ca survey processors fieldValues
              person A I CA S PS J P ADDR) as (w' & Hrun & Hdb & Hout).
  exists w'. split; [exact Hrun|]. rewrite Hdb.
  split; [reflexivity | split; [reflexivity | exact Hout]].
Qed.

Lemma filter_none {A} (p : A -> bool) (l : list A) :
  (forall x, In x l -> p x = false) -> filter p l = [].
Proof.
  induction l as [|x l IH]; cbn; intros H; [reflexivity|].
  rewrite (H x (or_introl eq_refl)). apply IH. intros y Hy. apply H. right. exact Hy.
Qed.

(** X8. An assignment can always be reported. When
    [intervieweeForCallAssignment] returns a person, the caller's next
    [submitCallSurvey] for that call assignment and that person passes both
    checks and goes through, provided the call assignment's survey exists
    with a processors list and the survey body parses as a JSON object: the
    call is recorded against the person returned and the caller holds no
    assigned call afterwards. *)
Theorem interviewee_then_submit (env env' : Env) (user : User.t)
    (callAssignmentId intervieweeId : string) (w w1 : World) (p : Person.t)
    (ca : CallAssignment.t) (survey : Survey.t) (processors : list string)
    (fieldValues : obj) (completed : bool) (leftVoicemail sentText : option bool)
    (reason : option string) (text : string) :
  let local := localIdOf "CallAssignment" callAssignmentId in
  let input := SubmitCallSurveyInput.mk callAssignmentId intervieweeId completed
                 leftVoicemail sentText reason text in
  intervieweeForCallAssignment env user callAssignmentId w = (Ok (Some p), w1) ->
  id (fromGlobalId intervieweeId) = Person.cons_id p ->
  first (filter (fun r => String.eqb (CallAssignment.id r) local)
                (bsd_call_assignments (db w))) = Some ca ->
  first (filter (fun r => String.eqb (Survey.id r) (CallAssignment.gc_bsd_survey_id ca))
                (gc_bsd_surveys (db w))) = Some survey ->
  Survey.processors survey = Some processors ->
  JSON_parse text = Some (JObj fieldValues) ->
  exists w2 call,
    submitCallSurvey env' input (mkSession (Some user)) w1 = (Ok user, w2)
    /\ bsd_calls (db w2) = bsd_calls (db w) ++ [call]
    /\ Call.caller_id call = User.id user
    /\ Call.interviewee_id call = Person.cons_id p
    /\ Call.call_assignment_id call = local
    /\ Call.completed call = completed
    /\ Call.attempted_at call = now env'
    /\ filter (mine user) (bsd_assigned_calls (db w2)) = [].
Proof.
  intros local input Hrun Hid CA S PS J.
  destruct (interviewee_paths env user callAssignmentId w)
    as (r & w0 & Hrun0 & _ & _ & Hcase).
  rewrite Hrun in Hrun0. injection Hrun0 as <- <-.
  destruct Hcase as [(_ & Hnone) | (ca0 & group & c & _ & Hq & Hdb & Hres)].
  { exfalso. exact (Hnone p eq_refl). }
  injection Hres as Hres. symmetry in Hres.
  pose proof (first_filter_some _ _ Hres) as (_ & _ & _ & Ep & _).
  apply String.eqb_eq in Ep.
  pose proof (intervieweeQuery_first env local group (notSelfOf user (db w))
                (db (released user w))) as Hfirst.
  fold local in Hq. rewrite Hq in Hfirst.
  destruct Hfirst as (_ & _ & _ & (_ & _ & _ & _ & Haddr) & _).
  destruct Haddr as (address & zip_code & Hin & Ea & Pa & _).
  destruct w1 as [d1 o1 c1 l1]. cbn [db] in Hdb. subst d1.
  set (row := assignment_row env user local c (db (released user w))).
  assert (A : assignedCallOf user local
                (with_bsd_assigned_calls
                   (bsd_assigned_calls (db (released user w)) ++ [row])
                   (db (released user w))) = Some row).
  { unfold assignedCallOf. cbn [bsd_assigned_calls with_bsd_assigned_calls released db].
    rewrite filter_app.
    match goal with
    | |- first (filter ?q (filter _ ?l) ++ _) = _ =>
        assert (E : filter q (filter (fun x => negb (mine user x)) l) = [])
          by (apply filter_filter_neg; intros x Hx;
              apply andb_true_iff in Hx; exact (proj1 Hx));
        rewrite E
    end.
    cbn [app filter row assignment_row AssignedCall.caller_id
         AssignedCall.call_assignment_id].
    rewrite !String.eqb_refl. reflexivity. }
  destruct (@submitCallSurvey_runs env' input user
              (mkWorld (with_bsd_assigned_calls
                          (bsd_assigned_calls (db (released user w)) ++ [row])
                          (db (released user w))) o1 c1 l1)
              row ca survey processors fieldValues p)
    as (w2 & Hsubmit & Hdb2 & _).
  - exact A.
  - cbn [input SubmitCallSurveyInput.intervieweeId row assignment_row
         AssignedCall.interviewee_id]. congruence.
  - exact CA.
  - exact S.
  - exact PS.
  - exact J.
  - cbn [input SubmitCallSurveyInput.intervieweeId]. rewrite Hid, Ep. exact Hres.
  - right. exists address. rewrite Ep. split; [exact Hin | split; assumption].
  - exists w2. eexists. split; [exact Hsubmit|]. rewrite Hdb2.
    split; [reflexivity|].
    cbn [submitted submittedCall bsd_calls bsd_assigned_calls with_bsd_calls
         with_bsd_assigned_calls Call.caller_id Call.interviewee_id
         Call.call_assignment_id Call.completed Call.attempted_at
         row assignment_row AssignedCall.interviewee_id
         AssignedCall.call_assignment_id AssignedCall.id input
         SubmitCallSurveyInput.completed].
    split; [reflexivity|]. split; [symmetry; exact Ep|].
    split; [reflexivity|]. split; [reflexivity|]. split; [reflexivity|].
    apply filter_none. intros x Hx.
    apply filter_In in Hx. destruct Hx as [Hx Hkeep].
    cbn [released db bsd_assigned_calls with_bsd_assigned_calls] in Hx.
    apply in_app_or in Hx. destruct Hx as [Hx | [<- | []]].
    + apply filter_In in Hx. destruct Hx as [_ Hx].
      apply negb_true_iff in Hx. exact Hx.
    + rewrite Z.eqb_refl in Hkeep. discriminate.
Qed.

(** X9. A person who has been reported on is not handed out again. After
    a [submitCallSurvey] that went through, in any later state that still
    holds the call record, no request for the same call assignment, by any
    caller, assigns the interviewee if the call was completed, if the
    reason given was WRONG_NUMBER, DISCONNECTED_NUMBER, OTHER_LANGUAGE or
    NOT_INTERESTED, or if it was NO_PICKUP or CALL_BACK and less than 24
    hours have passed. *)
Theorem submit_then_not_reassigned (env env' : Env) (input : SubmitCallSurveyInput.t)
    (caller user : User.t) (w w1 w2 : World) (r : User.t) :
  let callAssignmentId := SubmitCallSurveyInput.callAssignmentId input in
  let w' := snd (intervieweeForCallAssignment env' user callAssignmentId w2) in
  submitCallSurvey env input (mkSession (Some caller)) w = (Ok r, w1) ->
  incl (bsd_calls (db w1)) (bsd_calls (db w2)) ->
  SubmitCallSurveyInput.completed input = true
  \/ (exists reason,
        SubmitCallSurveyInput.reasonNotCompleted input = Some reason
        /\ (In reason ["WRONG_NUMBER"; "DISCONNECTED_NUMBER"; "OTHER_LANGUAGE";
                       "NOT_INTERESTED"]
            \/ (In reason ["NO_PICKUP"; "CALL_BACK"]
                /\ now env' - 24 * 60 * 60 * 1000 < now env))) ->
  forall row, In row (bsd_assigned_calls (db w')) ->
              AssignedCall.caller_id row = User.id user ->
              AssignedCall.interviewee_id row
              <> id (fromGlobalId (SubmitCallSurveyInput.intervieweeId input)).
Proof.
  intros callAssignmentId w' Hsubmit Hlater Hwhy row Hrow Hcaller.
  destruct (submitCallSurvey_success env input caller w Hsubmit)
    as (ac & A & I & _ & Hdb).
  pose proof (first_filter_some _ _ A) as (_ & _ & _ & Hac & _).
  apply andb_true_iff in Hac. destruct Hac as [_ Hassignment].
  apply String.eqb_eq in Hassignment.
  set (call := submittedCall env input caller ac (next_id (map Call.id (bsd_calls (db w))))).
  assert (Hcall : In call (bsd_calls (db w2))).
  { apply Hlater. rewrite Hdb. cbn [submitted bsd_calls with_bsd_calls].
    apply in_or_app. right. left. reflexivity. }
  rewrite <- I.
  change (AssignedCall.interviewee_id ac) with (Call.interviewee_id call).
  apply (interviewee_excludes env' user callAssignmentId w2 call row Hcall);
    [|exact Hrow | exact Hcaller].
  apply keepsOff_previousCall.
  destruct Hwhy as [C | (reason & R & [H | [H T]])].
  - left. split; [exact C | exact Hassignment].
  - destruct H as [<- | [<- | [<- | [<- | []]]]].
    + right. left. exists "WRONG_NUMBER". split; [exact R | left; reflexivity].
    + right. left. exists "DISCONNECTED_NUMBER".
      split; [exact R | right; left; reflexivity].
    + right. left. exists "OTHER_LANGUAGE".
      split; [exact R | right; right; left; reflexivity].
    + right. right. right. split; [exact R | exact Hassignment].
  - right. right. left. exists reason. split; [exact R | split; [exact H | exact T]].
Qed.

(** ** Admin operations *)

(** X10. An anonymous session is told to log in, not that it lacks
    rights: every admin-gated operation answers it with the 401 error of
    [authRequired], which [adminRequired] consults first, and does nothing
    else. *)
Theorem adminRequired_operations_401 (env : Env) (w : World)
    (edit : EditEventsInput.t) (review : ReviewEventsInput.t)
    (del : DeleteEventsInput.t) (mail : EmailHostAttendeesInput.t)
    (invite : CreateAdminEventEmailInput.t) (assignment : CreateCallAssignmentInput.t) :
  let session := mkSession None in
  let error := GraphQLError (JSON_stringify loginRequired) in
  status loginRequired = 401
  /\ adminRequired session w = (Throw error, w)
  /\ superuserRequired session w = (Throw error, w)
  /\ listContainer session w = (Throw error, w)
  /\ editEvents env edit session w = (Throw error, w)
  /\ reviewEvents review session w = (Throw error, w)
  /\ deleteEvents env del session w = (Throw error, w)
  /\ emailHostAttendees env mail session w = (Throw error, w)
  /\ createAdminEventEmail env invite session w = (Throw error, w)
  /\ createCallAssignment env assignment session w = (Throw error, w).
Proof.
  cbv zeta. repeat split.
Qed.

(** X11. [deleteEvents] asks the CRM first. When the CRM refuses the
    deletion, the mutation fails with the CRM's error before anything else
    happens: no event is deleted locally, no review flag changes, no mail is
    sent and nothing is logged. *)
Theorem deleteEvents_crm_failure (env : Env) (input : DeleteEventsInput.t)
    (u : User.t) (w : World) (e : exn) :
  let ids := localIds (DeleteEventsInput.ids input) in
  User.is_admin u = true ->
  User.is_superuser u = true \/ List.length (DeleteEventsInput.ids input) = 1%nat ->
  bsd env (DeleteEvents ids) = Throw e ->
  deleteEvents env input (mkSession (Some u)) w
  = (Throw e, mkWorld (db w) (outbox w) (crm_calls w ++ [DeleteEvents ids]) (logs w)).
Proof.
  intros ids Hadmin Hguard Hcrm.
  unfold deleteEvents.
  rewrite (bind_ok _ _ _ (adminRequired_admin u w Hadmin)).
  rewrite (bind_ok _ _ _ (eq_refl : session_user (mkSession (Some u)) w = (Ok u, w))).
  replace (negb (User.is_superuser u)
           && negb (Nat.eqb (List.length (DeleteEventsInput.ids input)) 1)) with false.
  - fold ids. apply bind_throw. unfold BSDClient_request. rewrite Hcrm. reflexivity.
  - destruct Hguard as [-> | ->]; [reflexivity|].
    cbn [Nat.eqb negb]. rewrite andb_false_r. reflexivity.
Qed.


(** ** EmailHostAttendees *)

Lemma db_log e : keeps db (log_write e).
Proof. intro; reflexivity. Qed.

Lemma db_mail env m : keeps db (Mailgun_send env m).
Proof. intro; reflexivity. Qed.

Lemma db_crm env c : keeps db (BSDClient_request env c).
Proof. intro; reflexivity. Qed.

#[local] Hint Resolve db_log db_mail db_crm : quiet.

Lemma bind_inv_keeps {A B C} (f : World -> C) (c : M A) (k : A -> M B) w b w'' :
  keeps f c ->
  bind c k w = (Ok b, w'') ->
  exists a w', f w' = f w /\ c w = (Ok a, w') /\ k a w' = (Ok b, w'').
Proof.
  intros P H. apply bind_inv_ok in H. destruct H as (a & w' & Hc & Hk).
  exists a, w'. split; [|split; assumption].
  specialize (P w). rewrite Hc in P. exact P.
Qed.







(** ** CreateAdminEventEmail *)

(** X14. The refusals of [createAdminEventEmail], for an admin. A wrong
    tool password is refused with status 401 before anything happens. A
    request for an event whose fast-forward request already carries a send
    date is refused with status 403, but only after the copy for the admin
    address has been handed to the mailer; nothing is written. *)
Theorem createAdminEventEmail_refusals (env : Env) (input : CreateAdminEventEmailInput.t)
    (u : User.t) (w : World) :
  let run := createAdminEventEmail env input (mkSession (Some u)) w in
  let copy := AdminEventInvite
                (CreateAdminEventEmailInput.hostEmail input)
                (CreateAdminEventEmailInput.senderEmail input)
                (CreateAdminEventEmailInput.hostMessage input)
                (CreateAdminEventEmailInput.senderMessage input)
                (Some (CreateAdminEventEmailInput.adminEmail input))
                (CreateAdminEventEmailInput.hostEmailSubject input) in
  let eventId := id (fromGlobalId (CreateAdminEventEmailInput.eventId input)) in
  User.is_admin u = true ->
  (CreateAdminEventEmailInput.toolPassword input <> "solidarity" ->
   run = (Throw (newGraphQLError (mkErrorObject 401 "Incorrect password for this tool.")),
          w))
  /\ (CreateAdminEventEmailInput.toolPassword input = "solidarity" ->
      mailgun env copy = Ok tt ->
      forall n request sent,
        parseInt eventId = Some n ->
        first (filter (fun r => String.eqb (FastFwdRequest.event_id r) (string_of_Z n))
                      (fast_fwd_request (db w))) = Some request ->
        FastFwdRequest.email_sent_dt request = Some sent ->
        sent <> "" ->
        run = (Throw (newGraphQLError
                        (mkErrorObject 403
                           "Fast Forward has already been sent for this event.")),
               mkWorld (db w) (outbox w ++ [copy]) (crm_calls w) (logs w))).
Proof.
  intros run copy eventId Hadmin. unfold run, createAdminEventEmail.
  rewrite (bind_ok _ _ _ (adminRequired_admin u w Hadmin)).
  split.
  - intros Hpw. apply String.eqb_neq in Hpw. rewrite Hpw. reflexivity.
  - intros Hpw Hmail n request sent Hn Hreq Hsent Hne.
    rewrite Hpw. cbn [String.eqb Ascii.eqb Bool.eqb negb andb].
    fold copy eventId.
    assert (S : Mailgun_send env copy w
                = (Ok tt, mkWorld (db w) (outbox w ++ [copy]) (crm_calls w) (logs w)))
      by (unfold Mailgun_send; rewrite Hmail; reflexivity).
    rewrite (bind_ok _ _ _ S). rewrite bind_query. cbn [db]. rewrite Hn.
    unfold first in Hreq.
    destruct (filter _ (fast_fwd_request (db w))) as [|r0 rest]; [discriminate|].
    injection Hreq as ->. rewrite Hsent.
    replace (truthy_str (Some sent)) with true; [reflexivity|].
    symmetry. unfold truthy_str. apply negb_true_iff. apply String.eqb_neq. exact Hne.
Qed.

Lemma notYetSent_lookup eventId d :
  notYetSent eventId d ->
  match filter (fun r => match parseInt eventId with
                         | Some n => String.eqb (FastFwdRequest.event_id r) (string_of_Z n)
                         | None => false
                         end) (fast_fwd_request d) with
  | r :: _ => truthy_str (FastFwdRequest.email_sent_dt r)
  | [] => false
  end = false.
Proof.
  intros H. unfold notYetSent in H.
  destruct (parseInt eventId) as [n|].
  - destruct (filter _ (fast_fwd_request d)) as [|r rest] eqn:F; [reflexivity|].
    apply (H n r eq_refl). rewrite F. reflexivity.
  - rewrite (filter_none (fun _ : FastFwdRequest.t => false)); reflexivity.
Qed.

Lemma fast_fwd_inviteRecipients env input :
  keeps (fun w => fast_fwd_request (db w)) (inviteRecipients env input).
Proof.
  unfold inviteRecipients.
  apply keeps_bind; [quiet | intros recipients].
  apply keeps_for_each. intros globalId.
  repeat (apply keeps_bind; [first [solve [quiet] | intro; reflexivity] | intros]).
  intro; reflexivity.
Qed.

(** What the invitation of the volunteers leaves behind, whether it went
    through or was rolled back: the requests table as it was. *)
Lemma invitation_run env input w :
  exists w',
    try_catch (transaction (inviteRecipients env input)) (fun _ => ret tt) w = (Ok tt, w')
    /\ fast_fwd_request (db w') = fast_fwd_request (db w)
    /\ ((exists e w1, inviteRecipients env input w = (Throw e, w1)) -> db w' = db w).
Proof.
  unfold try_catch, transaction.
  pose proof (fast_fwd_inviteRecipients env input w) as K.
  destruct (inviteRecipients env input w) as [[[]|e] w1] eqn:R; cbn [snd] in K.
  - exists w1. split; [reflexivity|]. split; [exact K|].
    intros (e & w2 & H). discriminate H.
  - eexists. split; [reflexivity|]. split; reflexivity.
Qed.

(** X15. Test mode of [createAdminEventEmail]: with an empty recipient
    list, for an event, given by a canonical numeral, that is not yet
    marked as sent, an admin's request mails the copy for the admin address
    and nothing else; the database is untouched, so the fast-forward
    request is not stamped as sent. *)
Theorem createAdminEventEmail_test_mode (env : Env) (input : CreateAdminEventEmailInput.t)
    (u : User.t) (w : World) (n : Z) :
  let eventId := id (fromGlobalId (CreateAdminEventEmailInput.eventId input)) in
  User.is_admin u = true ->
  CreateAdminEventEmailInput.toolPassword input = "solidarity" ->
  mailgun env (adminCopy input) = Ok tt ->
  parseInt eventId = Some n ->
  string_of_Z n = eventId ->
  notYetSent eventId (db w) ->
  CreateAdminEventEmailInput.recipients input = Some [] ->
  exists entry,
    createAdminEventEmail env input (mkSession (Some u)) w
    = (Ok [], mkWorld (db w) (outbox w ++ [adminCopy input]) (crm_calls w)
                      (logs w ++ [entry])).
Proof.
  intros eventId Hadmin Hpw Hmail _ _ Hnot Hrec.
  unfold createAdminEventEmail.
  rewrite (bind_ok _ _ _ (adminRequired_admin u w Hadmin)).
  rewrite Hpw. cbn [String.eqb Ascii.eqb Bool.eqb negb andb].
  fold (adminCopy input). fold eventId.
  assert (S : Mailgun_send env (adminCopy input) w
              = (Ok tt, mkWorld (db w) (outbox w ++ [adminCopy input]) (crm_calls w)
                                (logs w)))
    by (unfold Mailgun_send; rewrite Hmail; reflexivity).
  rewrite (bind_ok _ _ _ S). rewrite bind_query. cbn [db].
  rewrite (notYetSent_lookup Hnot).
  unfold inviteRecipients. rewrite Hrec.
  unfold try_catch, transaction. cbn.
  eexists. reflexivity.
Qed.

(** X16. [createAdminEventEmail] stamps the request as sent whatever
    became of the invitations. For an admin with the right password, a
    non-empty recipient list and an event, given by a canonical numeral,
    that is not yet marked as sent, the mutation returns normally and sets
    [email_sent_dt] on the fast-forward requests of the event, leaving the
    other requests alone. It does so even when inviting the volunteers
    failed, in which case no [communications] row remains of the attempt. *)
Theorem createAdminEventEmail_marks_sent (env : Env) (input : CreateAdminEventEmailInput.t)
    (u : User.t) (w : World) (n : Z) (recipient : string) (others : list string) :
  let eventId := id (fromGlobalId (CreateAdminEventEmailInput.eventId input)) in
  let copied := mkWorld (db w) (outbox w ++ [adminCopy input]) (crm_calls w) (logs w) in
  User.is_admin u = true ->
  CreateAdminEventEmailInput.toolPassword input = "solidarity" ->
  mailgun env (adminCopy input) = Ok tt ->
  parseInt eventId = Some n ->
  string_of_Z n = eventId ->
  notYetSent eventId (db w) ->
  CreateAdminEventEmailInput.recipients input = Some (recipient :: others) ->
  exists w',
    createAdminEventEmail env input (mkSession (Some u)) w = (Ok [], w')
    /\ fast_fwd_request (db w')
       = map (fun r => if String.eqb (FastFwdRequest.event_id r) eventId
                       then FastFwdRequest.mk (FastFwdRequest.id r)
                              (FastFwdRequest.event_id r) (FastFwdRequest.host_message r)
                              (Some (toISOString (now env)))
                       else r)
             (fast_fwd_request (db w))
    /\ ((exists e w1, inviteRecipients env input copied = (Throw e, w1)) ->
        communications (db w') = communications (db w)).
Proof.
  intros eventId copied Hadmin Hpw Hmail Hn Hcanon Hnot Hrec.
  unfold createAdminEventEmail.
  rewrite (bind_ok _ _ _ (adminRequired_admin u w Hadmin)).
  rewrite Hpw. cbn [String.eqb Ascii.eqb Bool.eqb negb andb].
  fold (adminCopy input). fold eventId.
  assert (S : Mailgun_send env (adminCopy input) w = (Ok tt, copied))
    by (unfold Mailgun_send; rewrite Hmail; reflexivity).
  rewrite (bind_ok _ _ _ S). rewrite bind_query.
  change (db copied) with (db w).
  rewrite (notYetSent_lookup Hnot).
  destruct (invitation_run env input copied) as (w2 & Hrun & Hreq & Hback).
  rewrite (bind_ok _ _ _ Hrun).
  rewrite Hrec, bind_deref. cbn [List.length Nat.ltb Nat.leb].
  rewrite bind_update.
  rewrite (bind_ok _ _ _ (eq_refl : session_user (mkSession (Some u)) _ = (Ok u, _))).
  rewrite bind_log. unfold ret.
  eexists. split; [reflexivity|].
  cbn [db fast_fwd_request with_fast_fwd_request communications].
  split.
  - rewrite Hreq. reflexivity.
  - intros Hfail. rewrite (Hback Hfail). reflexivity.
Qed.

(** ** ChangeUserPassword *)

Lemma app_snoc_neq {A} (l : list A) (x y : A) : l ++ [x] <> l ++ [x; y].
Proof. intros H. apply app_inv_head in H. discriminate H. Qed.

(** X17. [changeUserPassword] sets nothing before it has checked. It
    touches neither the database nor the outbox; it asks the CRM to check
    the current password and, only when the answer is an object whose
    [api.cons] is truthy, asks it to set the new one. A failure of the check
    is passed on as it is, a failure to set becomes a 500 error carrying the
    CRM's message, and the mutation returns only when both requests were
    answered. *)
Theorem changeUserPassword_checks_first (env : Env) (input : ChangeUserPasswordInput.t)
    (u : User.t) (w : World) :
  let run := changeUserPassword env input (mkSession (Some u)) w in
  let password (p : option string) := match p with Some s => s | None => "" end in
  let check := CheckCredentials (User.email u)
                 (password (ChangeUserPasswordInput.currentPassword input)) in
  let set := SetConstituentPassword (User.email u)
               (password (ChangeUserPasswordInput.newPassword input)) in
  db (snd run) = db w
  /\ outbox (snd run) = outbox w
  /\ (crm_calls (snd run) = crm_calls w ++ [check]
      \/ crm_calls (snd run) = crm_calls w ++ [check; set])
  /\ (crm_calls (snd run) = crm_calls w ++ [check; set] ->
      exists o api,
        bsd env check = Ok (JObj o) /\ prop o "api" = JObj api
        /\ truthy (prop api "cons") = true)
  /\ (forall r, fst run = Ok r ->
        r = "" /\ crm_calls (snd run) = crm_calls w ++ [check; set]
        /\ exists answer, bsd env set = Ok answer)
  /\ (forall e, bsd env check = Throw e -> fst run = Throw e)
  /\ (forall e, crm_calls (snd run) = crm_calls w ++ [check; set] ->
        bsd env set = Throw e ->
        fst run = Throw (newGraphQLError
                           (mkErrorObject 500
                              ("Something went wrong while changing your password: "
                               ++ exn_message e)%string))).
Proof.
  intros run password check set. subst password check set. cbv beta.
  assert (R : run = changeUserPassword env input (mkSession (Some u)) w) by reflexivity.
  clearbody run. unfold changeUserPassword in R.
  rewrite (bind_ok _ _ _ (@authRequired_logged_in (mkSession (Some u)) u w eq_refl)) in R.
  rewrite (bind_ok _ _ _ (eq_refl : session_user (mkSession (Some u)) w = (Ok u, w))) in R.
  set (check := CheckCredentials _ _) in *.
  set (set := SetConstituentPassword _ _) in *.
  unfold bind at 1 in R. unfold BSDClient_request at 1 in R.
  assert (Stop : forall (chk : Result jsval) (r : Result string),
             run = (r, mkWorld (db w) (outbox w) (crm_calls w ++ [check]) (logs w)) ->
             (forall s, r <> Ok s) ->
             (forall e, chk = Throw e -> r = Throw e) ->
             db (snd run) = db w
             /\ outbox (snd run) = outbox w
             /\ (crm_calls (snd run) = crm_calls w ++ [check]
                 \/ crm_calls (snd run) = crm_calls w ++ [check; set])
             /\ (crm_calls (snd run) = crm_calls w ++ [check; set] ->
                 exists o api,
                   chk = Ok (JObj o) /\ prop o "api" = JObj api
                   /\ truthy (prop api "cons") = true)
             /\ (forall r0, fst run = Ok r0 ->
                   r0 = "" /\ crm_calls (snd run) = crm_calls w ++ [check; set]
                   /\ exists answer, bsd env set = Ok answer)
             /\ (forall e, chk = Throw e -> fst run = Throw e)
             /\ (forall e, crm_calls (snd run) = crm_calls w ++ [check; set] ->
                   bsd env set = Throw e ->
                   fst run = Throw (newGraphQLError
                                      (mkErrorObject 500
                                         ("Something went wrong while changing your password: "
                                          ++ exn_message e)%string)))).
  { intros chk r -> Hr Hc. cbn [fst snd db outbox crm_calls].
    split; [reflexivity|]. split; [reflexivity|]. split; [left; reflexivity|].
    split; [intros H; exfalso; exact (app_snoc_neq _ _ _ H)|].
    split; [intros r0 H; exfalso; exact (Hr r0 H)|].
    split; [exact Hc|].
    intros e H; exfalso; exact (app_snoc_neq _ _ _ H). }
  destruct (bsd env check) as [resp|e] eqn:Hcheck.
  2: { apply (Stop _ _ R); [discriminate | intros e0 [= <-]; reflexivity]. }
  destruct resp as [| |b|n|s|ms|g|o];
    try (apply (Stop _ _ R); [discriminate | discriminate]).
  destruct (prop o "api") as [| |b|n|s|ms|g|api] eqn:Hapi;
    try (apply (Stop _ _ R); [discriminate | discriminate]).
  unfold bind at 1 in R. unfold ret at 1 in R.
  destruct (truthy (prop api "cons")) eqn:Hcons;
    [|apply (Stop _ _ R); [discriminate | discriminate]].
  clear Stop. cbn [negb] in R.
  unfold bind, try_catch, BSDClient_request, ret, throw in R.
  cbn [db outbox crm_calls logs] in R. rewrite <- app_assoc in R. cbn [app] in R.
  destruct (bsd env set) as [answer|e] eqn:Hset; subst run;
    cbn [fst snd db outbox crm_calls].
  - split; [reflexivity|]. split; [reflexivity|]. split; [right; reflexivity|].
    split; [intros _; exists o, api; repeat split; assumption|].
    split; [intros r [= <-]; split; [reflexivity | split; [reflexivity | eauto]]|].
    split; [discriminate|]. intros e _ H. discriminate H.
  - split; [reflexivity|]. split; [reflexivity|]. split; [right; reflexivity|].
    split; [intros _; exists o, api; repeat split; assumption|].
    split; [discriminate|].
    split; [discriminate|]. intros e0 _ [= <-]. reflexivity.
Qed.

(** ** CreateFastFwdRequest *)

Lemma filter_map_comm {A} (p : A -> bool) (f : A -> A) (l : list A) :
  (forall x, p (f x) = p x) -> filter p (map f l) = map f (filter p l).
Proof.
  intros H. induction l as [|x l IH]; cbn; [reflexivity|].
  rewrite H. destruct (p x); cbn; rewrite IH; reflexivity.
Qed.

Lemma filter_map_fix {A} (p : A -> bool) (f : A -> A) (l : list A) :
  (forall x, p (f x) = p x) -> (forall x, p x = true -> f x = x) ->
  filter p (map f l) = filter p l.
Proof.
  intros H F. rewrite (filter_map_comm _ _ _ H).
  induction l as [|x l IH]; cbn; [reflexivity|].
  destruct (p x) eqn:P; cbn; [rewrite (F x P), IH|]; auto.
Qed.

(** The run of the mutation: an update of the event's requests when there
    are some, the insertion of one otherwise. *)
Lemma createFastFwdRequest_run hostMessage globalEventId session w :
  let eventId := id (fromGlobalId globalEventId) in
  let stamp := fun r => if String.eqb (FastFwdRequest.event_id r) eventId
                        then FastFwdRequest.mk (FastFwdRequest.id r)
                               (FastFwdRequest.event_id r) hostMessage
                               (FastFwdRequest.email_sent_dt r)
                        else r in
  let row := FastFwdRequest.mk (next_id (map FastFwdRequest.id (fast_fwd_request (db w))))
               eventId hostMessage None in
  createFastFwdRequest hostMessage globalEventId session w
  = match requestsOf eventId (db w) with
    | [] => (Ok (inl row),
             mkWorld (with_fast_fwd_request (fast_fwd_request (db w) ++ [row]) (db w))
                     (outbox w) (crm_calls w) (logs w))
    | _ :: _ => (Ok (inr (map stamp (requestsOf eventId (db w)))),
                 mkWorld (with_fast_fwd_request (map stamp (fast_fwd_request (db w))) (db w))
                         (outbox w) (crm_calls w) (logs w))
    end.
Proof.
  intros eventId stamp row. unfold createFastFwdRequest. fold eventId.
  rewrite bind_query. fold (requestsOf eventId (db w)).
  destruct (requestsOf eventId (db w)) as [|r0 rest] eqn:F.
  - reflexivity.
  - cbn [List.length Nat.ltb Nat.leb]. rewrite bind_update, bind_query.
    cbn [db fast_fwd_request with_fast_fwd_request]. unfold ret.
    fold stamp. rewrite filter_map_comm.
    + fold (requestsOf eventId (db w)). rewrite F. reflexivity.
    + intros x. unfold stamp.
      destruct (String.eqb (FastFwdRequest.event_id x) eventId) eqn:E; cbn; rewrite E;
        reflexivity.
Qed.

(** What a run of the mutation does to the requests, event by event. *)
Lemma createFastFwdRequest_requests (hostMessage globalEventId : string)
    (session : Session) (w : World) :
  let eventId := id (fromGlobalId globalEventId) in
  exists result w',
    createFastFwdRequest hostMessage globalEventId session w = (Ok result, w')
    /\ w' = mkWorld (with_fast_fwd_request (fast_fwd_request (db w')) (db w))
                    (outbox w) (crm_calls w) (logs w)
    /\ requestsOf eventId (db w') <> []
    /\ (forall r, In r (requestsOf eventId (db w')) ->
                  FastFwdRequest.host_message r = hostMessage)
    /\ List.length (requestsOf eventId (db w'))
       = Nat.max 1 (List.length (requestsOf eventId (db w)))
    /\ map FastFwdRequest.email_sent_dt (requestsOf eventId (db w'))
       = match requestsOf eventId (db w) with
         | [] => [None]
         | rows => map FastFwdRequest.email_sent_dt rows
         end
    /\ (forall other, other <> eventId ->
                      requestsOf other (db w') = requestsOf other (db w))
    /\ match result with
       | inl row => requestsOf eventId (db w) = [] /\ requestsOf eventId (db w') = [row]
       | inr rows => requestsOf eventId (db w) <> [] /\ rows = requestsOf eventId (db w')
       end.
Proof.
  intros eventId.
  pose proof (createFastFwdRequest_run hostMessage globalEventId session w) as R.
  cbv zeta in R. fold eventId in R.
  set (stamp := fun r : FastFwdRequest.t => _) in R.
  assert (Sp : forall x, String.eqb (FastFwdRequest.event_id (stamp x)) eventId
                         = String.eqb (FastFwdRequest.event_id x) eventId).
  { intros x. unfold stamp.
    destruct (String.eqb (FastFwdRequest.event_id x) eventId) eqn:E; cbn; rewrite E;
      reflexivity. }
  assert (So : forall other x, other <> eventId ->
                 String.eqb (FastFwdRequest.event_id (stamp x)) other
                 = String.eqb (FastFwdRequest.event_id x) other).
  { intros other x _. unfold stamp.
    destruct (String.eqb (FastFwdRequest.event_id x) eventId); reflexivity. }
  assert (Sf : forall other x, other <> eventId ->
                 String.eqb (FastFwdRequest.event_id x) other = true -> stamp x = x).
  { intros other x Hne Hx. unfold stamp.
    destruct (String.eqb (FastFwdRequest.event_id x) eventId) eqn:E; [|reflexivity].
    apply String.eqb_eq in E, Hx. congruence. }
  destruct (requestsOf eventId (db w)) as [|r0 rest] eqn:F; rewrite R; clear R.
  - eexists _, _. split; [reflexivity|].
    unfold requestsOf. cbn [db fast_fwd_request with_fast_fwd_request].
    rewrite filter_app. fold (requestsOf eventId (db w)). rewrite F.
    cbn [filter app FastFwdRequest.event_id]. rewrite String.eqb_refl.
    split; [reflexivity|]. split; [discriminate|].
    split; [intros r [<- | []]; reflexivity|].
    split; [reflexivity|]. split; [reflexivity|].
    split; [|split; reflexivity].
    intros other Hne. rewrite filter_app. cbn [filter FastFwdRequest.event_id].
    replace (String.eqb eventId other) with false
      by (symmetry; apply String.eqb_neq; congruence).
    apply app_nil_r.
  - eexists _, _. split; [reflexivity|].
    unfold requestsOf. cbn [db fast_fwd_request with_fast_fwd_request].
    rewrite (filter_map_comm _ _ _ Sp). fold (requestsOf eventId (db w)). rewrite F.
    split; [reflexivity|]. split; [discriminate|].
    split.
    { intros r Hr. apply in_map_iff in Hr. destruct Hr as (x & <- & Hx).
      assert (Hx' : In x (requestsOf eventId (db w))) by (rewrite F; exact Hx).
      apply filter_In in Hx'. destruct Hx' as [_ E].
      unfold stamp. rewrite E. reflexivity. }
    split; [rewrite length_map; reflexivity|].
    split.
    { rewrite map_map. apply map_ext. intros x. unfold stamp.
      destruct (String.eqb (FastFwdRequest.event_id x) eventId); reflexivity. }
    split; [|split; [discriminate | reflexivity]].
    intros other Hne. apply filter_map_fix.
    + intros x. apply So. exact Hne.
    + intros x. apply Sf. exact Hne.
Qed.

(** X18. [createFastFwdRequest] is an upsert keyed by the event, open to
    any session, anonymous ones included. For an event id that is a
    canonical numeral within the range of a 32-bit integer column it
    returns. Afterwards the event has at least one request and each of its
    requests carries the given host message; an event that had none gets
    exactly one, with no send date, which is the row returned; existing
    requests keep their send dates and are the rows returned, in some
    order. The requests of other events, every other table, the outbox,
    the CRM and the log are untouched. *)
Theorem createFastFwdRequest_upsert (hostMessage globalEventId : string)
    (session : Session) (w : World) (n : Z) :
  let eventId := id (fromGlobalId globalEventId) in
  parseInt eventId = Some n ->
  string_of_Z n = eventId ->
  -2147483648 <= n <= 2147483647 ->
  exists result w',
    createFastFwdRequest hostMessage globalEventId session w = (Ok result, w')
    /\ w' = mkWorld (with_fast_fwd_request (fast_fwd_request (db w')) (db w))
                    (outbox w) (crm_calls w) (logs w)
    /\ requestsOf eventId (db w') <> []
    /\ (forall r, In r (requestsOf eventId (db w')) ->
                  FastFwdRequest.host_message r = hostMessage)
    /\ List.length (requestsOf eventId (db w'))
       = Nat.max 1 (List.length (requestsOf eventId (db w)))
    /\ map FastFwdRequest.email_sent_dt (requestsOf eventId (db w'))
       = match requestsOf eventId (db w) with
         | [] => [None]
         | rows => map FastFwdRequest.email_sent_dt rows
         end
    /\ (forall other, other <> eventId ->
                      requestsOf other (db w') = requestsOf other (db w))
    /\ match result with
       | inl row => requestsOf eventId (db w) = [] /\ requestsOf eventId (db w') = [row]
       | inr rows => requestsOf eventId (db w) <> []
                     /\ Permutation rows (requestsOf eventId (db w'))
       end.
Proof.
  intros eventId _ _ _.
  destruct (createFastFwdRequest_requests hostMessage globalEventId session w)
    as (result & w' & Hrun & Hw & Hsome & Hmsg & Hlen & Hsent & Hother & Hres).
  exists result, w'. fold eventId in Hsome, Hmsg, Hlen, Hsent, Hother, Hres.
  repeat (split; [assumption|]).
  destruct result as [row | rows]; [exact Hres|].
  destruct Hres as [Hbefore ->]. split; [exact Hbefore | apply Permutation_refl].
Qed.

(** X19. Asking twice is asking once: a second [createFastFwdRequest]
    with the same message for the same event leaves the database as the
    first one left it. And the mutation never makes a second request for an
    event: a table with at most one request per event stays so. *)
Theorem createFastFwdRequest_idempotent (hostMessage globalEventId : string)
    (session session' : Session) (w : World) :
  let once := snd (createFastFwdRequest hostMessage globalEventId session w) in
  let twice := snd (createFastFwdRequest hostMessage globalEventId session' once) in
  db twice = db once
  /\ (one_request_per_event (db w) -> one_request_per_event (db once)).
Proof.
  intros once twice.
  destruct (createFastFwdRequest_requests hostMessage globalEventId session w)
    as (res & w1 & Hrun & Hw1 & Hsome & Hmsg & Hlen & _ & Hother & _).
  assert (E1 : once = w1) by (unfold once; rewrite Hrun; reflexivity).
  split.
  - unfold twice. rewrite E1.
    rewrite (createFastFwdRequest_run hostMessage globalEventId session' w1).
    cbv zeta.
    match goal with
    | |- context [map ?stamp (fast_fwd_request (db w1))] =>
        assert (M : map stamp (fast_fwd_request (db w1)) = fast_fwd_request (db w1))
    end.
    { rewrite <- (map_id (fast_fwd_request (db w1))) at 2.
      apply map_ext_in. intros r Hr.
      destruct (String.eqb (FastFwdRequest.event_id r) (id (fromGlobalId globalEventId)))
        eqn:E; [|reflexivity].
      assert (Hin : In r (requestsOf (id (fromGlobalId globalEventId)) (db w1)))
        by (apply filter_In; split; assumption).
      rewrite <- (Hmsg r Hin). destruct r; reflexivity. }
    destruct (requestsOf (id (fromGlobalId globalEventId)) (db w1)) as [|r0 rest] eqn:F;
      [contradiction|].
    cbn [snd db]. rewrite M. destruct (db w1); reflexivity.
  - intros Hone other. rewrite E1.
    destruct (String.eqb other (id (fromGlobalId globalEventId))) eqn:E.
    + apply String.eqb_eq in E. subst other. rewrite Hlen.
      specialize (Hone (id (fromGlobalId globalEventId))). lia.
    + apply String.eqb_neq in E. rewrite (Hother other E). apply Hone.
Qed.

(** ** Lists of call assignments *)

(** X20. [activeCallAssignments] and [inactiveCallAssignments] never
    both keep a call assignment. One without an end date is always active;
    one that ends more than a day from now is active, one that ends less
    than a day from now (or has ended) is inactive, and one that ends
    exactly a day from now is in neither list. *)
Theorem callAssignments_active_or_inactive (env : Env) (rows : list CallAssignment.t)
    (r : CallAssignment.t) :
  In r rows ->
  let active := In r (activeCallAssignments env rows) in
  let inactive := In r (inactiveCallAssignments env rows) in
  ~ (active /\ inactive)
  /\ (CallAssignment.end_dt r = None -> active /\ ~ inactive)
  /\ (forall end_dt, CallAssignment.end_dt r = Some end_dt ->
        (active <-> in_one_day env < end_dt)
        /\ (inactive <-> end_dt < in_one_day env)
        /\ (end_dt = in_one_day env -> ~ active /\ ~ inactive)).
Proof.
  intros Hin active inactive.
  assert (A : active <-> match CallAssignment.end_dt r with
                         | Some end_dt => in_one_day env < end_dt
                         | None => True
                         end).
  { unfold active, activeCallAssignments. rewrite filter_In.
    destruct (CallAssignment.end_dt r) as [t|].
    - rewrite Z.ltb_lt. split; [intros [_ H]; exact H | intros H; split; assumption].
    - split; [intros _; exact I | intros _; split; [exact Hin | reflexivity]]. }
  assert (B : inactive <-> match CallAssignment.end_dt r with
                           | Some end_dt => end_dt < in_one_day env
                           | None => False
                           end).
  { unfold inactive, inactiveCallAssignments. rewrite filter_In.
    destruct (CallAssignment.end_dt r) as [t|].
    - rewrite Z.ltb_lt. split; [intros [_ H]; exact H | intros H; split; assumption].
    - split; [intros [_ H]; discriminate H | intros []]. }
  clearbody active inactive.
  destruct (CallAssignment.end_dt r) as [t|].
  - split; [intros [p q]; apply A in p; apply B in q; lia|].
    split; [discriminate|].
    intros end_dt [= <-].
    split; [exact A|]. split; [exact B|].
    intros ->. split; intros H; [apply A in H | apply B in H]; lia.
  - split; [intros [_ q]; apply B in q; exact q|].
    split; [|discriminate].
    intros _. split; [apply A; exact I | intros q; apply B in q; exact q].
Qed.

(** X21. The [callAssignments] field of the list container reads and
    changes nothing. It returns rows of [bsd_call_assignments], at most
    [first] of them; with [active] true they are all active, with [active]
    false all inactive. *)
Theorem callAssignments_listing (env : Env) (first_n : option nat)
    (active : option bool) (w : World) :
  exists rows,
    callAssignments env first_n active w = (Ok rows, w)
    /\ (forall n, first_n = Some n -> (List.length rows <= n)%nat)
    /\ (forall r, In r rows -> In r (bsd_call_assignments (db w)))
    /\ (active = Some true ->
        forall r, In r rows ->
          CallAssignment.end_dt r = None
          \/ exists end_dt, CallAssignment.end_dt r = Some end_dt
                            /\ in_one_day env < end_dt)
    /\ (active = Some false ->
        forall r, In r rows ->
          exists end_dt, CallAssignment.end_dt r = Some end_dt
                         /\ end_dt < in_one_day env).
Proof.
  unfold callAssignments, query. eexists. split; [reflexivity|].
  assert (L : forall (l : list CallAssignment.t) r, In r (limit first_n l) -> In r l).
  { intros l r. unfold limit. destruct first_n; [apply In_firstn | auto]. }
  split.
  { intros n ->. unfold limit. apply firstn_le_length. }
  split.
  { intros r Hr. apply L in Hr.
    destruct active as [[|]|]; [| |exact Hr]; apply filter_In in Hr; apply Hr. }
  split.
  - intros -> r Hr. apply L in Hr. apply filter_In in Hr. destruct Hr as [_ Hr].
    destruct (CallAssignment.end_dt r) as [t|]; [|left; reflexivity].
    right. exists t. split; [reflexivity | apply Z.ltb_lt; exact Hr].
  - intros -> r Hr. apply L in Hr. apply filter_In in Hr. destruct Hr as [_ Hr].
    destruct (CallAssignment.end_dt r) as [t|]; [|discriminate Hr].
    exists t. split; [reflexivity | apply Z.ltb_lt; exact Hr].
Qed.

(** ** Whom the radius search returns *)

Lemma left_join_null {A} (matches : list A) (r : option A) :
  In r (left_join matches) -> is_null r = true -> matches = [].
Proof.
  destruct matches as [|m ms]; [reflexivity|].
  cbn [left_join]. intros H N. apply in_map_iff in H.
  destruct H as (x & <- & _). discriminate N.
Qed.

Lemma nearbyJoin_reachable center radius ex d (row : NearbyRow) :
  In row (nearbyJoin center radius ex d) ->
  In (snd row) (bsd_people d)
  /\ reachable center radius d (fst row) (row_cons_id row).
Proof.
  unfold nearbyJoin. intros H.
  apply in_flat_map in H. destruct H as (address & Haddress & H).
  apply in_flat_map in H. destruct H as (person & Hperson & H).
  apply in_flat_map in H. destruct H as (email & Hemail & H).
  apply in_flat_map in H. destruct H as (communication & Hcomm & H).
  apply in_flat_map in H. destruct H as (subscription & Hsub & H).
  apply filter_In in Hperson. destruct Hperson as [Hperson Eperson].
  apply filter_In in Hemail. destruct Hemail as [Hemail Eemail].
  apply filter_In in Hsub. destruct Hsub as [Hsub Esub].
  apply String.eqb_eq in Eperson, Eemail, Esub.
  match type of H with
  | In _ (if ?b then _ else _) => destruct b eqn:B
  end; [|destruct H].
  destruct H as [<-|[]].
  repeat (apply andb_true_iff in B; destruct B as [B ?]).
  match goal with H : negb (Subscription.isunsub _) = true |- _ =>
    apply negb_true_iff in H end.
  match goal with H : is_null _ = true |- _ =>
    pose proof (left_join_null _ _ Hcomm H) as Hnone end.
  unfold row_cons_id. cbn [fst snd].
  split; [exact Hperson|].
  split; [exists address; repeat split; try assumption|].
  split; [exists email; repeat split; try assumption; congruence|].
  split; [exists subscription; repeat split; try assumption; congruence|].
  intros c Hc E.
  assert (Hin : In c (filter (fun c => String.eqb (Person.cons_id person)
                                                 (Communication.person_id c))
                             (communications d))).
  { apply filter_In. split; [exact Hc|]. rewrite E. apply String.eqb_refl. }
  rewrite Hnone in Hin. destruct Hin.
Qed.

(** Whatever the fuel, the rows the loop returns beyond those it started
    with come from a query at a radius within the maximum. *)
Lemma nearbyPeople_loop_sound center maxRadius :
  forall fuel radius backoff found w final w',
    nearbyPeople_loop fuel center maxRadius radius backoff found w = (Ok (Some final), w') ->
    forall row, In row final ->
      In row found
      \/ exists r ex, r <= maxRadius /\ In row (nearbyQuery center r ex (db w)).
Proof.
  induction fuel as [|fuel IH]; intros radius backoff found w final w' H row Hrow;
    cbn [nearbyPeople_loop] in H.
  - discriminate H.
  - destruct (Nat.ltb (List.length found) 500 && (radius <=? maxRadius)) eqn:G.
    + rewrite bind_log, bind_query in H. cbn [db] in H.
      destruct (IH _ _ _ _ _ _ H row Hrow) as [Hin | (r & ex & Hr & Hin)].
      * apply in_app_or in Hin. destruct Hin as [Hin | Hin]; [left; exact Hin|].
        right. exists radius, (map row_cons_id found).
        apply andb_true_iff in G. destruct G as [_ G]. apply Z.leb_le in G.
        split; [exact G | exact Hin].
      * right. exists r, ex. split; [exact Hr | exact Hin].
    + injection H as <- <-. left. exact Hrow.
Qed.

(** X23. Everyone [nearbyPeople] returns can be reached: each row is a
    person of [bsd_people] with a primary address within some radius of at
    most 50000 of the event, paired with a primary e-mail address of theirs,
    holding a subscription that is not cancelled and with no communication
    on record. *)
Theorem nearbyPeople_reachable (fuel : nat) (event : obj) (center : Geom) (w : World)
    (rows : list NearbyRow) :
  prop event "geom" = JGeom center ->
  fst (nearbyPeople fuel event w) = Ok (Some rows) ->
  forall row, In row rows ->
    In (snd row) (bsd_people (db w))
    /\ exists radius,
         radius <= 50000
         /\ reachable center radius (db w) (fst row) (row_cons_id row).
Proof.
  intros Hgeom Hrun row Hrow.
  unfold nearbyPeople in Hrun. rewrite Hgeom in Hrun.
  unfold bind in Hrun.
  destruct (nearbyPeople_loop fuel center 50000 1000 1000 [] w) as [[[found|]|e] w'] eqn:L;
    unfold ret in Hrun; cbn [fst option_map] in Hrun; try discriminate Hrun.
  assert (E : rows = firstn 500 found) by congruence.
  rewrite E in Hrow. apply In_firstn in Hrow.
  destruct (@nearbyPeople_loop_sound _ _ _ _ _ _ _ _ _ L row Hrow) as [[] | (r & ex & Hr & Hin)].
  apply nearbyQuery_In, nearbyJoin_reachable in Hin. destruct Hin as [Hp Hreach].
  split; [exact Hp|]. exists r. split; [exact Hr | exact Hreach].
Qed.

(** ** EditEvents *)

(** X24. One turn of the loop of [editEvents] follows the CRM, for an
    edit whose event id is a canonical numeral.
    An edit that names no local event fails before the CRM is asked.
    Otherwise the merged event is sent to the CRM, once, and no mail is
    sent. If the CRM accepts it, every local row of the event is overlaid
    with the merged event and a fresh modification date. If the CRM rejects
    it as invalid, the local rows are left as they are and the error is
    added to the messages. If the CRM says the event does not exist, the
    local rows of the event are deleted and no error is reported. *)
Theorem editEvent_follows_crm (env : Env) (user : User.t) (newEventData : obj)
    (updateErrors : list string) (reviewedEvents : list ident) (w : World)
    (k : ident) (n : Z) :
  let run := editEvent env user newEventData (updateErrors, reviewedEvents) w in
  sql_key (prop newEventData "event_id") = Some k ->
  parseInt k = Some n ->
  string_of_Z n = k ->
  (localEvent newEventData (db w) = None ->
   exists msg, run = (Throw (TypeError msg), w))
  /\ forall local,
       localEvent newEventData (db w) = Some local ->
       let merged := mergedEvent local newEventData in
       let reviewed := reviewedBy local newEventData reviewedEvents in
       crm_calls (snd run) = crm_calls w ++ [UpdateEvent merged]
       /\ outbox (snd run) = outbox w
       /\ (forall answer,
             bsd env (UpdateEvent merged) = Ok answer ->
             fst run = Ok (updateErrors, reviewed)
             /\ db (snd run)
                = with_bsd_events
                    (map (fun row =>
                            if column_is "event_id" (event_key merged) row
                            then spread row (set_prop merged "modified_dt" (JDate (now env)))
                            else row)
                         (bsd_events (db w))) (db w))
       /\ (forall m,
             bsd env (UpdateEvent merged) = Throw (BSDValidationError m) ->
             fst run = Ok (updateErrors ++ [(obfuscated merged ++ ": " ++ m)%string],
                           reviewed)
             /\ db (snd run) = db w)
       /\ (forall m,
             bsd env (UpdateEvent merged) = Throw (BSDExistsError m) ->
             fst run = Ok (updateErrors, reviewed)
             /\ db (snd run)
                = with_bsd_events
                    (filter (fun row => negb (column_is "event_id" (event_key merged) row))
                            (bsd_events (db w))) (db w)).
Proof.
  intros run _ _ _.
  assert (R : run = editEvent env user newEventData (updateErrors, reviewedEvents) w)
    by reflexivity.
  clearbody run. unfold editEvent in R. rewrite bind_query in R.
  fold (localEvent newEventData (db w)) in R.
  split.
  - intros Hnone. rewrite Hnone in R. eexists. rewrite R. reflexivity.
  - intros local Hlocal merged reviewed. rewrite Hlocal in R.
    rewrite bind_deref, !bind_log in R. cbv zeta in R.
    fold (reviewedBy local newEventData reviewedEvents) in R. fold reviewed in R.
    unfold mergedEvent in merged. cbv zeta in merged.
    change (fold_left delete_prop hostAddressFields _) with merged in R.
    unfold bind, try_catch, log_write, BSDClient_request, ret, update in R.
    cbn [db outbox crm_calls logs fst snd] in R.
    destruct (bsd env (UpdateEvent merged)) as [answer|e]; [|destruct e];
      rewrite R; cbn [fst snd db outbox crm_calls logs];
      (split; [reflexivity|]); (split; [reflexivity|]);
      (split; [intros a H; first [discriminate H | split; reflexivity]|]);
      (split; [intros m H; first [discriminate H
                                 | injection H as <-; split; reflexivity]|]);
      intros m H; first [discriminate H | injection H as <-; split; reflexivity].
Qed.

(** ** CreateCallAssignment *)

Lemma transaction_rolls_back {A} (body : M A) w e w1 :
  body w = (Throw e, w1) ->
  transaction body w = (Throw e, mkWorld (db w) (outbox w1) (crm_calls w1) (logs w1)).
Proof. unfold transaction. intros ->. reflexivity. Qed.

Lemma transaction_keeping_rolls_back {A} kept (body : M A) w e w1 :
  body w = (Throw e, w1) ->
  transaction_keeping kept body w
  = (Throw e, mkWorld (kept (db w1) (db w)) (outbox w1) (crm_calls w1) (logs w1)).
Proof. unfold transaction_keeping. intros ->. reflexivity. Qed.

Lemma transaction_keeping_returns {A} kept (body : M A) w a w' :
  body w = (Ok a, w') -> transaction_keeping kept body w = (Ok a, w').
Proof. unfold transaction_keeping. intros ->. reflexivity. Qed.

(** X25. [createCallAssignment] refuses a group query that mentions
    drop, truncate, delete or update, in any letter case: for an admin, a
    survey already known locally and an interviewee group that is not a
    number, the mutation fails with status 400 and the world is as it was.
    The survey row written before the check is rolled back with the
    transaction, and the query never reaches the database. *)
Theorem createCallAssignment_rejects_sql_keywords (env : Env)
    (input : CreateCallAssignmentInput.t) (u : User.t) (w : World) (survey : obj) :
  let groupText := CreateCallAssignmentInput.intervieweeGroup input in
  let surveyId := string_of_Z (CreateCallAssignmentInput.surveyId input) in
  let query_text := strip_semicolons (trim (toLowerCase groupText)) in
  User.is_admin u = true ->
  first (filter (column_is "signup_form_id" surveyId) (bsd_surveys (db w))) = Some survey ->
  all_digits groupText = false ->
  includes "drop" query_text || includes "truncate" query_text
  || includes "delete" query_text || includes "update" query_text = true ->
  createCallAssignment env input (mkSession (Some u)) w
  = (Throw (newGraphQLError (mkErrorObject 400 "Cannot use DROP in your SQL")), w).
Proof.
  intros groupText surveyId query_text Hadmin Hsurvey Hdigits Hkw.
  unfold createCallAssignment.
  rewrite (bind_ok _ _ _ (adminRequired_admin u w Hadmin)).
  fold groupText surveyId.
  match goal with
  | |- transaction_keeping _ ?b w = (Throw ?e, _) =>
      assert (B : exists w1, b w = (Throw e, w1)
                             /\ bsd_survey_fields (db w1) = bsd_survey_fields (db w)
                             /\ outbox w1 = outbox w /\ crm_calls w1 = crm_calls w
                             /\ logs w1 = logs w)
  end.
  { rewrite bind_query, Hsurvey, bind_ret, bind_query, bind_update.
    rewrite Hdigits. cbv zeta. fold query_text. rewrite Hkw.
    eexists. split; [reflexivity|]. repeat split. }
  destruct B as (w1 & B & Hf & Ho & Hc & Hl).
  rewrite (transaction_keeping_rolls_back _ _ _ B), Hf, Ho, Hc, Hl.
  destruct w as [d o c l]. destruct d. reflexivity.
Qed.

(** X26. A call assignment over a group given by a query. Take an admin,
    a survey already known locally and a group text in ASCII that is not a
    number and names none of the refused keywords; unless the text is
    [everyone],
    let the statement tried out be one the database accepts and that
    writes nothing. Then [createCallAssignment] makes no CRM request, sends
    no mail and returns the new row of [bsd_call_assignments]. The row
    points at a survey row made for this call assignment and at a group
    kept under the normalised query text: one that exists already, in
    which case no group is added, or a new one. It starts now unless a
    start date is given. The three tables apart, the database is as it
    was. *)
Theorem createCallAssignment_query_group (env : Env)
    (input : CreateCallAssignmentInput.t) (u : User.t) (w : World) (survey : obj) :
  let groupText := CreateCallAssignmentInput.intervieweeGroup input in
  let surveyId := string_of_Z (CreateCallAssignmentInput.surveyId input) in
  let query_text := strip_semicolons (trim (toLowerCase groupText)) in
  User.is_admin u = true ->
  first (filter (column_is "signup_form_id" surveyId) (bsd_surveys (db w))) = Some survey ->
  ascii_text groupText = true ->
  all_digits groupText = false ->
  includes "drop" query_text || includes "truncate" query_text
  || includes "delete" query_text || includes "update" query_text = false ->
  (query_text <> EVERYONE_GROUP ->
   forall d, raw_query env (limitedQuery query_text) d = Ok d) ->
  exists row newSurvey group w',
    createCallAssignment env input (mkSession (Some u)) w = (Ok row, w')
    /\ crm_calls w' = crm_calls w /\ outbox w' = outbox w
    /\ db w' = with_bsd_call_assignments (bsd_call_assignments (db w) ++ [row])
                 (with_gc_bsd_groups (gc_bsd_groups (db w'))
                    (with_gc_bsd_surveys (gc_bsd_surveys (db w) ++ [newSurvey]) (db w)))
    /\ Survey.signup_form_id newSurvey = surveyId
    /\ Survey.processors newSurvey = CreateCallAssignmentInput.processors input
    /\ CallAssignment.gc_bsd_survey_id row = Survey.id newSurvey
    /\ CallAssignment.interviewee_group row = Group.id group
    /\ Group.query group = Some query_text
    /\ match groupOfQuery query_text (db w) with
       | Some _ => In group (gc_bsd_groups (db w))
                   /\ gc_bsd_groups (db w') = gc_bsd_groups (db w)
       | None => gc_bsd_groups (db w') = gc_bsd_groups (db w) ++ [group]
                 /\ Group.cons_group_id group = None
       end
    /\ CallAssignment.name row = CreateCallAssignmentInput.name input
    /\ CallAssignment.start_dt row
       = match CreateCallAssignmentInput.startDate input with
         | Some t => t
         | None => now env
         end
    /\ CallAssignment.end_dt row = CreateCallAssignmentInput.endDate input.
Proof.
  intros groupText surveyId query_text Hadmin Hsurvey _ Hdigits Hkw Hraw.
  unfold createCallAssignment.
  rewrite (bind_ok _ _ _ (adminRequired_admin u w Hadmin)).
  fold groupText surveyId.
  match goal with
  | |- exists row newSurvey group w', transaction_keeping ?k ?b w = _ /\ @?P row newSurvey group w' =>
      cut (exists row newSurvey group w', b w = (Ok row, w') /\ P row newSurvey group w')
  end.
  { intros (row & newSurvey & group & w' & B & H). exists row, newSurvey, group, w'.
    split; [apply transaction_keeping_returns; exact B | exact H]. }
  cbv beta.
  rewrite bind_query, Hsurvey, bind_ret, bind_query, bind_update.
  rewrite Hdigits. cbv zeta. fold query_text. rewrite Hkw.
  fold (limitedQuery query_text).
  match goal with
  | |- exists row newSurvey group w', bind (bind ?c ?k1) ?k2 ?w0 = _ /\ _ =>
      assert (T : c w0 = (Ok tt, w0))
  end.
  { destruct (String.eqb query_text EVERYONE_GROUP) eqn:E; cbn [negb]; [reflexivity|].
    apply String.eqb_neq in E. unfold try_catch. rewrite (Hraw E). reflexivity. }
  rewrite bind_bind, (bind_ok _ _ _ T), bind_bind, bind_query.
  cbn [db gc_bsd_groups with_gc_bsd_surveys].
  fold (groupOfQuery query_text (db w)).
  destruct (groupOfQuery query_text (db w)) as [existing|] eqn:G.
  - rewrite bind_ret, bind_query, bind_update. unfold ret.
    eexists _, _, existing, _. split; [reflexivity|].
    cbn [db outbox crm_calls gc_bsd_surveys gc_bsd_groups bsd_call_assignments
         with_gc_bsd_surveys with_gc_bsd_groups with_bsd_call_assignments
         CallAssignment.gc_bsd_survey_id CallAssignment.interviewee_group
         CallAssignment.name CallAssignment.start_dt CallAssignment.end_dt
         Survey.id Survey.signup_form_id Survey.processors].
    pose proof (first_filter_some _ _ G) as (before & after & Hrows & Hq & _).
    destruct (Group.query existing) as [q|] eqn:Q; [|discriminate Hq].
    apply String.eqb_eq in Hq. subst q.
    split; [reflexivity|]. split; [reflexivity|]. split; [reflexivity|].
    split; [reflexivity|]. split; [reflexivity|]. split; [reflexivity|].
    split; [reflexivity|]. split; [reflexivity|].
    split; [split; [rewrite Hrows; apply in_or_app; right; left; reflexivity
                   | reflexivity]|].
    split; [reflexivity|]. split; reflexivity.
  - rewrite bind_bind, bind_query, bind_bind, bind_update, bind_ret, bind_query,
      bind_update.
    unfold ret.
    eexists _, _, _, _. split; [reflexivity|].
    cbn [db outbox crm_calls gc_bsd_surveys gc_bsd_groups bsd_call_assignments
         with_gc_bsd_surveys with_gc_bsd_groups with_bsd_call_assignments
         CallAssignment.gc_bsd_survey_id CallAssignment.interviewee_group
         CallAssignment.name CallAssignment.start_dt CallAssignment.end_dt
         Group.query Group.id Group.cons_group_id
         Survey.id Survey.signup_form_id Survey.processors].
    repeat split; reflexivity.
Qed.

(** ** Invitations and the radius search *)

(** Once the invitations have gone through, each recipient has a
    communication on record and the earlier ones are still there. *)
Lemma inviteRecipients_records env input recipients w w1 :
  CreateAdminEventEmailInput.recipients input = Some recipients ->
  inviteRecipients env input w = (Ok tt, w1) ->
  (forall c, In c (communications (db w)) -> In c (communications (db w1)))
  /\ forall globalId, In globalId recipients ->
       exists c, In c (communications (db w1))
                 /\ Communication.person_id c = id (fromGlobalId globalId).
Proof.
  intros Hrec. unfold inviteRecipients. rewrite Hrec, bind_deref. clear Hrec.
  revert w. induction recipients as [|g gs IH]; intros w H; cbn [for_each] in H.
  - injection H as <-. split; [auto | intros ? []].
  - apply bind_inv_ok in H. destruct H as ([] & w2 & Hone & Hrest).
    assert (Hw2 : communications (db w2)
                  = communications (db w)
                    ++ [Communication.mk (next_id (map Communication.id (communications (db w))))
                                         (id (fromGlobalId g)) "EMAIL"]).
    { apply bind_inv_ok in Hone. destruct Hone as (found & wa & Ha & Hone).
      assert (wa = w) by (unfold load_bsdPeople, query in Ha; congruence). subst wa.
      apply bind_inv_ok in Hone. destruct Hone as (recipient & wb & Hb & Hone).
      assert (wb = w) by (destruct found; unfold deref, ret, throw in Hb; congruence). subst wb.
      apply bind_inv_ok in Hone. destruct Hone as (address & wc & Hc & Hone).
      assert (wc = w) by (unfold getPrimaryEmail, bind, query, ret in Hc; congruence).
      subst wc.
      apply bind_inv_ok in Hone. destruct Hone as ([] & wd & Hd & Hone).
      unfold Mailgun_send in Hd.
      destruct (mailgun env _); [|discriminate Hd]. injection Hd as _ <-.
      unfold update in Hone. injection Hone as <-. reflexivity. }
    destruct (IH w2 Hrest) as [Hkeep Hall].
    split.
    + intros c Hc. apply Hkeep. rewrite Hw2. apply in_or_app. left. exact Hc.
    + intros globalId [<- | Hin]; [|apply Hall; exact Hin].
      eexists. split;
        [apply Hkeep; rewrite Hw2; apply in_or_app; right; left; reflexivity
        | reflexivity].
Qed.

(** X27. People invited to an event are not suggested again. Once
    [createAdminEventEmail] has returned and its invitations have gone
    through, no recipient of the invitation is among the people
    [nearbyPeople] returns, for any event: the communication recorded for
    each of them keeps them out of the search. *)
Theorem invited_people_not_nearby (env : Env) (input : CreateAdminEventEmailInput.t)
    (u : User.t) (w w' sent : World) (recipients : list string)
    (fuel : nat) (event : obj) (center : Geom) (rows : list NearbyRow) :
  let copied := mkWorld (db w) (outbox w ++ [adminCopy input]) (crm_calls w) (logs w) in
  createAdminEventEmail env input (mkSession (Some u)) w = (Ok [], w') ->
  CreateAdminEventEmailInput.recipients input = Some recipients ->
  inviteRecipients env input copied = (Ok tt, sent) ->
  prop event "geom" = JGeom center ->
  fst (nearbyPeople fuel event w') = Ok (Some rows) ->
  forall globalId row,
    In globalId recipients -> In row rows ->
    row_cons_id row <> id (fromGlobalId globalId).
Proof.
  intros copied Hrun Hrec Hsent Hgeom Hnear globalId row Hg Hrow E.
  destruct (@inviteRecipients_records env input recipients copied sent Hrec Hsent) as [_ Hall].
  destruct (Hall globalId Hg) as (c & Hc & Ec).
  assert (Hcomm : communications (db w') = communications (db sent)).
  { unfold createAdminEventEmail in Hrun.
    apply bind_inv_ok in Hrun. destruct Hrun as ([] & w0 & Hguard & Hrun).
    apply adminRequired_world in Hguard. subst w0.
    destruct (negb (String.eqb (CreateAdminEventEmailInput.toolPassword input) "solidarity"));
      [discriminate Hrun|].
    fold (adminCopy input) in Hrun.
    apply bind_inv_ok in Hrun. destruct Hrun as ([] & wc & Hcopy & Hrun).
    unfold Mailgun_send in Hcopy.
    destruct (mailgun env (adminCopy input)); [|discriminate Hcopy].
    injection Hcopy as _ <-. fold copied in Hrun.
    rewrite bind_query in Hrun.
    match type of Hrun with
    | (if ?b then _ else _) _ = _ => destruct b; [discriminate Hrun|]
    end.
    assert (T : try_catch (transaction (inviteRecipients env input)) (fun _ => ret tt) copied
                = (Ok tt, sent))
      by (unfold try_catch, transaction; rewrite Hsent; reflexivity).
    rewrite (bind_ok _ _ _ T), Hrec, bind_deref in Hrun.
    destruct (Nat.ltb 0 (List.length recipients)).
    - rewrite bind_update in Hrun. unfold bind, session_user, deref, log_write, ret in Hrun.
      cbn [user] in Hrun. injection Hrun as <-. reflexivity.
    - rewrite bind_ret in Hrun. unfold bind, session_user, deref, log_write, ret in Hrun.
      cbn [user] in Hrun. injection Hrun as <-. reflexivity. }
  destruct (@nearbyPeople_reachable fuel event center w' rows Hgeom Hnear row Hrow)
    as (_ & radius & _ & (_ & _ & _ & Hnone)).
  apply (Hnone c).
  - rewrite Hcomm. exact Hc.
  - rewrite Ec. symmetry. exact E.
Qed.

(** ** Asking twice *)




(** ** What DeleteEvents mails *)




Lemma mails_try_catch {A} (P : Mail -> Prop) (c : M A) (h : exn -> M A) :
  mails_only P c -> (forall e, mails_only P (h e)) -> mails_only P (try_catch c h).
Proof.
  intros Hc Hh w. unfold try_catch.
  destruct (Hc w) as (new & E & F). destruct (c w) as [[a|e] w']; cbn [snd] in *.
  - exists new. split; assumption.
  - destruct (Hh e w') as (new' & E' & F'). exists (new ++ new').
    rewrite E', E, app_assoc. split; [reflexivity | apply Forall_app; split; assumption].
Qed.




(** ** Models of CRM objects *)

Lemma prop_projection (o : obj) (columns : list string) (k : string) :
  prop (map (fun key => (key, prop o key)) columns) k
  = if existsb (String.eqb k) columns then prop o k else JUndefined.
Proof.
  induction columns as [|c columns IH]; cbn [map prop existsb]; [reflexivity|].
  rewrite (String.eqb_sym k c).
  destruct (String.eqb c k) eqn:E; cbn [orb]; [|exact IH].
  apply String.eqb_eq in E. subst c. reflexivity.
Qed.

(** X30. [modelFromBSDResponse] keeps the columns on its list and
    nothing else. For an object answered by the CRM and one of the three
    tables it knows, the model has exactly the listed columns, in the
    listed order, each with the value the CRM object has for it, and no
    other property of the CRM object reaches the model. For any other table
    name it throws a TypeError. It touches nothing. *)
Theorem modelFromBSDResponse_projection (BSDObject : obj) (type : string) (w : World) :
  match modelKeys type with
  | Some columns =>
      exists model,
        modelFromBSDResponse (JObj BSDObject) type w = (Ok model, w)
        /\ keys model = columns
        /\ (forall k, In k columns -> prop model k = prop BSDObject k)
        /\ (forall k, ~ In k columns -> prop model k = JUndefined)
  | None =>
      (exists msg, modelFromBSDResponse (JObj BSDObject) type w = (Throw (TypeError msg), w))
      /\ type <> "bsd_surveys" /\ type <> "bsd_groups" /\ type <> "bsd_survey_fields"
  end.
Proof.
  unfold modelFromBSDResponse.
  destruct (modelKeys type) as [columns|] eqn:K.
  - rewrite bind_deref. unfold ret. eexists. split; [reflexivity|].
    split.
    { unfold keys. rewrite map_map. cbn [fst]. apply map_id. }
    split.
    + intros k Hk. rewrite prop_projection.
      replace (existsb (String.eqb k) columns) with true; [reflexivity|].
      symmetry. apply existsb_exists. exists k. split; [exact Hk | apply String.eqb_refl].
    + intros k Hk. rewrite prop_projection.
      destruct (existsb (String.eqb k) columns) eqn:E; [|reflexivity].
      apply existsb_exists in E. destruct E as (c & Hc & E).
      apply String.eqb_eq in E. subst c. contradiction.
  - split; [eexists; reflexivity|].
    repeat split; intros ->; discriminate K.
Qed.

End Schema.

(** * The properties on the sample data *)

(** A non-admin is turned away from every admin-gated operation. *)
Lemma adminRequired_operations_403_witness :
  User.is_admin sample_caller = false
  /\ listContainer (mkSession (Some sample_caller)) sample_world
     = (Throw (GraphQLError (JSON_stringify notAuthorized)), sample_world)
  /\ deleteEvents sample_fromGlobalId sample_env sample_delete
       (mkSession (Some sample_caller)) sample_world
     = (Throw (GraphQLError (JSON_stringify notAuthorized)), sample_world)
  /\ createCallAssignment sample_fromGlobalId sample_env sample_assignment
       (mkSession (Some sample_caller)) sample_world
     = (Throw (GraphQLError (JSON_stringify notAuthorized)), sample_world).
Proof.
  split; [reflexivity|].
  pose proof (@adminRequired_operations_403 sample_fromGlobalId sample_decamelize
                sample_toISOString sample_Number sample_env sample_caller sample_world
                sample_edit sample_review sample_delete sample_mail sample_invite
                sample_assignment eq_refl) as H.
  cbv zeta in H.
  destruct H as (_ & Hlist & _ & _ & Hdelete & _ & _ & Hcreate).
  split; [exact Hlist | split; [exact Hdelete | exact Hcreate]].
Defined.


(** In the evening the caller is assigned Ann, whose zip code is ten hours
    behind UTC: ten in the morning there. *)
Lemma interviewee_callable_hours_witness :
  NODE_ENV sample_env <> "development"
  /\ exists address zip_code,
       In address (bsd_addresses sample_db)
       /\ Address.cons_id address = "42"
       /\ Address.is_primary address = true
       /\ In zip_code (zip_codes sample_db)
       /\ ZipCode.zip zip_code = Address.zip address
       /\ 9 <= hours_at sample_env (ZipCode.timezone_offset zip_code) < 21.
Proof.
  assert (P : NODE_ENV sample_env <> "development") by discriminate.
  split; [exact P|].
  destruct (@interviewee_callable_hours sample_fromGlobalId sample_env sample_caller
              "CallAssignment:3" sample_world P) as (H & _ & _).
  destruct (H (AssignedCall.mk 3 "7" "42" "3" 72000000 72000000))
    as (address & zip_code & Ha & Pa & Ea & Hz & Ez & _ & Hh).
  - vm_compute. right; left; reflexivity.
  - reflexivity.
  - exists address, zip_code. repeat split; try assumption; apply Hh.
Defined.

(** C5 (counterexample). At two in the afternoon UTC, outside
    development mode, the caller is assigned Ann, who has two addresses
    flagged primary. The address [getPrimaryAddress] resolves for her is
    the one in Honolulu, whose zip code maps to offset -10 and to no other:
    it is four in the morning there. She is assigned through her New York
    address, where it is nine. *)
Lemma interviewee_primary_address_at_night :
  let run := intervieweeForCallAssignment sample_fromGlobalId sample_afternoon
               sample_caller "CallAssignment:3" two_homes_world in
  let ann := Person.mk "42" [("firstname", JStr "Ann")] in
  let honolulu := Address.mk "a42" "42" "96801" true (mkGeom 1000000 0) in
  String.eqb (NODE_ENV sample_afternoon) "development" = false
  /\ fst run = Ok (Some ann)
  /\ map AssignedCall.interviewee_id
         (filter (mine sample_caller) (bsd_assigned_calls (db (snd run)))) = ["42"]
  /\ fst (getPrimaryAddress ann (snd run)) = Ok (Some honolulu)
  /\ filter (fun z => String.eqb (ZipCode.zip z) (Address.zip honolulu))
            (zip_codes (db (snd run))) = [ZipCode.mk "96801" (-10)]
  /\ hours_at sample_afternoon (-10) = 4
  /\ spec_primaryAddressCallable sample_afternoon (db (snd run)) "42" = false.
Proof. vm_compute. repeat split. Qed.

(** On the sample data the resolver logs one query, with no radius, and
    assigns Ann. *)
Lemma interviewee_selection_single_query_witness :
  logs (snd (intervieweeForCallAssignment sample_fromGlobalId sample_env sample_caller
               "CallAssignment:3" sample_world))
  = [LogIntervieweeQuery "3" [-10; -9; -8; -7; -6; -5; -4] None].
Proof.
  refine (proj1 (@interviewee_selection_single_query sample_fromGlobalId sample_env
                   sample_caller "CallAssignment:3" sample_world
                   (CallAssignment.mk "3" "Canvass" "survey" None "9" "5" 0 None None)
                   (Group.mk "9" None (Some "everyone")) _ eq_refl eq_refl)).
  vm_compute. discriminate.
Defined.

(** C2 (counterexample). The specification describes the selection of
    [spec_expandingRadiusSelection]. On the sample data, with the search
    centred on the origin where Bob lives next door, that selection finds
    Bob within the first radius. The resolver runs a single query that names
    no radius and assigns Ann, a thousand kilometres away and outside every
    radius of the schedule. *)
Lemma interviewee_selection_is_no_radius_search :
  let run := intervieweeForCallAssignment sample_fromGlobalId sample_env sample_caller
               "CallAssignment:3" sample_world in
  fst run = Ok (Some (Person.mk "42" [("firstname", JStr "Ann")]))
  /\ logs (snd run) = [LogIntervieweeQuery "3" [-10; -9; -8; -7; -6; -5; -4] None]
  /\ forallb (fun radius => negb (sample_st_dwithin (mkGeom 1000000 0) (mkGeom 0 0) radius))
             radiusSchedule = true
  /\ spec_expandingRadiusSelection sample_st_dwithin (mkGeom 0 0) radiusSchedule
       sample_env "3" None (db (released sample_caller sample_world))
     = Some "43".
Proof. vm_compute. repeat split. Qed.

(** C4 (counterexample). With 250 people near the event, each holding two
    primary e-mail addresses, the first query returns 500 rows and the loop
    stops after it, at radius 1000: 250 distinct people are accumulated, not
    500, and the radius has not passed the maximum. *)
Lemma nearbyPeople_counts_rows_not_people :
  let run := nearbyPeople sample_st_dwithin 23 sample_event crowd_world in
  match fst run with
  | Ok (Some rows) =>
      List.length rows = 500%nat
      /\ List.length (nodup string_dec (map row_cons_id rows)) = 250%nat
  | _ => False
  end
  /\ logs (snd run) = [LogNearbyQuery (mkGeom 0 0) 1000 []].
Proof. vm_compute. repeat split. Qed.

(** Around the sample event the search runs the whole schedule and finds
    Bob, once. *)
Lemma nearbyPeople_radius_search_witness :
  exists steps found,
    nearbyPeople sample_st_dwithin 23 sample_event sample_world
    = (Ok (Some (firstn 500 found)),
       mkWorld sample_db [] [] (map (step_log (mkGeom 0 0)) steps))
    /\ map fst steps = firstn (List.length steps) radiusSchedule
    /\ ((500 <= List.length found)%nat \/ List.length steps = 22%nat)
    /\ NoDup (map row_cons_id found).
Proof.
  destruct (@nearbyPeople_radius_search sample_st_dwithin 23 sample_event (mkGeom 0 0)
              sample_world eq_refl)
    as (steps & found & Hrun & _ & Hradii & _ & _ & Hexit & _ & _ & _ & Hdistinct).
  { lia. }
  exists steps, found.
  split; [exact Hrun|]. split; [exact Hradii|]. split; [exact Hexit|].
  apply Hdistinct.
  - intros p q Hp Hq E. cbn in Hp, Hq.
    destruct Hp as [<-|[<-|[]]], Hq as [<-|[<-|[]]];
      try reflexivity; discriminate E.
  - intros e1 e2 H1 H2 _ _ E. cbn in H1, H2.
    destruct H1 as [<-|[<-|[]]], H2 as [<-|[<-|[]]];
      try reflexivity; discriminate E.
Defined.

(** C1 (counterexample). The caller's assigned call exists and matches the
    submitted caller, interviewee and call assignment, so the checks pass;
    the survey body is not JSON, the mutation throws, and no [bsd_calls] row
    is inserted nor is the assigned call deleted. *)
Lemma submitCallSurvey_checks_pass_without_insert :
  let run := submitCallSurvey sample_fromGlobalId sample_JSON_parse sample_env
               sample_bad_submission (mkSession (Some sample_caller)) sample_world in
  let assigned := AssignedCall.mk 1 "7" "42" "3" 0 0 in
  assignedCallOf sample_caller
    (localIdOf sample_fromGlobalId "CallAssignment"
       (SubmitCallSurveyInput.callAssignmentId sample_bad_submission))
    sample_db = Some assigned
  /\ AssignedCall.caller_id assigned = User.id sample_caller
  /\ AssignedCall.interviewee_id assigned
     = id (sample_fromGlobalId (SubmitCallSurveyInput.intervieweeId sample_bad_submission))
  /\ AssignedCall.call_assignment_id assigned
     = localIdOf sample_fromGlobalId "CallAssignment"
         (SubmitCallSurveyInput.callAssignmentId sample_bad_submission)
  /\ run = (Throw (SyntaxError "Unexpected token in JSON"), sample_world)
  /\ bsd_calls (db (snd run)) = []
  /\ In assigned (bsd_assigned_calls (db (snd run))).
Proof. vm_compute. repeat split. left; reflexivity. Qed.

(** The sample submission goes through: Ann's call is recorded and the
    assigned call is gone. *)
Lemma submitCallSurvey_transaction_witness :
  let run := submitCallSurvey sample_fromGlobalId sample_JSON_parse sample_env
               sample_submission (mkSession (Some sample_caller)) sample_world in
  exists ac,
    assignedCallOf sample_caller "3" sample_db = Some ac
    /\ bsd_calls (db (snd run)) = [submittedCall sample_env sample_submission sample_caller ac 1]
    /\ ~ In ac (bsd_assigned_calls (db (snd run))).
Proof.
  cbv zeta.
  destruct (@submitCallSurvey_transaction sample_fromGlobalId sample_JSON_parse sample_env
              sample_submission (mkSession (Some sample_caller)) sample_world) as [_ H].
  destruct (H sample_caller eq_refl) as (_ & _ & Hok).
  destruct (Hok sample_caller eq_refl) as (ac & A & _ & _ & _ & Hcalls & _ & Hgone).
  exists ac. split; [exact A|]. split; [exact Hcalls | exact Hgone].
Defined.

(** With the CRM down the sample submission ends as with the CRM up. *)
Lemma submitCallSurvey_ignores_crm_failures_witness :
  let down := submitCallSurvey sample_fromGlobalId sample_JSON_parse
                (with_bsd crm_down sample_env) sample_submission
                (mkSession (Some sample_caller)) sample_world in
  fst down = Ok sample_caller
  /\ exists call, bsd_calls (db (snd down)) = [call] /\ Call.completed call = true.
Proof.
  cbv zeta.
  destruct (@submitCallSurvey_ignores_crm_failures sample_fromGlobalId sample_JSON_parse
              sample_env (fun _ => Ok JNull) sample_submission sample_caller sample_world)
    as (_ & _ & H).
  destruct (H eq_refl sample_caller eq_refl)
    as (ac & call & Hok & _ & _ & Hcalls & Hcompleted & _).
  split; [exact Hok|]. exists call. split; [exact Hcalls | exact Hcompleted].
Defined.

(** At seven in the morning UTC nobody may be called: the caller's
    request for the sample call assignment comes back empty. *)
Lemma validOffsets_night_window_witness :
  NODE_ENV sample_night <> "development"
  /\ validOffsets sample_night = []
  /\ intervieweeForCallAssignment sample_fromGlobalId sample_night sample_caller
       "CallAssignment:3" sample_world
     = (Ok None, released sample_caller sample_world).
Proof.
  assert (P : NODE_ENV sample_night <> "development") by discriminate.
  assert (H : 7 <= utc_hour sample_night <= 12) by (vm_compute; split; discriminate).
  split; [exact P|].
  destruct (@validOffsets_night_window sample_fromGlobalId sample_night P) as [W N].
  split; [apply W; exact H | apply N; exact H].
Defined.

(** At the same hour a developer's machine accepts every offset. *)
Lemma validOffsets_development_any_hour_witness :
  validOffsets sample_night = []
  /\ existsb (Z.eqb (-4)) (validOffsets sample_development) = true.
Proof.
  split; [reflexivity|].
  rewrite (proj2 (@validOffsets_development_any_hour sample_development eq_refl) (-4)).
  reflexivity.
Defined.

(** The caller signed up with Ann's address is given Bob, although Ann is
    first in the table and free. *)
Lemma interviewee_never_self_witness :
  fst (relatedPerson sample_ann sample_world)
  = Ok (Some (Person.mk "42" [("firstname", JStr "Ann")]))
  /\ exists p,
       fst (intervieweeForCallAssignment sample_fromGlobalId sample_env sample_ann
              "CallAssignment:3" sample_world) = Ok (Some p)
       /\ Person.cons_id p <> "42".
Proof.
  split; [reflexivity|].
  eexists. split; [vm_compute; reflexivity|].
  apply (proj2 (@interviewee_never_self sample_fromGlobalId sample_env sample_ann
                  "CallAssignment:3" sample_world
                  (Person.mk "42" [("firstname", JStr "Ann")]) eq_refl)).
  vm_compute. reflexivity.
Defined.

(** On the sample data nobody is assigned twice, before or after. *)
Lemma interviewee_no_double_assignment_witness :
  NoDup (assignedCallsSubquery sample_db)
  /\ NoDup (assignedCallsSubquery
              (db (snd (intervieweeForCallAssignment sample_fromGlobalId sample_env
                          sample_caller "CallAssignment:3" sample_world)))).
Proof.
  assert (P : NoDup (assignedCallsSubquery sample_db)).
  { constructor; [intros [H|[]]; discriminate H|].
    constructor; [intros [] | constructor]. }
  split; [exact P|].
  exact (@interviewee_no_double_assignment sample_fromGlobalId sample_env sample_caller
           "CallAssignment:3" sample_world P).
Defined.

(** Ann's number was reported wrong for another call assignment: she is
    not assigned for this one. *)
Lemma interviewee_respects_call_history_witness :
  In sample_wrong_number (bsd_calls (db sample_history))
  /\ forall row,
       In row (bsd_assigned_calls
                 (db (snd (intervieweeForCallAssignment sample_fromGlobalId sample_env
                             sample_caller "CallAssignment:3" sample_history)))) ->
       AssignedCall.caller_id row = "7" ->
       AssignedCall.interviewee_id row <> "42".
Proof.
  assert (P : In sample_wrong_number (bsd_calls (db sample_history)))
    by (left; reflexivity).
  split; [exact P|].
  apply (@interviewee_respects_call_history sample_fromGlobalId sample_env sample_caller
           "CallAssignment:3" sample_history sample_wrong_number P).
  right. left. exists "WRONG_NUMBER". split; [reflexivity | left; reflexivity].
Defined.

(** The sample submission meets every condition and goes through. *)
Lemma submitCallSurvey_goes_through_witness :
  exists w',
    submitCallSurvey sample_fromGlobalId sample_JSON_parse sample_env sample_submission
      (mkSession (Some sample_caller)) sample_world = (Ok sample_caller, w')
    /\ List.length (bsd_calls (db w')) = 1%nat
    /\ bsd_assigned_calls (db w') = [AssignedCall.mk 2 "8" "44" "3" 0 0].
Proof.
  destruct (@submitCallSurvey_goes_through sample_fromGlobalId sample_JSON_parse sample_env
              sample_submission sample_caller sample_world
              (AssignedCall.mk 1 "7" "42" "3" 0 0)
              (CallAssignment.mk "3" "Canvass" "survey" None "9" "5" 0 None None)
              (Survey.mk "5" "100" (Some ["bsd-form-submitter"; "bsd-event-rsvper"]))
              ["bsd-form-submitter"; "bsd-event-rsvper"] []
              (Person.mk "42" [("firstname", JStr "Ann")])
              eq_refl eq_refl eq_refl eq_refl eq_refl eq_refl eq_refl)
    as (w' & Hrun & Hcalls & Hassigned & _).
  { right. exists (Address.mk "a42" "42" "96801" true (mkGeom 1000000 0)).
    split; [left; reflexivity | split; reflexivity]. }
  exists w'. split; [exact Hrun|]. rewrite Hcalls, Hassigned. split; reflexivity.
Defined.

(** The caller is assigned Ann and reports a call nobody picked up. *)
Lemma interviewee_then_submit_witness :
  let assigned := intervieweeForCallAssignment sample_fromGlobalId sample_env
                    sample_caller "CallAssignment:3" sample_world in
  exists w2 call,
    submitCallSurvey sample_fromGlobalId sample_JSON_parse sample_env
      (SubmitCallSurveyInput.mk "CallAssignment:3" "Person:42" false None None
         (Some "NO_PICKUP") "{}")
      (mkSession (Some sample_caller)) (snd assigned) = (Ok sample_caller, w2)
    /\ bsd_calls (db w2) = [call]
    /\ Call.interviewee_id call = "42"
    /\ filter (mine sample_caller) (bsd_assigned_calls (db w2)) = [].
Proof.
  cbv zeta.
  destruct (@interviewee_then_submit sample_fromGlobalId sample_JSON_parse
              sample_env sample_env sample_caller "CallAssignment:3" "Person:42"
              sample_world
              (snd (intervieweeForCallAssignment sample_fromGlobalId sample_env
                      sample_caller "CallAssignment:3" sample_world))
              (Person.mk "42" [("firstname", JStr "Ann")])
              (CallAssignment.mk "3" "Canvass" "survey" None "9" "5" 0 None None)
              (Survey.mk "5" "100" (Some ["bsd-form-submitter"; "bsd-event-rsvper"]))
              ["bsd-form-submitter"; "bsd-event-rsvper"] []
              false None None (Some "NO_PICKUP") "{}"
              eq_refl eq_refl eq_refl eq_refl eq_refl eq_refl)
    as (w2 & call & Hrun & Hcalls & _ & Hwho & _ & _ & _ & Hnone).
  exists w2, call.
  split; [exact Hrun | split; [exact Hcalls | split; [exact Hwho | exact Hnone]]].
Defined.

(** Once the completed call to Ann is on record, the next request assigns
    somebody else. *)
Lemma submit_then_not_reassigned_witness :
  let submitted := submitCallSurvey sample_fromGlobalId sample_JSON_parse sample_env
                     sample_submission (mkSession (Some sample_caller)) sample_world in
  fst submitted = Ok sample_caller
  /\ forall row,
       In row (bsd_assigned_calls
                 (db (snd (intervieweeForCallAssignment sample_fromGlobalId sample_env
                             sample_caller "CallAssignment:3" (snd submitted))))) ->
       AssignedCall.caller_id row = "7" ->
       AssignedCall.interviewee_id row <> "42".
Proof.
  cbv zeta. split; [reflexivity|].
  apply (@submit_then_not_reassigned sample_fromGlobalId sample_JSON_parse
           sample_env sample_env sample_submission sample_caller sample_caller
           sample_world
           (snd (submitCallSurvey sample_fromGlobalId sample_JSON_parse sample_env
                   sample_submission (mkSession (Some sample_caller)) sample_world))
           (snd (submitCallSurvey sample_fromGlobalId sample_JSON_parse sample_env
                   sample_submission (mkSession (Some sample_caller)) sample_world))
           sample_caller).
  - reflexivity.
  - intros x Hx. exact Hx.
  - left. reflexivity.
Defined.

(** With the CRM down the superuser's deletion fails and both events stay. *)
Lemma deleteEvents_crm_failure_witness :
  exists e w',
    deleteEvents sample_fromGlobalId (with_bsd crm_down sample_env) sample_delete
      (mkSession (Some sample_superuser)) sample_world = (Throw e, w')
    /\ bsd_events (db w') = bsd_events sample_db
    /\ outbox w' = []
    /\ crm_calls w' = [DeleteEvents ["11"; "12"]].
Proof.
  eexists _, _.
  split; [|split; [|split]].
  - apply (@deleteEvents_crm_failure sample_fromGlobalId (with_bsd crm_down sample_env)
             sample_delete sample_superuser sample_world _ eq_refl
             (or_introl eq_refl) eq_refl).
  - reflexivity.
  - reflexivity.
  - reflexivity.
Defined.


(** The invitation for event 11 is refused once the request is marked as
    sent; the admin copy has gone out all the same. *)
Lemma createAdminEventEmail_refusals_witness :
  createAdminEventEmail sample_fromGlobalId sample_toISOString sample_env sample_invite
    (mkSession (Some sample_admin)) sample_sent_world
  = (Throw (newGraphQLError
              (mkErrorObject 403 "Fast Forward has already been sent for this event.")),
     mkWorld (db sample_sent_world)
             [AdminEventInvite "host@example.org" "sender@example.org" "Please come"
                "Sent for the host" (Some "admin@example.org") "Join us"] [] []).
Proof.
  apply (proj2 (@createAdminEventEmail_refusals sample_fromGlobalId sample_toISOString
                  sample_env sample_invite sample_admin sample_sent_world eq_refl)
           eq_refl eq_refl 11
           (FastFwdRequest.mk 1 "11" "Please help" (Some "2016-05-01 12:00:00"))
           "2016-05-01 12:00:00" eq_refl eq_refl eq_refl).
  discriminate.
Defined.

(** In test mode only the admin copy leaves. *)
Lemma createAdminEventEmail_test_mode_witness :
  exists entry,
    createAdminEventEmail sample_fromGlobalId sample_toISOString sample_env
      sample_test_invite (mkSession (Some sample_admin)) sample_pending_world
    = (Ok [], mkWorld (db sample_pending_world) [adminCopy sample_test_invite] []
                      [entry]).
Proof.
  apply (@createAdminEventEmail_test_mode sample_fromGlobalId sample_toISOString
           sample_env sample_test_invite sample_admin sample_pending_world 11
           eq_refl eq_refl eq_refl eq_refl eq_refl).
  - intros n request Hn Hreq. vm_compute in Hn. injection Hn as <-.
    vm_compute in Hreq. injection Hreq as <-. reflexivity.
  - reflexivity.
Defined.

(** The mailer delivers to the admin only: Ann is not invited, no
    communication is recorded, and the request of event 11 is stamped as
    sent. *)
Lemma createAdminEventEmail_marks_sent_witness :
  exists w',
    createAdminEventEmail sample_fromGlobalId sample_toISOString sample_mail_trouble
      sample_invite (mkSession (Some sample_admin)) sample_pending_world = (Ok [], w')
    /\ fast_fwd_request (db w')
       = [FastFwdRequest.mk 1 "11" "Please help" (Some "72000000");
          FastFwdRequest.mk 2 "12" "Join us" None]
    /\ communications (db w') = [].
Proof.
  destruct (@createAdminEventEmail_marks_sent sample_fromGlobalId sample_toISOString
              sample_mail_trouble sample_invite sample_admin sample_pending_world
              11 "Person:42" [] eq_refl eq_refl eq_refl eq_refl eq_refl)
    as (w' & Hrun & Hreq & Hcomm).
  - intros n request Hn Hreq. vm_compute in Hn. injection Hn as <-.
    vm_compute in Hreq. injection Hreq as <-. reflexivity.
  - reflexivity.
  - exists w'. split; [exact Hrun|]. split; [exact Hreq|].
    apply Hcomm. eexists _, _. vm_compute. reflexivity.
Defined.

(** An anonymous request for event 11, which has a pending request,
    rewrites the host message of that request. *)
Lemma createFastFwdRequest_upsert_witness :
  exists result w',
    createFastFwdRequest sample_fromGlobalId "Come along" "Event:11" (mkSession None)
      sample_pending_world = (Ok result, w')
    /\ forall r, In r (requestsOf "11" (db w')) ->
                 FastFwdRequest.host_message r = "Come along".
Proof.
  destruct (@createFastFwdRequest_upsert sample_fromGlobalId "Come along" "Event:11"
              (mkSession None) sample_pending_world 11 eq_refl eq_refl)
    as (result & w' & Hrun & _ & _ & Hmsg & _).
  - lia.
  - exists result, w'. split; [exact Hrun | exact Hmsg].
Defined.

(** The sample call assignment has no end date: it is active. *)
Lemma callAssignments_active_or_inactive_witness :
  let canvass := CallAssignment.mk "3" "Canvass" "survey" None "9" "5" 0 None None in
  In canvass (activeCallAssignments sample_env (bsd_call_assignments sample_db))
  /\ ~ In canvass (inactiveCallAssignments sample_env (bsd_call_assignments sample_db)).
Proof.
  cbv zeta.
  apply (@callAssignments_active_or_inactive sample_env (bsd_call_assignments sample_db)
           (CallAssignment.mk "3" "Canvass" "survey" None "9" "5" 0 None None)).
  - left. reflexivity.
  - reflexivity.
Defined.

(** Around the sample event the search returns Bob, who lives next door,
    is subscribed and has not been written to. *)
Lemma nearbyPeople_reachable_witness :
  let bob := Person.mk "43" [("firstname", JStr "Bob")] in
  fst (nearbyPeople sample_st_dwithin 23 sample_event sample_world)
  = Ok (Some [("bob@example.org", bob)])
  /\ exists radius,
       radius <= 50000
       /\ reachable sample_st_dwithin (mkGeom 0 0) radius sample_db "bob@example.org" "43".
Proof.
  cbv zeta.
  assert (R : fst (nearbyPeople sample_st_dwithin 23 sample_event sample_world)
              = Ok (Some [("bob@example.org", Person.mk "43" [("firstname", JStr "Bob")])]))
    by (vm_compute; reflexivity).
  split; [exact R|].
  exact (proj2 (@nearbyPeople_reachable sample_st_dwithin 23 sample_event (mkGeom 0 0)
                  sample_world _ eq_refl R
                  ("bob@example.org", Person.mk "43" [("firstname", JStr "Bob")])
                  (or_introl eq_refl))).
Defined.

(** The CRM rejects the blanked name: the error is reported under the
    event's public id and the local events are as before. *)
Lemma editEvent_follows_crm_witness :
  let run := editEvent sample_Number sample_strict_crm sample_admin sample_blank_name
               ([], []) sample_world in
  fst run = Ok (["4vfn: name is required"], [])
  /\ db (snd run) = sample_db.
Proof.
  cbv zeta.
  destruct (@editEvent_follows_crm sample_Number sample_strict_crm sample_admin
              sample_blank_name [] [] sample_world "11" 11 eq_refl eq_refl eq_refl)
    as [_ H].
  destruct (H sample_event eq_refl) as (_ & _ & _ & Hinvalid & _).
  exact (Hinvalid "name is required" eq_refl).
Defined.

(** The query that drops a table is refused and nothing is written. *)
Lemma createCallAssignment_rejects_sql_keywords_witness :
  createCallAssignment sample_fromGlobalId sample_env sample_drop_assignment
    (mkSession (Some sample_admin)) sample_surveyed_world
  = (Throw (newGraphQLError (mkErrorObject 400 "Cannot use DROP in your SQL")),
     sample_surveyed_world).
Proof.
  apply (@createCallAssignment_rejects_sql_keywords sample_fromGlobalId sample_env
           sample_drop_assignment sample_admin sample_surveyed_world
           [("signup_form_id", JStr "100")]).
  - reflexivity.
  - vm_compute. reflexivity.
  - vm_compute. reflexivity.
  - vm_compute. reflexivity.
Defined.

(** A call assignment over a query the database accepts gets a group of
    its own, kept under the query in lower case and without its
    semicolon. *)
Lemma createCallAssignment_query_group_witness :
  exists row group w',
    createCallAssignment sample_fromGlobalId sample_env sample_query_assignment
      (mkSession (Some sample_admin)) sample_surveyed_world = (Ok row, w')
    /\ Group.query group = Some "select cons_id from bsd_people"
    /\ gc_bsd_groups (db w') = gc_bsd_groups sample_db ++ [group]
    /\ CallAssignment.interviewee_group row = Group.id group.
Proof.
  destruct (@createCallAssignment_query_group sample_fromGlobalId sample_env
              sample_query_assignment sample_admin sample_surveyed_world
              [("signup_form_id", JStr "100")])
    as (row & newSurvey & group & w' & Hrun & _ & _ & _ & _ & _ & _ & Hgroup & Hquery
        & Hnew & _).
  - reflexivity.
  - vm_compute. reflexivity.
  - vm_compute. reflexivity.
  - vm_compute. reflexivity.
  - vm_compute. reflexivity.
  - intros _ d. reflexivity.
  - exists row, group, w'. split; [exact Hrun|].
    assert (G : groupOfQuery
                  (strip_semicolons
                     (trim (toLowerCase
                              (CreateCallAssignmentInput.intervieweeGroup
                                 sample_query_assignment))))
                  (db sample_surveyed_world)
                = None)
      by (vm_compute; reflexivity).
    rewrite G in Hnew. destruct Hnew as [Hgroups _].
    split; [exact Hquery|]. split; [exact Hgroups | exact Hgroup].
Defined.

(** Before the invitation the search around the event finds Bob and Cid;
    once Bob has been invited it finds Cid only. *)
Lemma invited_people_not_nearby_witness :
  let invited := snd (createAdminEventEmail sample_fromGlobalId sample_toISOString
                        sample_env sample_invite_bob (mkSession (Some sample_admin))
                        neighbours_world) in
  let cid := ("cid@example.org", Person.mk "45" [("firstname", JStr "Cid")]) in
  fst (nearbyPeople sample_st_dwithin 23 sample_event neighbours_world)
  = Ok (Some [("bob@example.org", Person.mk "43" [("firstname", JStr "Bob")]); cid])
  /\ fst (nearbyPeople sample_st_dwithin 23 sample_event invited) = Ok (Some [cid])
  /\ row_cons_id cid <> "43".
Proof.
  cbv zeta.
  assert (R : fst (nearbyPeople sample_st_dwithin 23 sample_event
                     (snd (createAdminEventEmail sample_fromGlobalId sample_toISOString
                             sample_env sample_invite_bob (mkSession (Some sample_admin))
                             neighbours_world)))
              = Ok (Some [("cid@example.org", Person.mk "45" [("firstname", JStr "Cid")])]))
    by (vm_compute; reflexivity).
  split; [vm_compute; reflexivity|]. split; [exact R|].
  assert (C : createAdminEventEmail sample_fromGlobalId sample_toISOString sample_env
                sample_invite_bob (mkSession (Some sample_admin)) neighbours_world
              = (Ok [], snd (createAdminEventEmail sample_fromGlobalId sample_toISOString
                               sample_env sample_invite_bob
                               (mkSession (Some sample_admin)) neighbours_world)))
    by (vm_compute; reflexivity).
  assert (S : inviteRecipients sample_fromGlobalId sample_env sample_invite_bob
                (mkWorld (db neighbours_world)
                         (outbox neighbours_world ++ [adminCopy sample_invite_bob])
                         (crm_calls neighbours_world) (logs neighbours_world))
              = (Ok tt, snd (inviteRecipients sample_fromGlobalId sample_env
                               sample_invite_bob
                               (mkWorld neighbours_db [adminCopy sample_invite_bob] [] []))))
    by (vm_compute; reflexivity).
  exact (@invited_people_not_nearby sample_fromGlobalId sample_st_dwithin
           sample_toISOString sample_env sample_invite_bob sample_admin neighbours_world
           _ _ ["Person:43"] 23 sample_event (mkGeom 0 0) _
           C eq_refl S eq_refl R "Person:43"
           ("cid@example.org", Person.mk "45" [("firstname", JStr "Cid")])
           (or_introl eq_refl) (or_introl eq_refl)).
Defined.

